(** * github-repo-fetcher: a shallow embedding of the fetch-and-paginate core

    The development follows the Python sources:
    - [src/github_fetcher/utils.py]   : [exponential_backoff],
      [calculate_wait_time], [format_rate_limit_info], [extract_repo_data];
    - [src/github_fetcher/client.py]  : [GitHubGraphQLClient.execute],
      [check_rate_limit], [wait_for_rate_limit], [get_rate_limit_info];
    - [src/github_fetcher/fetcher.py] : [search_repositories],
      [_fetch_users_with_date_split], [_paginated_user_search],
      [fetch_users_by_location], [_fetch_user_repos],
      [fetch_repos_for_users], [fetch_by_location_two_step],
      [_save_progress].

    Decoded JSON is a [value]; a Python dict is an association list read
    with [dict_get]; an expression that may raise returns a [res].  The
    client and the fetcher are explicit state, a [world], threaded by the
    monad [M]: the world holds the attributes [_rate_limit] and [_repos],
    the responses the network will give ([script]), the readings of the
    clock ([clock]) and a [trace] of the requests posted, the sleeps and the
    files written.  A [while] loop takes a [fuel] and gives [None] when it
    runs out; every iteration that goes on posts a request, so fuel above
    the length of the script is enough (see [runs_search_loop], and
    [runs_date_split_loop] for the one loop that needs twice as much).
    Printing and the progress bar are left out. *)

From Stdlib Require Import ZArith QArith Qminmax Qpower List String Ascii Bool Lia.
From Stdlib Require Import DecimalString.
Import ListNotations.

Set Warnings "-register-all".

Local Open Scope string_scope.
Local Open Scope list_scope.

(** ** Python values *)

(** What [response.json()] can produce (the schema has no floating-point
    field, so numbers are integers). *)
Inductive value : Type :=
| VNone
| VBool (b : bool)
| VInt (n : Z)
| VStr (s : string)
| VList (items : list value)
| VDict (entries : list (string * value)).

(** Python truthiness ([if x:], [x or y], [not x]). *)
Definition truthy (v : value) : bool :=
  match v with
  | VNone => false
  | VBool b => b
  | VInt n => negb (n =? 0)%Z
  | VStr s => negb (s =? "")
  | VList items => match items with [] => false | _ => true end
  | VDict entries => match entries with [] => false | _ => true end
  end.

(** [a or b] *)
Definition py_or (a b : value) : value := if truthy a then a else b.

Fixpoint assoc (k : string) (d : list (string * value)) : option value :=
  match d with
  | [] => None
  | (k', v) :: rest => if k' =? k then Some v else assoc k rest
  end.

(** [d.get(k, dflt)] on a dict. *)
Definition dict_get (d : list (string * value)) (k : string) (dflt : value) : value :=
  match assoc k d with
  | Some v => v
  | None => dflt
  end.

(** ** Exceptions and fallible computations *)

Inductive exn : Type :=
| AttributeError
| TypeError
| KeyError
| ValueError (msg : string)
| RequestException (msg : string).

Inductive res (A : Type) : Type :=
| Ok (a : A)
| Raise (e : exn).
Arguments Ok {A} a.
Arguments Raise {A} e.

Definition rbind {A B} (m : res A) (k : A -> res B) : res B :=
  match m with
  | Ok a => k a
  | Raise e => Raise e
  end.

Declare Scope res_scope.
Delimit Scope res_scope with res.
Notation "x <- m ;; k" := (rbind m (fun x => k))
  (at level 61, m at next level, right associativity) : res_scope.

(** [o.get(k, dflt)]: only a dict has a [get] attribute. *)
Definition py_get (o : value) (k : string) (dflt : value) : res value :=
  match o with
  | VDict d => Ok (dict_get d k dflt)
  | _ => Raise AttributeError
  end.

Fixpoint chars (s : string) : list value :=
  match s with
  | EmptyString => []
  | String c rest => VStr (String c EmptyString) :: chars rest
  end.

(** [for x in o]: a list yields its items, a dict its keys, a string its
    characters; anything else is not iterable. *)
Definition py_iter (o : value) : res (list value) :=
  match o with
  | VList items => Ok items
  | VDict d => Ok (map (fun kv => VStr (fst kv)) d)
  | VStr s => Ok (chars s)
  | _ => Raise TypeError
  end.

(** [[f(x) for x in l if cond(x)]], left to right, stopping at the first
    exception. *)
Fixpoint comprehension (cond : value -> res bool) (f : value -> res value)
    (l : list value) : res (list value) :=
  match l with
  | [] => Ok []
  | x :: rest =>
      (c <- cond x ;;
       if c then
         y <- f x ;;
         ys <- comprehension cond f rest ;;
         Ok (y :: ys)
       else comprehension cond f rest)%res
  end.

(** ** utils.py: [extract_repo_data] *)

Section Extraction.
Local Open Scope res_scope.

(** Lines 104-108. *)
Definition extract_languages (repo_node : value) : res value :=
  languages_nodes <- py_get repo_node "languages" (VDict []) ;;
  if truthy languages_nodes then
    nodes <- py_get languages_nodes "nodes" (VList []) ;;
    langs <- py_iter nodes ;;
    languages <- comprehension (fun lang => Ok (truthy lang))
                   (fun lang => py_get lang "name" VNone) langs ;;
    Ok (VList languages)
  else Ok (VList []).

(** Lines 111-119. *)
Definition extract_topics (repo_node : value) : res value :=
  topics_data <- py_get repo_node "repositoryTopics" (VDict []) ;;
  if truthy topics_data then
    nodes <- py_get topics_data "nodes" (VList []) ;;
    items <- py_iter nodes ;;
    topics <- comprehension
                (fun node =>
                   if truthy node then
                     t <- py_get node "topic" VNone ;; Ok (truthy t)
                   else Ok false)
                (fun node =>
                   t <- py_get node "topic" (VDict []) ;;
                   py_get t "name" VNone)
                items ;;
    Ok (VList topics)
  else Ok (VList []).

(** Lines 122-123. *)
Definition extract_readme (repo_node : value) : res value :=
  readme_obj <- py_get repo_node "object" VNone ;;
  if truthy readme_obj then py_get readme_obj "text" (VStr "")
  else Ok (VStr "").

(** [o.get(k, {}).get('totalCount', 0) if o.get(k) else 0]
    (lines 145, 146 and 173). *)
Definition total_count (o : value) (k : string) : res value :=
  c <- py_get o k VNone ;;
  if truthy c then
    sub <- py_get o k (VDict []) ;;
    py_get sub "totalCount" (VInt 0)
  else Ok (VInt 0).

(** [x == 'User'] *)
Definition is_User (x : value) : bool :=
  match x with
  | VStr s => s =? "User"
  | _ => false
  end.

Definition extract_repo_data (repo_node : value) : res value :=
  if negb (truthy repo_node) then Ok (VDict [])
  else
    owner0 <- py_get repo_node "owner" (VDict []) ;;
    let owner := py_or owner0 (VDict []) in
    owner_typename <- py_get owner "__typename" (VStr "") ;;
    languages <- extract_languages repo_node ;;
    topics <- extract_topics repo_node ;;
    readme_content <- extract_readme repo_node ;;
    license0 <- py_get repo_node "licenseInfo" (VDict []) ;;
    let license_info := py_or license0 (VDict []) in
    primary0 <- py_get repo_node "primaryLanguage" (VDict []) ;;
    let primary_lang := py_or primary0 (VDict []) in
    nwo <- py_get repo_node "nameWithOwner" (VStr "") ;;
    name <- py_get repo_node "name" (VStr "") ;;
    description <- py_get repo_node "description" (VStr "") ;;
    url <- py_get repo_node "url" (VStr "") ;;
    homepage_url <- py_get repo_node "homepageUrl" (VStr "") ;;
    created_at <- py_get repo_node "createdAt" (VStr "") ;;
    updated_at <- py_get repo_node "updatedAt" (VStr "") ;;
    pushed_at <- py_get repo_node "pushedAt" (VStr "") ;;
    stars <- py_get repo_node "stargazerCount" (VInt 0) ;;
    forks <- py_get repo_node "forkCount" (VInt 0) ;;
    watchers <- total_count repo_node "watchers" ;;
    open_issues <- total_count repo_node "issues" ;;
    disk_usage_kb <- py_get repo_node "diskUsage" (VInt 0) ;;
    primary_language <- py_get primary_lang "name" (VStr "") ;;
    is_fork <- py_get repo_node "isFork" (VBool false) ;;
    is_archived <- py_get repo_node "isArchived" (VBool false) ;;
    is_private <- py_get repo_node "isPrivate" (VBool false) ;;
    is_template <- py_get repo_node "isTemplate" (VBool false) ;;
    has_wiki <- py_get repo_node "hasWikiEnabled" (VBool false) ;;
    has_issues <- py_get repo_node "hasIssuesEnabled" (VBool false) ;;
    license_key <- py_get license_info "key" (VStr "") ;;
    license_name <- py_get license_info "name" (VStr "") ;;
    owner_login <- py_get owner "login" (VStr "") ;;
    owner_location <- py_get owner "location" (VStr "") ;;
    owner_company <- (if is_User owner_typename
                      then py_get owner "company" (VStr "")
                      else Ok (VStr "")) ;;
    owner_bio <- (if is_User owner_typename
                  then py_get owner "bio" (VStr "")
                  else py_get owner "description" (VStr "")) ;;
    owner_email <- py_get owner "email" (VStr "") ;;
    owner_followers <- total_count owner "followers" ;;
    owner_created_at <- py_get owner "createdAt" (VStr "") ;;
    Ok (VDict
          [ ("nwo", nwo);
            ("name", name);
            ("description", description);
            ("url", url);
            ("homepage_url", homepage_url);
            ("created_at", created_at);
            ("updated_at", updated_at);
            ("pushed_at", pushed_at);
            ("stars", stars);
            ("forks", forks);
            ("watchers", watchers);
            ("open_issues", open_issues);
            ("disk_usage_kb", disk_usage_kb);
            ("primary_language", primary_language);
            ("languages", languages);
            ("topics", topics);
            ("is_fork", is_fork);
            ("is_archived", is_archived);
            ("is_private", is_private);
            ("is_template", is_template);
            ("has_wiki", has_wiki);
            ("has_issues", has_issues);
            ("license_key", license_key);
            ("license_name", license_name);
            ("owner_login", owner_login);
            ("owner_type", owner_typename);
            ("owner_location", owner_location);
            ("owner_company", owner_company);
            ("owner_bio", owner_bio);
            ("owner_email", owner_email);
            ("owner_followers", owner_followers);
            ("owner_created_at", owner_created_at);
            ("readme_content", readme_content) ]).

End Extraction.

(** The keys of the flattened record, in the order of the dict literal. *)
Definition record_keys : list string :=
  [ "nwo"; "name"; "description"; "url"; "homepage_url"; "created_at";
    "updated_at"; "pushed_at"; "stars"; "forks"; "watchers"; "open_issues";
    "disk_usage_kb"; "primary_language"; "languages"; "topics"; "is_fork";
    "is_archived"; "is_private"; "is_template"; "has_wiki"; "has_issues";
    "license_key"; "license_name"; "owner_login"; "owner_type";
    "owner_location"; "owner_company"; "owner_bio"; "owner_email";
    "owner_followers"; "owner_created_at"; "readme_content" ].

(** ** More of Python's built-in operations *)

(** [u == v] on decoded JSON, used by [u not in users].  It is structural
    equality: on strings, the only login values the schema produces, this is
    what Python's [==] computes. *)
Fixpoint value_eqb (a b : value) : bool :=
  match a, b with
  | VNone, VNone => true
  | VBool x, VBool y => Bool.eqb x y
  | VInt x, VInt y => (x =? y)%Z
  | VStr x, VStr y => x =? y
  | VList xs, VList ys =>
      (fix go (xs ys : list value) : bool :=
         match xs, ys with
         | [], [] => true
         | x :: xs', y :: ys' => value_eqb x y && go xs' ys'
         | _, _ => false
         end) xs ys
  | VDict xs, VDict ys =>
      (fix go (xs ys : list (string * value)) : bool :=
         match xs, ys with
         | [], [] => true
         | (k, x) :: xs', (k', y) :: ys' => (k =? k') && value_eqb x y && go xs' ys'
         | _, _ => false
         end) xs ys
  | _, _ => false
  end.

(** [u in users] *)
Definition py_elem (u : value) (users : list value) : bool :=
  existsb (value_eqb u) users.

(** [needle in hay] on strings. *)
Fixpoint is_substring (needle hay : string) : bool :=
  prefix needle hay ||
  match hay with
  | EmptyString => false
  | String _ rest => is_substring needle rest
  end.

(** [k in container] for a string [k]. *)
Definition py_in (k : string) (container : value) : res bool :=
  match container with
  | VDict d => Ok (match assoc k d with Some _ => true | None => false end)
  | VList items => Ok (existsb (value_eqb (VStr k)) items)
  | VStr s => Ok (is_substring k s)
  | _ => Raise TypeError
  end.

(** [container[k]] for a string [k]. *)
Definition py_getitem (container : value) (k : string) : res value :=
  match container with
  | VDict d => match assoc k d with Some v => Ok v | None => Raise KeyError end
  | _ => Raise TypeError
  end.

(** [s.lower()] on the ASCII letters (bytes above 127 are left alone). *)
Definition lower_ascii (c : ascii) : ascii :=
  let n := nat_of_ascii c in
  if (65 <=? n)%nat && (n <=? 90)%nat then ascii_of_nat (n + 32) else c.

Fixpoint lower (s : string) : string :=
  match s with
  | EmptyString => EmptyString
  | String c rest => String (lower_ascii c) (lower rest)
  end.

(** [x.lower()]: only a string has the method. *)
Definition py_lower (x : value) : res string :=
  match x with
  | VStr s => Ok (lower s)
  | _ => Raise AttributeError
  end.

(** An integer operand of [<], [<=], [-] and [min]; [bool] is a subclass of
    [int] in Python, anything else in the JSON raises [TypeError]. *)
Definition as_int (x : value) : res Z :=
  match x with
  | VInt n => Ok n
  | VBool b => Ok (if b then 1 else 0)%Z
  | _ => Raise TypeError
  end.

(** [x == 0] *)
Definition py_is_zero (x : value) : bool :=
  match x with
  | VInt n => (n =? 0)%Z
  | VBool b => negb b
  | _ => false
  end.

(** [sep.join(items)]: every item must be a string. *)
Fixpoint py_join (sep : string) (items : list value) : res string :=
  match items with
  | [] => Ok ""
  | [VStr s] => Ok s
  | VStr s :: rest => (r <- py_join sep rest ;; Ok (s ++ sep ++ r)%string)%res
  | _ :: _ => Raise TypeError
  end.

(** Built-ins whose text output the repository only forwards: [str(x)] and
    [date.isoformat()] of the day with a given ordinal. *)
Class Builtins : Type := {
  py_str : value -> string;
  isoformat : Z -> string
}.

(** [f"{x}"]: a string is inserted as it is. *)
Definition fmt `{Builtins} (x : value) : string :=
  match x with
  | VStr s => s
  | _ => py_str x
  end.

(** ** The client, the fetcher and their environment *)

Inductive template : Type :=
| SEARCH_REPOS_QUERY
| SINGLE_REPO_QUERY
| USER_COUNT_QUERY
| USER_SEARCH_QUERY
| USER_REPOS_QUERY
| RATE_LIMIT_QUERY.

(** One round trip [session.post] / [raise_for_status] / [response.json()]:
    a [requests.exceptions.RequestException] or the decoded body. *)
Inductive http_result : Type :=
| HttpError (msg : string)
| HttpOk (result : value).

Inductive event : Type :=
| Posted (query : template) (variables : value)
| Slept (seconds : Q)
| Written (output_path : string) (rows : list value).

(** [script]: the round trips still to come, in order (past its end the
    connection is down: every post fails); [clock]: what the successive
    evaluations of [(reset_time - now).total_seconds()] will give;
    [_rate_limit]: the client's attribute; [_repos]: the fetcher's buffer;
    [trace]: what has been done so far, most recent first. *)
Record world : Type := mkWorld {
  script : list http_result;
  clock : list (res Q);
  _rate_limit : value;
  _repos : list value;
  trace : list event
}.

Definition M (A : Type) : Type := world -> option (res A * world).

Definition ret {A} (a : A) : M A := fun w => Some (Ok a, w).
Definition raise {A} (e : exn) : M A := fun w => Some (Raise e, w).
Definition lift {A} (r : res A) : M A := fun w => Some (r, w).
Definition out_of_fuel {A} : M A := fun _ => None.

Definition bind {A B} (m : M A) (k : A -> M B) : M B :=
  fun w =>
    match m w with
    | None => None
    | Some (Ok a, w') => k a w'
    | Some (Raise e, w') => Some (Raise e, w')
    end.

(** [try: m except Exception as e: handler(e)] *)
Definition try_except {A} (m : M A) (handler : exn -> M A) : M A :=
  fun w =>
    match m w with
    | Some (Raise e, w') => handler e w'
    | other => other
    end.

Declare Scope fetch_scope.
Delimit Scope fetch_scope with fetch.
Notation "x <- m ;; k" := (bind m (fun x => k))
  (at level 61, m at next level, right associativity) : fetch_scope.
Notation "m ;; k" := (bind m (fun _ => k))
  (at level 61, right associativity) : fetch_scope.

Definition log (ev : event) : M unit :=
  fun w => Some (Ok tt, mkWorld (script w) (clock w) (_rate_limit w) (_repos w)
                          (ev :: trace w)).

Definition get_rate_limit : M value := fun w => Some (Ok (_rate_limit w), w).
Definition set_rate_limit (rl : value) : M unit :=
  fun w => Some (Ok tt, mkWorld (script w) (clock w) rl (_repos w) (trace w)).

Definition get_repos : M (list value) := fun w => Some (Ok (_repos w), w).
Definition set_repos (rows : list value) : M unit :=
  fun w => Some (Ok tt, mkWorld (script w) (clock w) (_rate_limit w) rows (trace w)).

(** [time.sleep(seconds)] *)
Definition sleep (seconds : Q) : M unit := log (Slept seconds).

(** [self.session.post(...)], [response.raise_for_status()] and
    [response.json()]. *)
Definition session_post (query : template) (variables : value) : M value :=
  fun w =>
    let tr := Posted query variables :: trace w in
    match script w with
    | [] =>
        Some (Raise (RequestException "connection error"),
              mkWorld [] (clock w) (_rate_limit w) (_repos w) tr)
    | HttpError msg :: rest =>
        Some (Raise (RequestException msg),
              mkWorld rest (clock w) (_rate_limit w) (_repos w) tr)
    | HttpOk result :: rest =>
        Some (Ok result, mkWorld rest (clock w) (_rate_limit w) (_repos w) tr)
    end.

(** [(reset_time - now).total_seconds()], where parsing [reset_at] may raise
    [ValueError]. *)
Definition seconds_until (reset_at : string) : M Q :=
  fun w =>
    match clock w with
    | [] => Some (Ok 0%Q, w)
    | r :: rest =>
        Some (r, mkWorld (script w) rest (_rate_limit w) (_repos w) (trace w))
    end.

(** ** utils.py: [exponential_backoff] and [calculate_wait_time] *)

Section Backoff.
Local Open Scope fetch_scope.

Context {A : Type}.
Variables (max_retries : nat) (base_delay max_delay exponential_base : Q).
(** [isinstance(e, exceptions)] *)
Variable exceptions : exn -> bool.
Variable func : M A.

(** [min(base_delay * (exponential_base ** attempt), max_delay)] *)
Definition backoff_delay (attempt : nat) : Q :=
  Qmin (base_delay * exponential_base ^ Z.of_nat attempt) max_delay.

(** The body of [wrapper]: the [for] loop over the attempts still to make,
    then the [raise last_exception] after it. *)
Fixpoint wrapper_loop (attempts : list nat) (last_exception : option exn) : M A :=
  match attempts with
  | [] =>
      match last_exception with
      | Some e => raise e
      | None => raise TypeError
      end
  | attempt :: rest =>
      try_except func
        (fun e =>
           if exceptions e then
             if (attempt =? max_retries)%nat then raise e
             else
               sleep (backoff_delay attempt) ;;
               wrapper_loop rest (Some e)
           else raise e)
  end.

Definition exponential_backoff : M A :=
  wrapper_loop (seq 0 (max_retries + 1)) None.

End Backoff.

Section CalculateWaitTime.
Local Open Scope fetch_scope.

(** [max(0, wait_seconds + 5)]; [reset_at.replace] needs a string. *)
Definition calculate_wait_time (reset_at : value) : M Q :=
  match reset_at with
  | VStr s =>
      wait_seconds <- seconds_until s ;;
      ret (Qmax 0 (wait_seconds + 5))
  | _ => raise AttributeError
  end.

End CalculateWaitTime.

(** ** client.py: [GitHubGraphQLClient] *)

Section Client.
Context `{Builtins}.
Local Open Scope fetch_scope.

(** [isinstance(e, requests.exceptions.RequestException)] *)
Definition is_request_exception (e : exn) : bool :=
  match e with
  | RequestException _ => true
  | _ => false
  end.

(** The function under the decorator (lines 66-84). *)
Definition execute_body (query : template) (variables : value) : M value :=
  result <- session_post query variables ;;
  has_data <- lift (py_in "data" result) ;;
  has_rate <- (if has_data : bool then
                 data <- lift (py_getitem result "data") ;;
                 lift (py_in "rateLimit" data)
               else ret false) ;;
  (if has_rate : bool then
     data <- lift (py_getitem result "data") ;;
     rl <- lift (py_getitem data "rateLimit") ;;
     set_rate_limit rl
   else ret tt) ;;
  has_errors <- lift (py_in "errors" result) ;;
  if has_errors : bool then
    errors <- lift (py_getitem result "errors") ;;
    items <- lift (py_iter errors) ;;
    error_messages <-
      lift (comprehension (fun _ => Ok true)
              (fun e => py_get e "message" (VStr (py_str e))) items) ;;
    joined <- lift (py_join "; " error_messages) ;;
    raise (ValueError ("GraphQL errors: " ++ joined)%string)
  else lift (py_get result "data" (VDict [])).

(** [@exponential_backoff(max_retries=3, base_delay=2.0,
    exceptions=(RequestException,))], with the decorator's defaults
    [max_delay=60.0] and [exponential_base=2.0]. *)
Definition execute (query : template) (variables : value) : M value :=
  exponential_backoff 3 2 60 2 is_request_exception
    (execute_body query variables).

Definition check_rate_limit : M value :=
  data <- execute RATE_LIMIT_QUERY VNone ;;
  lift (py_get data "rateLimit" (VDict [])).

Definition wait_for_rate_limit (min_remaining : Z) : M unit :=
  rl0 <- get_rate_limit ;;
  (if negb (truthy rl0) then _ <- check_rate_limit ;; ret tt else ret tt) ;;
  rl <- get_rate_limit ;;
  remaining <- lift (py_get rl "remaining" (VInt 0)) ;;
  reset_at <- lift (py_get rl "resetAt" (VStr "")) ;;
  r <- lift (as_int remaining) ;;
  if (r <? min_remaining)%Z && truthy reset_at then
    wait_time <- calculate_wait_time reset_at ;;
    if negb (Qle_bool wait_time 0) then
      sleep wait_time ;;
      _ <- check_rate_limit ;;
      ret tt
    else ret tt
  else ret tt.

(** utils.py, [format_rate_limit_info]: the text is only printed, so the
    model keeps what may raise: the three [get]s and [reset_at.replace]
    (a [ValueError] or [TypeError] of the parse is caught there). *)
Definition format_rate_limit_info (rate_limit : value) : res unit :=
  (remaining <- py_get rate_limit "remaining" (VStr "?") ;;
   limit <- py_get rate_limit "limit" (VStr "?") ;;
   reset_at <- py_get rate_limit "resetAt" (VStr "") ;;
   if truthy reset_at then
     match reset_at with
     | VStr _ => Ok tt
     | _ => Raise AttributeError
     end
   else Ok tt)%res.

Definition get_rate_limit_info : M unit :=
  rl0 <- get_rate_limit ;;
  (if negb (truthy rl0) then _ <- check_rate_limit ;; ret tt else ret tt) ;;
  rl <- get_rate_limit ;;
  lift (format_rate_limit_info rl).

End Client.

(** ** fetcher.py: [GitHubFetcher] *)

Definition BATCH_SIZE : Z := 10.
Definition SAVE_INTERVAL : Z := 100.
Definition MIN_RATE_LIMIT : Z := 100.

(** [len(l)] *)
Definition len {A} (l : list A) : Z := Z.of_nat (List.length l).

(** [sep.join(parts)] on strings. *)
Fixpoint join_with (sep : string) (parts : list string) : string :=
  match parts with
  | [] => ""
  | [p] => p
  | p :: rest => (p ++ sep ++ join_with sep rest)%string
  end.

(** The character [chr(34)]. *)
Definition dquote : string := String (ascii_of_nat 34) EmptyString.

(** [date(2008, 1, 1).toordinal()]; a [date] is its ordinal, so that
    [(e - s).days] is [e - s] and [s + timedelta(days=n)] is [s + n]. *)
Definition GITHUB_FOUNDING : Z := 733042.

Section Fetcher.
Context `{Builtins}.
Local Open Scope fetch_scope.

(** Lines 602-618: nothing is written for an empty buffer. *)
Definition _save_progress (output_path : string) : M unit :=
  rows <- get_repos ;;
  match rows with
  | [] => ret tt
  | _ => log (Written output_path rows)
  end.

(** [self._repos.append(row)] *)
Definition append_repo (row : value) : M unit :=
  rows <- get_repos ;;
  set_repos (rows ++ [row]).

(** Lines 112-115: [true] when the record is kept. *)
Definition location_matches (location_filter : option string) (repo_data : value)
    : res bool :=
  match location_filter with
  | None => Ok true
  | Some loc =>
      if loc =? "" then Ok true
      else
        (l <- py_get repo_data "owner_location" VNone ;;
         owner_location <- py_lower (py_or l (VStr "")) ;;
         Ok (is_substring (lower loc) owner_location))%res
  end.

(** Lines 106-122: the [for node in nodes] loop with its [continue] and
    [break]; returns [(total_matched, total_fetched)]. *)
Fixpoint process_nodes (max_repos : Z) (location_filter : option string)
    (nodes : list value) (total_matched total_fetched : Z) : M (Z * Z) :=
  match nodes with
  | [] => ret (total_matched, total_fetched)
  | node :: rest =>
      if truthy node then
        repo_data <- lift (extract_repo_data node) ;;
        let total_fetched := (total_fetched + 1)%Z in
        keep <- lift (location_matches location_filter repo_data) ;;
        if keep : bool then
          append_repo repo_data ;;
          let total_matched := (total_matched + 1)%Z in
          if (total_matched >=? max_repos)%Z then ret (total_matched, total_fetched)
          else process_nodes max_repos location_filter rest total_matched total_fetched
        else process_nodes max_repos location_filter rest total_matched total_fetched
      else process_nodes max_repos location_filter rest total_matched total_fetched
  end.

(** [self.client.rate_limit.get('remaining', '?') if self.client.rate_limit
    else '?'] *)
Definition remaining_requests : M value :=
  rl <- get_rate_limit ;;
  if truthy rl then lift (py_get rl "remaining" (VStr "?")) else ret (VStr "?").

(** [try: data = self.client.execute(q, variables) except Exception: ...]
    gives [None] when the handler runs. *)
Definition try_execute (query : template) (variables : value) : M (option value) :=
  try_except (data <- execute query variables ;; ret (Some data))
             (fun _ => ret None).

(** Lines 80-140: the [while total_matched < max_repos] loop. *)
Fixpoint search_loop (fuel : nat) (query : string) (max_repos : Z)
    (output_path location_filter : option string)
    (cursor : value) (total_matched total_fetched : Z) : M (Z * Z) :=
  if (total_matched <? max_repos)%Z then
    match fuel with
    | O => out_of_fuel
    | S fuel' =>
        wait_for_rate_limit MIN_RATE_LIMIT ;;
        let variables :=
          VDict [("query", VStr query); ("first", VInt BATCH_SIZE); ("after", cursor)] in
        r <- try_execute SEARCH_REPOS_QUERY variables ;;
        match r with
        | None => ret (total_matched, total_fetched)
        | Some data =>
            search_data <- lift (py_get data "search" (VDict [])) ;;
            nodes <- lift (py_get search_data "nodes" (VList [])) ;;
            page_info <- lift (py_get search_data "pageInfo" (VDict [])) ;;
            if negb (truthy nodes) then ret (total_matched, total_fetched)
            else
              items <- lift (py_iter nodes) ;;
              counts <- process_nodes max_repos location_filter items
                          total_matched total_fetched ;;
              let '(total_matched, total_fetched) := counts in
              match output_path with
              | Some p =>
                  if (total_matched mod SAVE_INTERVAL =? 0)%Z
                  then _save_progress p else ret tt
              | None => ret tt
              end ;;
              has_next <- lift (py_get page_info "hasNextPage" (VBool false)) ;;
              if negb (truthy has_next) then ret (total_matched, total_fetched)
              else
                cursor <- lift (py_get page_info "endCursor" VNone) ;;
                _ <- remaining_requests ;;
                search_loop fuel' query max_repos output_path location_filter
                  cursor total_matched total_fetched
        end
    end
  else ret (total_matched, total_fetched).

Definition search_repositories (fuel : nat) (query : string) (max_repos : Z)
    (output_path location_filter : option string) : M (list value) :=
  set_repos [] ;;
  get_rate_limit_info ;;
  _ <- search_loop fuel query max_repos output_path location_filter VNone 0 0 ;;
  match output_path with
  | Some p => _save_progress p
  | None => ret tt
  end ;;
  get_rate_limit_info ;;
  get_repos.

(** Lines 369-373 of [_paginated_user_search]. *)
Fixpoint collect_logins (max_count : Z) (nodes users : list value)
    : res (list value) :=
  match nodes with
  | [] => Ok users
  | node :: rest =>
      (hit <- (if truthy node
               then l <- py_get node "login" VNone ;; Ok (truthy l)
               else Ok false) ;;
       if hit : bool then
         login <- py_getitem node "login" ;;
         let users := users ++ [login] in
         if (len users >=? max_count)%Z then Ok users
         else collect_logins max_count rest users
       else collect_logins max_count rest users)%res
  end.

(** Lines 350-377: the [while len(users) < max_count] loop. *)
Fixpoint paginated_loop (fuel : nat) (query : string) (max_count : Z)
    (users : list value) (cursor : value) : M (list value) :=
  if (len users <? max_count)%Z then
    match fuel with
    | O => out_of_fuel
    | S fuel' =>
        wait_for_rate_limit MIN_RATE_LIMIT ;;
        let variables :=
          VDict [("query", VStr query);
                 ("first", VInt (Z.min 100 (max_count - len users)));
                 ("after", cursor)] in
        r <- try_execute USER_SEARCH_QUERY variables ;;
        match r with
        | None => ret users
        | Some data =>
            search_data <- lift (py_get data "search" (VDict [])) ;;
            nodes <- lift (py_get search_data "nodes" (VList [])) ;;
            page_info <- lift (py_get search_data "pageInfo" (VDict [])) ;;
            items <- lift (py_iter nodes) ;;
            users <- lift (collect_logins max_count items users) ;;
            has_next <- lift (py_get page_info "hasNextPage" (VBool false)) ;;
            if negb (truthy has_next) then ret users
            else
              cursor <- lift (py_get page_info "endCursor" VNone) ;;
              paginated_loop fuel' query max_count users cursor
        end
    end
  else ret users.

Definition _paginated_user_search (fuel : nat) (query : string) (max_count : Z)
    : M (list value) :=
  paginated_loop fuel query max_count [] VNone.

(** [max_users is None or len(users) < max_users] *)
Definition under_cap (max_users : option Z) (users : list value) : bool :=
  match max_users with
  | None => true
  | Some m => (len users <? m)%Z
  end.

(** [max_users and len(users) >= max_users] *)
Definition cap_reached (max_users : option Z) (users : list value) : bool :=
  match max_users with
  | None => false
  | Some m => negb (m =? 0)%Z && (len users >=? m)%Z
  end.

(** Lines 322-327: the loop of the [count <= 1000] branch. *)
Fixpoint add_new_users (max_users : option Z) (new_users users : list value)
    : list value :=
  match new_users with
  | [] => users
  | u :: rest =>
      if py_elem u users then add_new_users max_users rest users
      else
        let users := users ++ [u] in
        if cap_reached max_users users then users
        else add_new_users max_users rest users
  end.

(** Lines 334-337: the loop of the branch of a range that cannot be split. *)
Fixpoint add_first_thousand (new_users users : list value) : list value :=
  match new_users with
  | [] => users
  | u :: rest =>
      if py_elem u users then add_first_thousand rest users
      else add_first_thousand rest (users ++ [u])
  end.

(** Lines 339-341: the two halves, in the order they end up at the front of
    [ranges]. *)
Definition split_range (s e : Z) : (Z * Z) * (Z * Z) :=
  let days := (e - s)%Z in
  let mid := (s + days / 2)%Z in
  ((s, mid), ((mid + 1)%Z, e)).

(** [max_users - len(users) if max_users else count] *)
Definition remaining_budget (max_users : option Z) (users : list value) (count : Z) : Z :=
  match max_users with
  | None => count
  | Some m => if (m =? 0)%Z then count else (m - len users)%Z
  end.

(** Lines 308-313: the counting request and both [get]s are inside the
    [try]. *)
Definition try_count (query : string) : M (option value) :=
  try_except
    (data <- execute USER_COUNT_QUERY (VDict [("query", VStr query)]) ;;
     search_data <- lift (py_get data "search" (VDict [])) ;;
     count <- lift (py_get search_data "userCount" (VInt 0)) ;;
     ret (Some count))
    (fun _ => ret None).

(** Lines 300-341: the [while ranges and ...] loop. *)
Fixpoint date_split_loop (fuel : nat) (base_query : string) (max_users : option Z)
    (users : list value) (ranges : list (Z * Z)) : M (list value) :=
  match ranges with
  | [] => ret users
  | (s, e) :: ranges =>
      if under_cap max_users users then
        match fuel with
        | O => out_of_fuel
        | S fuel' =>
            let created_q := ("created:" ++ isoformat s ++ ".." ++ isoformat e)%string in
            let query := (base_query ++ " " ++ created_q)%string in
            wait_for_rate_limit MIN_RATE_LIMIT ;;
            r <- try_count query ;;
            match r with
            | None => date_split_loop fuel' base_query max_users users ranges
            | Some count =>
                if py_is_zero count then
                  date_split_loop fuel' base_query max_users users ranges
                else
                  c <- lift (as_int count) ;;
                  if (c <=? 1000)%Z then
                    let remaining := remaining_budget max_users users c in
                    new_users <- _paginated_user_search fuel query (Z.min c remaining) ;;
                    date_split_loop fuel' base_query max_users
                      (add_new_users max_users new_users users) ranges
                  else
                    let days := (e - s)%Z in
                    if (days <=? 1)%Z then
                      new_users <- _paginated_user_search fuel query 1000 ;;
                      date_split_loop fuel' base_query max_users
                        (add_first_thousand new_users users) ranges
                    else
                      let '(first_half, second_half) := split_range s e in
                      date_split_loop fuel' base_query max_users users
                        (first_half :: second_half :: ranges)
            end
        end
      else ret users
  end.

(** [today] is [date.today().toordinal()]. *)
Definition _fetch_users_with_date_split (fuel : nat) (today : Z)
    (base_query : string) (max_users : option Z) : M (list value) :=
  date_split_loop fuel base_query max_users [] [(GITHUB_FOUNDING, today)].

(** [max_users - len(all_users) if max_users else None] *)
Definition org_quota (max_users : option Z) (all_users : list value) : option Z :=
  match max_users with
  | None => None
  | Some m => if (m =? 0)%Z then None else Some (m - len all_users)%Z
  end.

Definition fetch_users_by_location (fuel : nat) (today : Z) (location : string)
    (include_orgs : bool) (max_users : option Z) : M (list value) :=
  let user_query := ("location:" ++ dquote ++ location ++ dquote ++ " type:user")%string in
  users <- _fetch_users_with_date_split fuel today user_query max_users ;;
  let all_users := users in
  if include_orgs then
    let org_query := ("location:" ++ dquote ++ location ++ dquote ++ " type:org")%string in
    orgs <- _fetch_users_with_date_split fuel today org_query
              (org_quota max_users all_users) ;;
    ret (all_users ++ orgs)
  else ret all_users.

(** Lines 447-461. *)
Definition user_repos_query (username : value) (min_stars : Z)
    (include_forks : bool) (extra_filter : string) : string :=
  join_with " "
    ([("user:" ++ fmt username)%string]
     ++ (if (min_stars >? 0)%Z then [("stars:>=" ++ py_str (VInt min_stars))%string] else [])
     ++ (if include_forks then [] else ["fork:false"])
     ++ (if extra_filter =? "" then [] else [extra_filter])).

(** Lines 463-492: the [while True] loop. *)
Fixpoint user_repos_loop (fuel : nat) (query : string) (repos : list value)
    (cursor : value) : M (list value) :=
  match fuel with
  | O => out_of_fuel
  | S fuel' =>
      let variables :=
        VDict [("query", VStr query); ("first", VInt 100); ("after", cursor)] in
      r <- try_execute SEARCH_REPOS_QUERY variables ;;
      match r with
      | None => ret repos
      | Some data =>
          search_data <- lift (py_get data "search" (VDict [])) ;;
          nodes <- lift (py_get search_data "nodes" (VList [])) ;;
          page_info <- lift (py_get search_data "pageInfo" (VDict [])) ;;
          if negb (truthy nodes) then ret repos
          else
            items <- lift (py_iter nodes) ;;
            page <- lift (comprehension (fun node => Ok (truthy node))
                            extract_repo_data items) ;;
            let repos := repos ++ page in
            has_next <- lift (py_get page_info "hasNextPage" (VBool false)) ;;
            if negb (truthy has_next) then ret repos
            else
              cursor <- lift (py_get page_info "endCursor" VNone) ;;
              user_repos_loop fuel' query repos cursor
      end
  end.

Definition _fetch_user_repos (fuel : nat) (username : value) (min_stars : Z)
    (include_forks : bool) (extra_filter : string) : M (list value) :=
  user_repos_loop fuel
    (user_repos_query username min_stars include_forks extra_filter) [] VNone.

(** [self._repos.extend(rows)] *)
Definition extend_repos (rows : list value) : M unit :=
  old <- get_repos ;;
  set_repos (old ++ rows).

(** Lines 409-422: the [for username in pbar] loop. *)
Fixpoint users_loop (fuel : nat) (usernames : list value)
    (output_path : option string) (min_stars : Z) (include_forks : bool)
    (extra_filter : string) : M unit :=
  match usernames with
  | [] => ret tt
  | username :: rest =>
      wait_for_rate_limit MIN_RATE_LIMIT ;;
      user_repos <- _fetch_user_repos fuel username min_stars include_forks extra_filter ;;
      extend_repos user_repos ;;
      _ <- remaining_requests ;;
      match output_path with
      | Some p =>
          rows <- get_repos ;;
          if (len rows mod SAVE_INTERVAL =? 0)%Z then _save_progress p else ret tt
      | None => ret tt
      end ;;
      users_loop fuel rest output_path min_stars include_forks extra_filter
  end.

Definition fetch_repos_for_users (fuel : nat) (usernames : list value)
    (output_path : option string) (min_stars : Z) (include_forks : bool)
    (extra_filter : string) : M (list value) :=
  set_repos [] ;;
  get_rate_limit_info ;;
  users_loop fuel usernames output_path min_stars include_forks extra_filter ;;
  match output_path with
  | Some p => _save_progress p
  | None => ret tt
  end ;;
  get_rate_limit_info ;;
  get_repos.

Definition fetch_by_location_two_step (fuel : nat) (today : Z) (location : string)
    (include_orgs : bool) (min_stars : Z) (max_users : option Z)
    (include_forks : bool) (extra_filter : string) (output_path : option string)
    : M (list value) :=
  usernames <- fetch_users_by_location fuel today location include_orgs max_users ;;
  match usernames with
  | [] => ret []
  | _ => fetch_repos_for_users fuel usernames output_path min_stars
           include_forks extra_filter
  end.

End Fetcher.

(** ** utils.py: [build_search_query] *)

(** [if s:] on an optional string: [None] and the empty string are falsy. *)
Definition opt_truthy (s : option string) : bool :=
  match s with
  | Some s => negb (s =? "")
  | None => false
  end.

Definition opt_text (s : option string) : string :=
  match s with
  | Some s => s
  | None => ""
  end.

Section BuildSearchQuery.
Context `{Builtins}.

(** Lines 200-218; [min_stars] is an integer, formatted by [str]. *)
Definition build_search_query (language : option string) (min_stars : Z)
    (custom_query : option string) : string :=
  if opt_truthy custom_query then
    let custom_query := opt_text custom_query in
    if negb (is_substring "stars:" custom_query)
    then (custom_query ++ " stars:>=" ++ fmt (VInt min_stars))%string
    else custom_query
  else
    let parts := [] in
    let parts := if opt_truthy language
                 then parts ++ [("language:" ++ opt_text language)%string]
                 else parts in
    let parts := parts ++ [("stars:>=" ++ fmt (VInt min_stars))%string] in
    let parts := parts ++ ["sort:stars"] in
    join_with " " parts.

End BuildSearchQuery.

(** ** fetcher.py: the other entry points of [GitHubFetcher] *)

(** [s.split(c)] for a separator of one character. *)
Fixpoint split_on (c : ascii) (s : string) : list string :=
  match s with
  | EmptyString => [EmptyString]
  | String a rest =>
      if Ascii.eqb a c then EmptyString :: split_on c rest
      else
        match split_on c rest with
        | part :: parts => String a part :: parts
        | [] => [String a EmptyString]
        end
  end.

(** The character [/]. *)
Definition slash : ascii := ascii_of_nat 47.

(** [d[k] = v] on a dict: the value of an existing key is replaced where it
    stands, a new key goes to the end. *)
Fixpoint dict_set (d : list (string * value)) (k : string) (v : value)
    : list (string * value) :=
  match d with
  | [] => [(k, v)]
  | (k', v') :: rest =>
      if k' =? k then (k', v) :: rest else (k', v') :: dict_set rest k v
  end.

(** [{**d, **more}]: only a mapping can be unpacked. *)
Definition dict_unpack (d : list (string * value)) (more : value)
    : res (list (string * value)) :=
  match more with
  | VDict entries =>
      Ok (fold_left (fun acc kv => dict_set acc (fst kv) (snd kv)) entries d)
  | _ => Raise TypeError
  end.

Section Extraction2.
Local Open Scope res_scope.

(** Lines 503-551: the extraction of a node of [USER_REPOS_QUERY]; there is
    no guard on an empty node, and the owner fields come from [owner_info]. *)
Definition _extract_repo_from_user_query (node owner_info : value) : res value :=
  languages <- extract_languages node ;;
  topics <- extract_topics node ;;
  readme_content <- extract_readme node ;;
  license0 <- py_get node "licenseInfo" (VDict []) ;;
  let license_info := py_or license0 (VDict []) in
  primary0 <- py_get node "primaryLanguage" (VDict []) ;;
  let primary_lang := py_or primary0 (VDict []) in
  nwo <- py_get node "nameWithOwner" (VStr "") ;;
  name <- py_get node "name" (VStr "") ;;
  description <- py_get node "description" (VStr "") ;;
  url <- py_get node "url" (VStr "") ;;
  homepage_url <- py_get node "homepageUrl" (VStr "") ;;
  created_at <- py_get node "createdAt" (VStr "") ;;
  updated_at <- py_get node "updatedAt" (VStr "") ;;
  pushed_at <- py_get node "pushedAt" (VStr "") ;;
  stars <- py_get node "stargazerCount" (VInt 0) ;;
  forks <- py_get node "forkCount" (VInt 0) ;;
  watchers <- total_count node "watchers" ;;
  open_issues <- total_count node "issues" ;;
  disk_usage_kb <- py_get node "diskUsage" (VInt 0) ;;
  primary_language <- py_get primary_lang "name" (VStr "") ;;
  is_fork <- py_get node "isFork" (VBool false) ;;
  is_archived <- py_get node "isArchived" (VBool false) ;;
  is_private <- py_get node "isPrivate" (VBool false) ;;
  is_template <- py_get node "isTemplate" (VBool false) ;;
  has_wiki <- py_get node "hasWikiEnabled" (VBool false) ;;
  has_issues <- py_get node "hasIssuesEnabled" (VBool false) ;;
  license_key <- py_get license_info "key" (VStr "") ;;
  license_name <- py_get license_info "name" (VStr "") ;;
  record <- dict_unpack
              [ ("nwo", nwo);
                ("name", name);
                ("description", description);
                ("url", url);
                ("homepage_url", homepage_url);
                ("created_at", created_at);
                ("updated_at", updated_at);
                ("pushed_at", pushed_at);
                ("stars", stars);
                ("forks", forks);
                ("watchers", watchers);
                ("open_issues", open_issues);
                ("disk_usage_kb", disk_usage_kb);
                ("primary_language", primary_language);
                ("languages", languages);
                ("topics", topics);
                ("is_fork", is_fork);
                ("is_archived", is_archived);
                ("is_private", is_private);
                ("is_template", is_template);
                ("has_wiki", has_wiki);
                ("has_issues", has_issues);
                ("license_key", license_key);
                ("license_name", license_name);
                ("readme_content", readme_content) ]
              owner_info ;;
  Ok (VDict record).

End Extraction2.

(** The keys of the dict literal of [_extract_repo_from_user_query]. *)
Definition repo_keys : list string :=
  [ "nwo"; "name"; "description"; "url"; "homepage_url"; "created_at";
    "updated_at"; "pushed_at"; "stars"; "forks"; "watchers"; "open_issues";
    "disk_usage_kb"; "primary_language"; "languages"; "topics"; "is_fork";
    "is_archived"; "is_private"; "is_template"; "has_wiki"; "has_issues";
    "license_key"; "license_name"; "readme_content" ].

Section Fetcher2.
Context `{Builtins}.
Local Open Scope fetch_scope.

(** Lines 166-185: the split and its check come before any request; the
    wait is outside the [try], the request, the [get] and the extraction are
    inside. *)
Definition fetch_repo_details (nwo : string) : M (option value) :=
  let parts := split_on slash nwo in
  if negb (len parts =? 2)%Z then
    raise (ValueError ("Invalid nwo format: " ++ nwo ++ ". Expected 'owner/name'")%string)
  else
    match parts with
    | [owner; name] =>
        wait_for_rate_limit MIN_RATE_LIMIT ;;
        try_except
          (data <- execute SINGLE_REPO_QUERY
                     (VDict [("owner", VStr owner); ("name", VStr name)]) ;;
           repo_node <- lift (py_get data "repository" VNone) ;;
           if truthy repo_node then
             repo_data <- lift (extract_repo_data repo_node) ;;
             ret (Some repo_data)
           else ret None)
          (fun _ => ret None)
    | _ => raise (ValueError "not enough values to unpack")
    end.

(** Lines 211-220. *)
Definition fetch_by_location (fuel : nat) (location : string) (min_stars : Z)
    (language : option string) (max_repos : Z) (output_path : option string)
    : M (list value) :=
  let query := build_search_query language min_stars None in
  search_repositories fuel query max_repos output_path (Some location).

(** Lines 241-242. *)
Definition fetch_by_query (fuel : nat) (custom_query : string) (min_stars : Z)
    (max_repos : Z) (output_path : option string) : M (list value) :=
  let query := build_search_query None min_stars (Some custom_query) in
  search_repositories fuel query max_repos output_path None.

End Fetcher2.

(** ** Shapes of the decoded JSON used in the statements *)

Definition is_dict (v : value) : bool :=
  match v with
  | VDict _ => true
  | _ => false
  end.

(** A sub-object that is null, absent (its default is falsy) or an object. *)
Definition falsy_or_dict (v : value) : bool := negb (truthy v) || is_dict v.

Definition list_of (p : value -> bool) (v : value) : bool :=
  match v with
  | VList items => forallb p items
  | _ => false
  end.

(** A connection [{nodes: [...]}] whose nodes satisfy [p]. *)
Definition connection_of (p : value -> bool) (v : value) : bool :=
  negb (truthy v) ||
  match v with
  | VDict d => list_of p (dict_get d "nodes" (VList []))
  | _ => false
  end.

Definition topic_node_shape (node : value) : bool :=
  negb (truthy node) ||
  match node with
  | VDict d => falsy_or_dict (dict_get d "topic" VNone)
  | _ => false
  end.

Definition owner_shape (v : value) : bool :=
  negb (truthy v) ||
  match v with
  | VDict d => falsy_or_dict (dict_get d "followers" VNone)
  | _ => false
  end.

(** Every optional sub-object of a repository node is null, absent or shaped
    as the query returns it. *)
Definition node_shape (d : list (string * value)) : bool :=
  owner_shape (dict_get d "owner" VNone)
  && connection_of falsy_or_dict (dict_get d "languages" VNone)
  && connection_of topic_node_shape (dict_get d "repositoryTopics" VNone)
  && falsy_or_dict (dict_get d "object" VNone)
  && falsy_or_dict (dict_get d "licenseInfo" VNone)
  && falsy_or_dict (dict_get d "primaryLanguage" VNone)
  && falsy_or_dict (dict_get d "watchers" VNone)
  && falsy_or_dict (dict_get d "issues" VNone).

Definition null_or_absent (d : list (string * value)) (k : string) : bool :=
  match assoc k d with
  | None | Some VNone => true
  | Some _ => false
  end.

(** The fields copied from a key of the node: source key, record key and the
    default of the [get]. *)
Definition scalar_fields : list (string * string * value) :=
  [ ("nameWithOwner", "nwo", VStr "");
    ("name", "name", VStr "");
    ("description", "description", VStr "");
    ("url", "url", VStr "");
    ("homepageUrl", "homepage_url", VStr "");
    ("createdAt", "created_at", VStr "");
    ("updatedAt", "updated_at", VStr "");
    ("pushedAt", "pushed_at", VStr "");
    ("stargazerCount", "stars", VInt 0);
    ("forkCount", "forks", VInt 0);
    ("diskUsage", "disk_usage_kb", VInt 0);
    ("isFork", "is_fork", VBool false);
    ("isArchived", "is_archived", VBool false);
    ("isPrivate", "is_private", VBool false);
    ("isTemplate", "is_template", VBool false);
    ("hasWikiEnabled", "has_wiki", VBool false);
    ("hasIssuesEnabled", "has_issues", VBool false) ].

(** The fields read from the owner, with their defaults. *)
Definition owner_defaults : list (string * value) :=
  [ ("owner_login", VStr ""); ("owner_type", VStr ""); ("owner_location", VStr "");
    ("owner_company", VStr ""); ("owner_bio", VStr ""); ("owner_email", VStr "");
    ("owner_followers", VInt 0); ("owner_created_at", VStr "") ].

(** [repo_node.get('owner', {}) or {}] *)
Definition owner_of (d : list (string * value)) : value :=
  py_or (dict_get d "owner" (VDict [])) (VDict []).

(** ** Concrete nodes used as examples *)

(** A repository owned by an organization, with the fields the queries
    request of an organization: no company, no bio, no followers. *)
Definition org_node : list (string * value) :=
  [ ("name", VStr "tool");
    ("owner", VDict [ ("login", VStr "acme");
                      ("__typename", VStr "Organization");
                      ("location", VStr "Lima, Peru");
                      ("email", VStr "");
                      ("description", VStr "We build tools") ]) ].

Definition user_node : list (string * value) :=
  [ ("name", VStr "tool");
    ("owner", VDict [ ("login", VStr "ana");
                      ("__typename", VStr "User");
                      ("company", VStr "ACME");
                      ("bio", VStr "hi");
                      ("followers", VDict [("totalCount", VInt 7)]) ]) ].

(** A node with a name and every optional sub-object null. *)
Definition bare_node : list (string * value) :=
  [ ("name", VStr "tool"); ("owner", VNone); ("languages", VNone);
    ("repositoryTopics", VNone); ("object", VNone); ("licenseInfo", VNone);
    ("primaryLanguage", VNone); ("watchers", VNone); ("issues", VNone) ].

(** ** Worlds used in the statements *)

(** The world after [time.sleep(seconds)]. *)
Definition after_sleep (seconds : Q) (w : world) : world :=
  mkWorld (script w) (clock w) (_rate_limit w) (_repos w) (Slept seconds :: trace w).

(** A fresh client and fetcher facing the given script. *)
Definition fresh (s : list http_result) : world := mkWorld s [] VNone [] [].

(** The durations slept and the requests posted, oldest first. *)
Definition sleeps (w : world) : list Q :=
  rev (flat_map (fun ev => match ev with Slept d => [d] | _ => [] end) (trace w)).

Definition posts (w : world) : list template :=
  rev (flat_map (fun ev => match ev with Posted q _ => [q] | _ => [] end) (trace w)).

(** The buffers handed to [to_parquet], oldest first, as their lengths. *)
Definition written_counts (w : world) : list Z :=
  rev (flat_map (fun ev => match ev with Written _ rows => [len rows] | _ => [] end)
         (trace w)).

(** [date.fromordinal(n).isoformat()]: the civil date of a day of the
    proleptic Gregorian calendar, day 1 being 0001-01-01. *)
Definition civil_of_ordinal (n : Z) : Z * Z * Z :=
  let z := (n + 305)%Z in
  let era := (z / 146097)%Z in
  let doe := (z - era * 146097)%Z in
  let yoe := ((doe - doe / 1460 + doe / 36524 - doe / 146096) / 365)%Z in
  let doy := (doe - (365 * yoe + yoe / 4 - yoe / 100))%Z in
  let mp := ((5 * doy + 2) / 153)%Z in
  let d := (doy - (153 * mp + 2) / 5 + 1)%Z in
  let m := (if mp <? 10 then mp + 3 else mp - 9)%Z in
  let y := (yoe + era * 400 + (if m <=? 2 then 1 else 0))%Z in
  (y, m, d).

Definition decimal (n : Z) : string := NilZero.string_of_int (Z.to_int n).

Definition two_digits (n : Z) : string :=
  ((if n <? 10 then "0" else "")%Z ++ decimal n)%string.

Definition four_digits (n : Z) : string :=
  ((if n <? 10 then "000" else if n <? 100 then "00" else if n <? 1000 then "0" else "")%Z
   ++ decimal n)%string.

Definition iso_of_ordinal (n : Z) : string :=
  let '(y, m, d) := civil_of_ordinal n in
  (four_digits y ++ "-" ++ two_digits m ++ "-" ++ two_digits d)%string.

(** The built-ins used in concrete runs: [str] of the scalars (a container is
    rendered as an ellipsis, no run below prints one) and [isoformat]; no
    statement depends on the text they produce. *)
Definition plain_builtins : Builtins := {|
  py_str := fun v => match v with
                     | VStr s => s
                     | VNone => "None"
                     | VBool true => "True"
                     | VBool false => "False"
                     | VInt n => decimal n
                     | _ => "..."
                     end;
  isoformat := iso_of_ordinal
|}.

(** ** Specifications of computations on the world *)

(** What a call on the client may do to the fetcher's data: it leaves the
    buffer alone and only ever consumes the script. *)
Definition client_step (w w' : world) : Prop :=
  _repos w' = _repos w
  /\ (List.length (script w') <= List.length (script w))%nat.

Definition is_ok {A} (r : res A) : bool :=
  match r with
  | Ok _ => true
  | Raise _ => false
  end.

(** [m] always finishes, within [client_step]. *)
Definition safe {A} (m : M A) : Prop :=
  forall w, exists r w', m w = Some (r, w') /\ client_step w w'.

(** [m] is [safe], and when it returns normally it has consumed at least
    one round trip of the script. *)
Definition consuming {A} (m : M A) : Prop :=
  forall w, exists r w',
    m w = Some (r, w') /\ client_step w w'
    /\ (is_ok r = true -> (List.length (script w') < List.length (script w))%nat).

(** ** Response bodies used in the statements *)

(** An entry of the [errors] list with a string message. *)
Definition error_entry (e : value) (m : string) : Prop :=
  exists d, e = VDict d /\ assoc "message" d = Some (VStr m).

(** The body GitHub sends when a query could not be executed at all: the
    error list comes with [data] set to null. *)
Definition null_data_errors : value :=
  VDict [ ("data", VNone);
          ("errors",
           VList [VDict [("message",
                          VStr "Something went wrong while executing your query.")]]) ].

(** The same errors in a body that has no [data] key. *)
Definition errors_only : list (string * value) :=
  [ ("errors",
     VList [ VDict [("message", VStr "Parse error on line 1")];
             VDict [("message", VStr "Unexpected end of document")] ]) ].

(** [m] started in [w] finishes (it does not run out of fuel) with a result
    and a world that satisfy [post]. *)
Definition runs {A} (m : M A) (w : world) (post : res A -> world -> Prop) : Prop :=
  exists r w', m w = Some (r, w') /\ post r w'.

(** ** Scripted pages of search results *)

(** The [rateLimit] object of a response. *)
Definition rate_snapshot (remaining : Z) : value :=
  VDict [ ("remaining", VInt remaining);
          ("resetAt", VStr "2026-11-03T12:00:00Z");
          ("limit", VInt 5000);
          ("cost", VInt 1) ].

(** One page of a paged search: its nodes, its [pageInfo] and the quota left
    after it. *)
Record page : Type := mkPage {
  page_nodes : list value;
  has_next_page : bool;
  end_cursor : string;
  quota_left : Z
}.

(** The payload [data] and the whole body of the response carrying a page. *)
Definition page_data (p : page) : value :=
  VDict [ ("search",
           VDict [ ("pageInfo",
                    VDict [ ("hasNextPage", VBool (has_next_page p));
                            ("endCursor", VStr (end_cursor p)) ]);
                   ("nodes", VList (page_nodes p)) ]);
          ("rateLimit", rate_snapshot (quota_left p)) ].

Definition page_body (p : page) : value := VDict [("data", page_data p)].

(** The body answering the bare quota probe. *)
Definition probe_body (remaining : Z) : value :=
  VDict [("data", VDict [("rateLimit", rate_snapshot remaining)])].

(** The record of a node and whether the location filter keeps it, for
    nodes on which neither raises. *)
Definition extracted (node : value) : value :=
  match extract_repo_data node with
  | Ok r => r
  | Raise _ => VDict []
  end.

Definition keeps (location_filter : option string) (repo_data : value) : bool :=
  match location_matches location_filter repo_data with
  | Ok b => b
  | Raise _ => false
  end.

(** The records of the nodes of a page that pass the filter, in order. *)
Definition kept (location_filter : option string) (nodes : list value) : list value :=
  filter (keeps location_filter) (map extracted (filter truthy nodes)).

(** A node that is skipped, or on which extraction and the filter return. *)
Definition node_ok (location_filter : option string) (node : value) : bool :=
  negb (truthy node) ||
  match extract_repo_data node with
  | Ok r => is_ok (location_matches location_filter r)
  | Raise _ => false
  end.

Definition page_ok (location_filter : option string) (p : page) : Prop :=
  forallb (node_ok location_filter) (page_nodes p) = true
  /\ (MIN_RATE_LIMIT <= quota_left p)%Z.

Definition all_nodes (pages : list page) : list value :=
  flat_map page_nodes pages.

(** The script answering with the given pages, in order. *)
Definition script_of (pages : list page) : list http_result :=
  map (fun p => HttpOk (page_body p)) pages.

(** A client whose last quota snapshot is [remaining], facing a script. *)
Definition warm (remaining : Z) (s : list http_result) : world :=
  mkWorld s [] (rate_snapshot remaining) [] [].

(** A repository node owned by a user living in [location]. *)
Definition repo_in (location : string) : value :=
  VDict [ ("nameWithOwner", VStr "ana/tool");
          ("name", VStr "tool");
          ("stargazerCount", VInt 12);
          ("owner", VDict [ ("login", VStr "ana");
                            ("__typename", VStr "User");
                            ("location", VStr location) ]) ].

(** Two pages of two and one repositories; the second is the last. *)
Definition two_pages : list page :=
  [ mkPage [repo_in "Lima, Peru"; repo_in "Cusco"] true "Y3Vyc29yOjI=" 4998;
    mkPage [repo_in "Arequipa, Peru"] false "Y3Vyc29yOjM=" 4997 ].

(** ** Runs of the pagination driver with checkpoints *)

Definition lima_page (n : nat) (has_next : bool) : page :=
  mkPage (repeat (repo_in "Lima, Peru") n) has_next "Y3Vyc29yOjEw" 4000.

(** Ten repositories of which five are owned in Peru. *)
Definition mixed_page : page :=
  mkPage (repeat (repo_in "Lima, Peru") 5 ++ repeat (repo_in "Berlin") 5)
         true "Y3Vyc29yOjEw" 4000.

(** A fresh client: the quota probe, then 25 full pages, 250 repositories. *)
Definition full_pages_run : list http_result :=
  HttpOk (probe_body 5000)
  :: script_of (repeat (lima_page 10 true) 24 ++ [lima_page 10 false]).

(** The same with a first page of which the filter keeps 5 of 10, and a last
    page of 5: again 250 matches. *)
Definition filtered_run : list http_result :=
  HttpOk (probe_body 5000)
  :: script_of (mixed_page :: repeat (lima_page 10 true) 24 ++ [lima_page 5 false]).

(** What a finished run returned and wrote: the number of rows returned and
    the sizes of the buffers written, oldest first. *)
Definition summary (x : option (res (list value) * world)) : option (Z * list Z) :=
  match x with
  | Some (Ok rows, w') => Some (len rows, written_counts w')
  | _ => None
  end.

(** ** Scripted answers of the user search *)

(** The answer to the counting query. *)
Definition count_body (n : Z) : value :=
  VDict [("data", VDict [ ("search", VDict [("userCount", VInt n)]);
                          ("rateLimit", rate_snapshot 4000) ])].

Definition account (login : string) : value :=
  VDict [("login", VStr login); ("__typename", VStr "User")].

(** One page of the paged user search in a range of [total] accounts. *)
Definition users_body (total : Z) (logins : list string) (has_next : bool) : value :=
  VDict [("data",
          VDict [ ("search",
                   VDict [ ("userCount", VInt total);
                           ("pageInfo",
                            VDict [ ("hasNextPage", VBool has_next);
                                    ("endCursor", VStr "Y3Vyc29yOjEwMA==") ]);
                           ("nodes", VList (map account logins)) ]);
                  ("rateLimit", rate_snapshot 4000) ])].

(** The logins [user<start>], ..., [user<start + n - 1>]. *)
Definition logins_from (start n : nat) : list string :=
  map (fun i => ("user" ++ decimal (Z.of_nat i))%string) (seq start n).

(** [date(2026, 11, 3).toordinal()] *)
Definition a_day_in_2026 : Z := 739923.

(** Every range holds 5000 matching accounts, down to the two days
    2008-01-01..2008-01-02 reached after twelve halvings; the search on that
    range then lists its first 1000 accounts, 100 a page. *)
Definition crowded_run : list http_result :=
  repeat (HttpOk (count_body 5000)) 13
  ++ map (fun k => HttpOk (users_body 5000 (logins_from (100 * k) 100) true))
         (seq 0 10).

(** No user is looked for when [max_users] is 0; the organization pass
    counts two organizations and lists them. *)
Definition two_orgs_run : list http_result :=
  [ HttpOk (count_body 2); HttpOk (users_body 2 ["org1"; "org2"] false) ].

(** 5000 accounts are counted in a range; ten pages then list 100 of them
    each, every one announcing a next page. *)
Definition two_day_run : list http_result :=
  HttpOk (count_body 5000)
  :: map (fun k => HttpOk (users_body 5000 (logins_from (100 * k) 100) true))
         (seq 0 10).

(** 5000 accounts are counted in a range and none in each of its halves. *)
Definition three_day_run : list http_result :=
  [ HttpOk (count_body 5000); HttpOk (count_body 0); HttpOk (count_body 0) ].

(** The query string of the variables of a request. *)
Definition query_of (variables : value) : string :=
  match variables with
  | VDict d => match dict_get d "query" VNone with
               | VStr q => q
               | _ => ""
               end
  | _ => ""
  end.

(** The requests posted, oldest first: the template and the query string of
    each. *)
Definition requests (w : world) : list (template * string) :=
  rev (flat_map (fun ev => match ev with
                           | Posted t v => [(t, query_of v)]
                           | _ => []
                           end) (trace w)).

(** What a finished discovery returned. *)
Definition logins_of (x : option (res (list value) * world)) : option (list value) :=
  match x with
  | Some (Ok users, _) => Some users
  | _ => None
  end.

(** The same, reduced to how many logins there are, the first and the last. *)
Definition logins_summary (x : option (res (list value) * world))
    : option (Z * option value * option value) :=
  match logins_of x with
  | Some users => Some (len users, hd_error users, hd_error (rev users))
  | None => None
  end.

(** What a finished discovery returned and asked: how many logins, the first
    and the last, and the requests posted. *)
Definition discovery_report (x : option (res (list value) * world))
    : option (Z * option value * option value * list (template * string)) :=
  match x with
  | Some (Ok users, w') =>
      Some (len users, hd_error users, hd_error (rev users), requests w')
  | _ => None
  end.

(** The query of a range, as [_fetch_users_with_date_split] builds it. *)
Definition range_query `{Builtins} (base_query : string) (s e : Z) : string :=
  (base_query ++ " " ++ ("created:" ++ isoformat s ++ ".." ++ isoformat e))%string.

(** The variables of the first page asked for an account (lines 464-468). *)
Definition first_page `{Builtins} (username : value) (min_stars : Z)
    (include_forks : bool) (extra_filter : string) : value :=
  VDict [ ("query", VStr (user_repos_query username min_stars include_forks
                            extra_filter));
          ("first", VInt 100);
          ("after", VNone) ].

(** The checkpoint at the end of an iteration of [fetch_repos_for_users]. *)
Definition users_checkpoint `{Builtins} (output_path : option string) : M unit :=
  match output_path with
  | Some p =>
      bind get_repos
        (fun rows =>
           if (len rows mod SAVE_INTERVAL =? 0)%Z then _save_progress p else ret tt)
  | None => ret tt
  end.

(** The request for the first page of the account "ghost" and the world
    left by its four failed attempts. *)
Definition ghost_request : value :=
  first_page (H := plain_builtins) (VStr "ghost") 1 false "".

Definition bad_gateway : http_result := HttpError "502 Server Error: Bad Gateway".

Definition after_four_failures : world :=
  mkWorld [] [] (rate_snapshot 4999) []
    [ Posted SEARCH_REPOS_QUERY ghost_request; Slept 8;
      Posted SEARCH_REPOS_QUERY ghost_request; Slept 4;
      Posted SEARCH_REPOS_QUERY ghost_request; Slept 2;
      Posted SEARCH_REPOS_QUERY ghost_request ].

(** One page of one repository that announces a next page, and nothing
    after it: the connection is lost. *)
Definition one_page_then_down : list http_result :=
  [ HttpOk (page_body (mkPage [repo_in "Lima, Peru"] true "Y3Vyc29yOjE=" 4000)) ].

(** What a finished run returned, posted and slept. *)
Definition report (x : option (res (list value) * world))
    : option (list value * list template * list Q) :=
  match x with
  | Some (Ok rows, w') => Some (rows, posts w', sleeps w')
  | _ => None
  end.

(** ** Frames: what a computation may do to the world *)

(** Every run of [m] relates the world it starts in to the world it leaves
    by [R]. *)
Definition steps {A} (R : world -> world -> Prop) (m : M A) : Prop :=
  forall w r w', m w = Some (r, w') -> R w w'.

(** The events of [w'] are those of [w] with new ones on top, each of which
    satisfies [P]. *)
Definition added (P : event -> Prop) (w w' : world) : Prop :=
  exists new, trace w' = new ++ trace w /\ Forall P new.

(** [a] is the beginning of [b]. *)
Definition is_prefix {A} (a b : list A) : Prop := exists tail, b = a ++ tail.

(** The buffer is left alone and the new events satisfy [P]. *)
Definition quiet (P : event -> Prop) (w w' : world) : Prop :=
  _repos w' = _repos w /\ added P w w'.

(** Only the quota snapshot may differ. *)
Definition same_but_rate_limit (w w' : world) : Prop :=
  script w' = script w /\ clock w' = clock w /\ _repos w' = _repos w
  /\ trace w' = trace w.

(** ** Events *)

(** A sleep, or the bare quota probe. *)
Definition quota_event (ev : event) : Prop :=
  match ev with
  | Slept _ => True
  | Posted RATE_LIMIT_QUERY VNone => True
  | _ => False
  end.

(** A sleep, or the request [(query, variables)]. *)
Definition request_event (query : template) (variables : value) (ev : event) : Prop :=
  match ev with
  | Slept _ => True
  | Posted q v => q = query /\ v = variables
  | Written _ _ => False
  end.

(** Anything but a file written. *)
Definition not_written (ev : event) : Prop :=
  match ev with
  | Written _ _ => False
  | _ => True
  end.

(** The variables of a paged search. *)
Definition search_variables (query : string) (first : Z) (cursor : value) : value :=
  VDict [("query", VStr query); ("first", VInt first); ("after", cursor)].

(** What the pagination driver may add to the trace: quota events, files
    written and pages of ten of the query. *)
Definition search_event (query : string) (ev : event) : Prop :=
  match ev with
  | Slept _ => True
  | Written _ _ => True
  | Posted RATE_LIMIT_QUERY VNone => True
  | Posted SEARCH_REPOS_QUERY v =>
      exists cursor, v = search_variables query BATCH_SIZE cursor
  | Posted _ _ => False
  end.

(** What the paged user search may add: quota events and pages of the
    query of between 1 and 100 accounts, never more than [max_count]. *)
Definition user_page_event (query : string) (max_count : Z) (ev : event) : Prop :=
  match ev with
  | Slept _ => True
  | Posted RATE_LIMIT_QUERY VNone => True
  | Posted USER_SEARCH_QUERY v =>
      exists first cursor,
        v = search_variables query first cursor
        /\ (1 <= first <= 100)%Z /\ (first <= max_count)%Z
  | _ => False
  end.

(** What the date-splitting discovery may add for [base_query]: quota
    events, and counting requests and pages of 1 to 100 accounts for a range
    of creation dates [s..e] inside [lo..hi]. *)
Definition range_event `{Builtins} (base_query : string) (lo hi : Z) (ev : event)
    : Prop :=
  match ev with
  | Slept _ => True
  | Posted RATE_LIMIT_QUERY VNone => True
  | Posted USER_COUNT_QUERY v =>
      exists s e, (lo <= s <= e)%Z /\ (e <= hi)%Z
        /\ v = VDict [("query", VStr (range_query base_query s e))]
  | Posted USER_SEARCH_QUERY v =>
      exists s e first cursor, (lo <= s <= e)%Z /\ (e <= hi)%Z
        /\ v = search_variables (range_query base_query s e) first cursor
        /\ (1 <= first <= 100)%Z
  | _ => False
  end.

(** A range of dates inside [lo..hi]. *)
Definition range_within (lo hi : Z) (r : Z * Z) : Prop :=
  (lo <= fst r <= snd r)%Z /\ (snd r <= hi)%Z.

(** The query for the accounts of a kind ([user] or [org]) of a location. *)
Definition account_query (location kind : string) : string :=
  "location:" ++ dquote ++ location ++ dquote ++ " type:" ++ kind.

(** What the discovery of the accounts of a location may add: the events of
    the date-splitting search for its users and, when organizations are
    included, for its organizations. *)
Definition discovery_event `{Builtins} (location : string) (today : Z)
    (include_orgs : bool) (ev : event) : Prop :=
  range_event (account_query location "user") GITHUB_FOUNDING today ev
  \/ (include_orgs = true
      /\ range_event (account_query location "org") GITHUB_FOUNDING today ev).

(** A sleep, or a page of [size] repositories of [query]. *)
Definition page_event (query : string) (size : Z) (ev : event) : Prop :=
  match ev with
  | Slept _ => True
  | Posted SEARCH_REPOS_QUERY v => exists cursor, v = search_variables query size cursor
  | _ => False
  end.

(** What the per-account fetch may add: quota events, files written and
    pages of 100 of the query of one of the accounts. *)
Definition account_event `{Builtins} (usernames : list value) (min_stars : Z)
    (include_forks : bool) (extra_filter : string) (ev : event) : Prop :=
  match ev with
  | Slept _ => True
  | Written _ _ => True
  | Posted RATE_LIMIT_QUERY VNone => True
  | Posted SEARCH_REPOS_QUERY v =>
      exists username cursor,
        In username usernames
        /\ v = search_variables
                 (user_repos_query username min_stars include_forks extra_filter)
                 100 cursor
  | Posted _ _ => False
  end.

(** A file written during a fetch goes to the output path and holds a
    non-empty beginning of the buffer [rows]. *)
Definition checkpoint_of (output_path : option string) (rows : list value)
    (ev : event) : Prop :=
  match ev with
  | Written p written => output_path = Some p /\ written <> [] /\ is_prefix written rows
  | _ => True
  end.



(** A record with the 33 keys of [extract_repo_data]. *)
Definition full_record (row : value) : Prop :=
  exists fields, row = VDict fields /\ map fst fields = record_keys.

(** The buffer only grows, by full records when it held only such; the new
    events satisfy [Q], and the files written hold beginnings of the
    buffer. *)
Definition fetching (Q : event -> Prop) (output_path : option string)
    (w w' : world) : Prop :=
  is_prefix (_repos w) (_repos w')
  /\ added (fun ev => Q ev /\ checkpoint_of output_path (_repos w') ev) w w'
  /\ (Forall full_record (_repos w) -> Forall full_record (_repos w')).

(** ** Retries *)

(** [func] fails with an exception of [exceptions] once for each delay of the
    list, each failure being followed by a sleep of that delay. *)
Inductive fails_then {A} (exceptions : exn -> bool) (func : M A)
    : list Q -> world -> world -> Prop :=
| fails_nil w : fails_then exceptions func [] w w
| fails_cons d ds w e w1 w' :
    func w = Some (Raise e, w1) -> exceptions e = true ->
    fails_then exceptions func ds (after_sleep d w1) w' ->
    fails_then exceptions func (d :: ds) w w'.

(** The attempt that ends the retries: a success, a failure that is not
    retried, or the last attempt allowed. *)
Definition final_attempt {A} (exceptions : exn -> bool) (k max_retries : nat)
    (r : res A) : Prop :=
  match r with
  | Ok _ => True
  | Raise e => exceptions e = false \/ k = max_retries
  end.

(** What [k] attempts of the same request under [execute] add to the trace,
    most recent first. *)
Definition attempts_trace (query : template) (variables : value) (k : nat)
    : list event :=
  rev (firstn (2 * k - 1)
         [ Posted query variables; Slept 2; Posted query variables; Slept 4;
           Posted query variables; Slept 8; Posted query variables ]).

(** The world after one reading of the clock. *)
Definition tick (w : world) : world :=
  mkWorld (script w) (tl (clock w)) (_rate_limit w) (_repos w) (trace w).

(** The world with another buffer, and after a file has been written. *)
Definition with_repos (rows : list value) (w : world) : world :=
  mkWorld (script w) (clock w) (_rate_limit w) rows (trace w).

Definition after_write (output_path : string) (w : world) : world :=
  mkWorld (script w) (clock w) (_rate_limit w) (_repos w)
          (Written output_path (_repos w) :: trace w).

(** ** Strings *)

(** The number of occurrences of a character. *)
Fixpoint occurrences (c : ascii) (s : string) : nat :=
  match s with
  | EmptyString => 0
  | String a rest => (if Ascii.eqb a c then 1 else 0) + occurrences c rest
  end.

(** ** Shapes *)

(** The name of a language node, [lang.get('name')]. *)
Definition name_of (node : value) : value :=
  match node with
  | VDict d => dict_get d "name" VNone
  | _ => VNone
  end.

(** The topic of a topic node, when it has one. *)
Definition topic_of (node : value) : value :=
  match node with
  | VDict d => dict_get d "topic" VNone
  | _ => VNone
  end.

Definition has_topic (node : value) : bool := truthy node && truthy (topic_of node).

(** The owner location of a record contains [location], whatever the case
    of the letters. *)
Definition located_in (location : string) (row : value) : Prop :=
  exists fields owner_location,
    row = VDict fields
    /\ py_or (dict_get fields "owner_location" VNone) (VStr "") = VStr owner_location
    /\ is_substring (lower location) (lower owner_location) = true.

(** ** Worlds and responses used as examples *)

(** A response without errors that carries a payload. *)
Definition plain_body (data : value) : value := VDict [("data", data)].

(** The payload answering [SINGLE_REPO_QUERY]. *)
Definition repo_answer (node : value) : value :=
  VDict [("repository", node); ("rateLimit", rate_snapshot 4990)].

(** A client that knows its quota, facing the answer for one repository. *)
Definition one_repository : world :=
  warm 4999 [HttpOk (plain_body (repo_answer (VDict bare_node)))].

(** Two failures of the connection, then a page. *)
Definition flaky : list http_result :=
  [ bad_gateway; bad_gateway;
    HttpOk (page_body (mkPage [repo_in "Lima, Peru"] false "Y3Vyc29yOjE=" 4000)) ].

(** A repository with three language entries, one of them null, and a
    topic entry without a topic. *)
Definition polyglot : list (string * value) :=
  [ ("name", VStr "tool");
    ("languages",
     VDict [("nodes", VList [ VDict [("name", VStr "Python")]; VNone;
                               VDict [("name", VStr "C")] ])]);
    ("repositoryTopics",
     VDict [("nodes", VList [ VDict [("topic", VDict [("name", VStr "cli")])];
                               VDict [("topic", VNone)] ])]) ].


(** A repository whose languages connection has a null list of nodes. *)
Definition null_languages : list (string * value) :=
  [ ("name", VStr "tool"); ("languages", VDict [("nodes", VNone)]) ].

(** The world a finished run left ([dflt] for a run out of fuel). *)
Definition world_of {A} (x : option (res A * world)) (dflt : world) : world :=
  match x with
  | Some (_, w') => w'
  | None => dflt
  end.

(** What a finished run returned ([dflt] for a run out of fuel). *)
Definition outcome_of {A} (x : option (res A * world)) (dflt : res A) : res A :=
  match x with
  | Some (r, _) => r
  | None => dflt
  end.

(** The accounts a discovery found: none when it raised. *)
Definition accounts_of (found : res (list value)) : list value :=
  match found with
  | Ok accounts => accounts
  | Raise _ => []
  end.

(** The entries of a dict. *)
Definition fields_of (v : value) : list (string * value) :=
  match v with
  | VDict d => d
  | _ => []
  end.

(** A client whose snapshot shows 3 requests left, sixty seconds (with the
    buffer) before the reset, facing the answer to the quota probe. *)
Definition low_quota : world :=
  mkWorld [HttpOk (probe_body 5000)] [Ok 55%Q] (rate_snapshot 3) [] [].

(** An answer to the quota probe that carries no [rateLimit] object. *)
Definition no_quota_body : list (string * value) :=
  [("data", VDict [("viewer", VDict [("login", VStr "ana")])])].

(** The two pages of [two_pages] fetched with an output path. *)
Definition two_pages_saved : option (res (list value) * world) :=
  search_repositories (H := plain_builtins) 2 "stars:>=5 sort:stars" 1000
    (Some "out.parquet") (Some "Peru") (warm 4999 (script_of two_pages)).

(** A paged search for two organizations, answered by one page. *)
Definition two_orgs_page : option (res (list value) * world) :=
  _paginated_user_search (H := plain_builtins) 3 "type:org" 2
    (warm 4999 [HttpOk (users_body 2 ["org1"; "org2"] false)]).

(** The date-splitting search for the organizations of Peru on
    [two_orgs_run]. *)
Definition two_orgs_found : option (res (list value) * world) :=
  _fetch_users_with_date_split (H := plain_builtins) 3 a_day_in_2026
    (account_query "Peru" "org") None (warm 4999 two_orgs_run).

(** The repositories of one account, fetched on the two pages of
    [two_pages] with an output path. *)
Definition ana_repos : option (res (list value) * world) :=
  fetch_repos_for_users (H := plain_builtins) 3 [VStr "ana"] (Some "out.parquet")
    1 false "" (warm 4999 (script_of two_pages)).

(** One user is counted and listed, then two organizations. *)
Definition user_and_orgs_run : list http_result :=
  [ HttpOk (count_body 1); HttpOk (users_body 1 ["ana"] false);
    HttpOk (count_body 2); HttpOk (users_body 2 ["org1"; "org2"] false) ].

(** * Properties *)

(** ** Record extraction *)

Section ExtractionFacts.
Local Open Scope res_scope.

(** Two defaults that are both falsy give the same truth value. *)
Lemma truthy_dict_get d k a b :
  truthy a = false -> truthy b = false ->
  truthy (dict_get d k a) = truthy (dict_get d k b).
Proof.
  intros Ha Hb. unfold dict_get. destruct (assoc k d); congruence.
Qed.

Lemma dict_get_truthy d k a b :
  truthy (dict_get d k a) = true -> truthy a = false ->
  dict_get d k b = dict_get d k a.
Proof.
  unfold dict_get. destruct (assoc k d); [reflexivity | congruence].
Qed.

Lemma null_or_absent_falsy d k dflt :
  null_or_absent d k = true -> truthy dflt = false ->
  truthy (dict_get d k dflt) = false.
Proof.
  unfold null_or_absent, dict_get.
  destruct (assoc k d) as [[]|]; simpl; congruence.
Qed.

Lemma falsy_or_dict_cases v :
  falsy_or_dict v = true -> truthy v = false \/ exists d, v = VDict d.
Proof.
  unfold falsy_or_dict. destruct (truthy v); simpl; [|now left].
  destruct v; simpl; try discriminate. right. now eexists.
Qed.

Lemma comprehension_languages items :
  forallb falsy_or_dict items = true ->
  exists l, comprehension (fun lang => Ok (truthy lang))
              (fun lang => py_get lang "name" VNone) items = Ok l.
Proof.
  induction items as [|x rest IH]; simpl; intros Hs.
  - now eexists.
  - apply andb_true_iff in Hs as [Hx Hr]. destruct (IH Hr) as [l Hl].
    destruct (truthy x) eqn:Tx.
    + destruct (falsy_or_dict_cases _ Hx) as [F|[d ->]]; [congruence|].
      simpl. rewrite Hl. simpl. now eexists.
    + rewrite Hl. now eexists.
Qed.

Lemma comprehension_topics items :
  forallb topic_node_shape items = true ->
  exists l, comprehension
              (fun node =>
                 if truthy node then
                   t <- py_get node "topic" VNone ;; Ok (truthy t)
                 else Ok false)
              (fun node =>
                 t <- py_get node "topic" (VDict []) ;;
                 py_get t "name" VNone) items = Ok l.
Proof.
  induction items as [|x rest IH]; simpl; intros Hs.
  - now eexists.
  - apply andb_true_iff in Hs as [Hx Hr]. destruct (IH Hr) as [l Hl].
    unfold topic_node_shape in Hx.
    destruct (truthy x) eqn:Tx; simpl in Hx.
    + destruct x; try discriminate. simpl.
      destruct (truthy (dict_get entries "topic" VNone)) eqn:Tt.
      * rewrite (dict_get_truthy _ _ _ (VDict []) Tt eq_refl).
        destruct (falsy_or_dict_cases _ Hx) as [F|[t ->]]; [congruence|].
        simpl. rewrite Hl. simpl. now eexists.
      * rewrite Hl. now eexists.
    + rewrite Hl. now eexists.
Qed.

Lemma extract_languages_ok d :
  connection_of falsy_or_dict (dict_get d "languages" VNone) = true ->
  exists l, extract_languages (VDict d) = Ok (VList l)
            /\ (null_or_absent d "languages" = true -> l = []).
Proof.
  intros Hs. unfold extract_languages. cbn [py_get rbind].
  destruct (truthy (dict_get d "languages" (VDict []))) eqn:T.
  - rewrite (truthy_dict_get d "languages" (VDict []) VNone eq_refl eq_refl) in T.
    rewrite (dict_get_truthy _ _ _ (VDict []) T eq_refl).
    unfold connection_of in Hs. rewrite T in Hs. simpl in Hs.
    destruct (dict_get d "languages" VNone) as [| | | | |c] eqn:E; try discriminate.
    cbn [py_get rbind]. unfold list_of in Hs.
    destruct (dict_get c "nodes" (VList [])) as [| | | |items|]; try discriminate.
    cbn [py_iter rbind].
    destruct (comprehension_languages items Hs) as [l ->].
    cbn [rbind]. exists l. split; [reflexivity|].
    intros Hn. apply (null_or_absent_falsy _ _ VNone) in Hn; [|reflexivity].
    rewrite E in Hn. congruence.
  - exists []. now split.
Qed.

Lemma extract_topics_ok d :
  connection_of topic_node_shape (dict_get d "repositoryTopics" VNone) = true ->
  exists l, extract_topics (VDict d) = Ok (VList l)
            /\ (null_or_absent d "repositoryTopics" = true -> l = []).
Proof.
  intros Hs. unfold extract_topics. cbn [py_get rbind].
  destruct (truthy (dict_get d "repositoryTopics" (VDict []))) eqn:T.
  - rewrite (truthy_dict_get d "repositoryTopics" (VDict []) VNone eq_refl eq_refl) in T.
    rewrite (dict_get_truthy _ _ _ (VDict []) T eq_refl).
    unfold connection_of in Hs. rewrite T in Hs. simpl in Hs.
    destruct (dict_get d "repositoryTopics" VNone) as [| | | | |c] eqn:E; try discriminate.
    cbn [py_get rbind]. unfold list_of in Hs.
    destruct (dict_get c "nodes" (VList [])) as [| | | |items|]; try discriminate.
    cbn [py_iter rbind].
    destruct (comprehension_topics items Hs) as [l ->].
    cbn [rbind]. exists l. split; [reflexivity|].
    intros Hn. apply (null_or_absent_falsy _ _ VNone) in Hn; [|reflexivity].
    rewrite E in Hn. congruence.
  - exists []. now split.
Qed.

Lemma extract_readme_ok d :
  falsy_or_dict (dict_get d "object" VNone) = true ->
  exists t, extract_readme (VDict d) = Ok t
            /\ (null_or_absent d "object" = true -> t = VStr "").
Proof.
  intros Hs. unfold extract_readme. cbn [py_get rbind].
  destruct (truthy (dict_get d "object" VNone)) eqn:T.
  - destruct (falsy_or_dict_cases _ Hs) as [F|[o Ho]]; [congruence|].
    rewrite Ho. cbn [py_get]. eexists. split; [reflexivity|].
    intros Hn. apply (null_or_absent_falsy _ _ VNone) in Hn; [|reflexivity].
    congruence.
  - exists (VStr ""). now split.
Qed.

Lemma total_count_ok d k :
  falsy_or_dict (dict_get d k VNone) = true ->
  exists c, total_count (VDict d) k = Ok c
            /\ (truthy (dict_get d k VNone) = false -> c = VInt 0).
Proof.
  intros Hs. unfold total_count. cbn [py_get rbind].
  destruct (truthy (dict_get d k VNone)) eqn:T.
  - rewrite (dict_get_truthy _ _ _ (VDict []) T eq_refl).
    destruct (falsy_or_dict_cases _ Hs) as [F|[o Ho]]; [congruence|].
    rewrite Ho. cbn [py_get]. eexists. split; [reflexivity|discriminate].
  - exists (VInt 0). now split.
Qed.

(** [x.get(k, {}) or {}] is a dict when [x.get(k)] is falsy or a dict, and the
    empty one when the key is null or absent. *)
Lemma or_empty_dict d k :
  falsy_or_dict (dict_get d k VNone) = true ->
  exists o, py_or (dict_get d k (VDict [])) (VDict []) = VDict o
            /\ (null_or_absent d k = true -> o = [])
            /\ (truthy (dict_get d k VNone) = true -> dict_get d k VNone = VDict o).
Proof.
  intros Hs. unfold py_or.
  rewrite (truthy_dict_get d k (VDict []) VNone eq_refl eq_refl).
  destruct (truthy (dict_get d k VNone)) eqn:T.
  - rewrite (dict_get_truthy _ _ _ (VDict []) T eq_refl).
    destruct (falsy_or_dict_cases _ Hs) as [F|[o Ho]]; [congruence|].
    exists o. repeat split; auto.
    intros Hn. apply (null_or_absent_falsy _ _ VNone) in Hn; [|reflexivity].
    congruence.
  - exists []. repeat split; auto. discriminate.
Qed.

Lemma owner_of_ok d :
  owner_shape (dict_get d "owner" VNone) = true ->
  exists o, owner_of d = VDict o
            /\ falsy_or_dict (dict_get o "followers" VNone) = true
            /\ (null_or_absent d "owner" = true -> o = []).
Proof.
  intros Hs. unfold owner_of, py_or.
  rewrite (truthy_dict_get d "owner" (VDict []) VNone eq_refl eq_refl).
  unfold owner_shape in Hs.
  destruct (truthy (dict_get d "owner" VNone)) eqn:T.
  - rewrite (dict_get_truthy _ _ _ (VDict []) T eq_refl).
    simpl in Hs.
    destruct (dict_get d "owner" VNone) as [| | | | |o] eqn:E; try discriminate.
    exists o. repeat split; auto.
    intros Hn. apply (null_or_absent_falsy _ _ VNone) in Hn; [|reflexivity].
    rewrite E in Hn. congruence.
  - exists []. repeat split; auto.
Qed.

Lemma total_count_dict o k c :
  total_count (VDict o) k = Ok c ->
  (truthy (dict_get o k VNone) = false -> c = VInt 0)
  /\ (forall f, dict_get o k VNone = VDict f -> f <> [] ->
      c = dict_get f "totalCount" (VInt 0)).
Proof.
  unfold total_count. cbn [py_get rbind].
  destruct (truthy (dict_get o k VNone)) eqn:T.
  - rewrite (dict_get_truthy _ _ _ (VDict []) T eq_refl).
    intros Hc. split; [discriminate|].
    intros f Hf _. rewrite Hf in Hc. cbn [py_get] in Hc. congruence.
  - intros [= <-]. split; [reflexivity|].
    intros f Hf Hne. rewrite Hf in T. destruct f; [congruence|discriminate].
Qed.

End ExtractionFacts.

Ltac in_cases H :=
  repeat (destruct H as [H|H]; [inversion H; subst; clear H|]); try contradiction.

(** Peels the first [rbind] of a run that returned. *)
Ltac step_rbind H :=
  match type of H with
  | rbind ?m _ = Ok _ =>
      let E := fresh "E" in
      destruct m eqn:E; cbn [rbind] in H; [|discriminate H]
  end.

(** A field copied with [get(k, dflt)] holds the default when the key is
    absent and the key's value when that is not null. *)
Lemma scalar_fields_defaults d r :
  (forall src key dflt, In (src, key, dflt) scalar_fields ->
     assoc key r = Some (dict_get d src dflt)) ->
  forall src key dflt, In (src, key, dflt) scalar_fields ->
    (assoc src d = None -> assoc key r = Some dflt)
    /\ (forall v, assoc src d = Some v -> v <> VNone -> assoc key r = Some v).
Proof.
  intros Hall src key dflt Hin. rewrite (Hall _ _ _ Hin). unfold dict_get.
  split; [intros ->; reflexivity|intros v -> _; reflexivity].
Qed.

(** C1 (as amended).  For every non-empty node whose optional sub-objects
    (owner, languages, repositoryTopics, the readme object, licenseInfo,
    primaryLanguage, watchers, issues, the owner's followers) are each null,
    absent or shaped as the query returns them, [extract_repo_data] returns
    without raising a record that has exactly the 33 documented keys; every
    field copied from a key of the node holds its default when the key is
    absent and the key's value when that is present and not null; and every
    field drawn from a null or absent sub-object holds its default (empty
    string, 0, empty list).  What a copied key that is present and null
    gives is no part of the statement. *)
Theorem extract_repo_data_total (d : list (string * value)) :
  d <> [] -> node_shape d = true ->
  exists r,
    extract_repo_data (VDict d) = Ok (VDict r)
    /\ map fst r = record_keys
    /\ (forall src key dflt, In (src, key, dflt) scalar_fields ->
        (assoc src d = None -> assoc key r = Some dflt)
        /\ (forall v, assoc src d = Some v -> v <> VNone -> assoc key r = Some v))
    /\ (null_or_absent d "owner" = true ->
        forall key dflt, In (key, dflt) owner_defaults -> assoc key r = Some dflt)
    /\ (null_or_absent d "languages" = true -> assoc "languages" r = Some (VList []))
    /\ (null_or_absent d "repositoryTopics" = true -> assoc "topics" r = Some (VList []))
    /\ (null_or_absent d "object" = true -> assoc "readme_content" r = Some (VStr ""))
    /\ (null_or_absent d "licenseInfo" = true ->
        assoc "license_key" r = Some (VStr "") /\ assoc "license_name" r = Some (VStr ""))
    /\ (null_or_absent d "primaryLanguage" = true ->
        assoc "primary_language" r = Some (VStr ""))
    /\ (null_or_absent d "watchers" = true -> assoc "watchers" r = Some (VInt 0))
    /\ (null_or_absent d "issues" = true -> assoc "open_issues" r = Some (VInt 0))
    /\ (forall o, owner_of d = VDict o -> null_or_absent o "followers" = true ->
        assoc "owner_followers" r = Some (VInt 0)).
Proof.
  intros Hne Hs. unfold node_shape in Hs.
  repeat (apply andb_true_iff in Hs as [Hs ?]).
  destruct (owner_of_ok d Hs) as (o & Ho & Hfol & Ho0).
  destruct (extract_languages_ok d) as (langs & Hlangs & Hl0); [assumption|].
  destruct (extract_topics_ok d) as (tops & Htops & Ht0); [assumption|].
  destruct (extract_readme_ok d) as (readme & Hreadme & Hr0); [assumption|].
  destruct (or_empty_dict d "licenseInfo") as (lic & Hlic & Hlic0 & _); [assumption|].
  destruct (or_empty_dict d "primaryLanguage") as (prim & Hprim & Hprim0 & _); [assumption|].
  destruct (total_count_ok d "watchers") as (wat & Hwat & Hwat0); [assumption|].
  destruct (total_count_ok d "issues") as (iss & Hiss & Hiss0); [assumption|].
  destruct (total_count_ok o "followers" Hfol) as (fol & Hfoll & Hfol0).
  assert (T : truthy (VDict d) = true) by (destruct d; [congruence|reflexivity]).
  unfold extract_repo_data. rewrite T. cbn [negb py_get rbind].
  unfold owner_of in Ho. rewrite Ho, Hlangs, Htops, Hreadme. cbn [py_get rbind].
  rewrite Hlic, Hprim, Hwat, Hiss. cbn [py_get rbind].
  rewrite Hfoll.
  destruct (is_User (dict_get o "__typename" (VStr ""))) eqn:EU; cbn [rbind];
    (eexists; split; [reflexivity|]);
    (split; [reflexivity|]);
    (split; [apply scalar_fields_defaults;
             intros src key dflt Hin; in_cases Hin; reflexivity|]);
    (split; [intros Hn key dflt Hin; rewrite (Ho0 Hn) in *; in_cases Hin;
             try reflexivity; cbn; try (rewrite Hfol0; reflexivity)  |]);
    (split; [intros Hn; rewrite (Hl0 Hn); reflexivity|]);
    (split; [intros Hn; rewrite (Ht0 Hn); reflexivity|]);
    (split; [intros Hn; rewrite (Hr0 Hn); reflexivity|]);
    (split; [intros Hn; rewrite (Hlic0 Hn); split; reflexivity|]);
    (split; [intros Hn; rewrite (Hprim0 Hn); reflexivity|]);
    (split; [intros Hn; rewrite Hwat0;
             [reflexivity | now apply null_or_absent_falsy]|]);
    (split; [intros Hn; rewrite Hiss0;
             [reflexivity | now apply null_or_absent_falsy]|]);
    (intros o' Ho' Hn; unfold owner_of in Ho'; rewrite Ho in Ho';
     injection Ho' as <-; rewrite Hfol0;
     [reflexivity | now apply null_or_absent_falsy]).
Qed.

(** The theorem applies to a node whose optional sub-objects are all null
    and that has a name and no description. *)
Lemma extract_repo_data_total_witness :
  exists r, extract_repo_data (VDict bare_node) = Ok (VDict r)
            /\ map fst r = record_keys
            /\ assoc "name" r = Some (VStr "tool")
            /\ assoc "description" r = Some (VStr "")
            /\ assoc "owner_followers" r = Some (VInt 0).
Proof.
  destruct (extract_repo_data_total bare_node) as (r & Hr & Hk & Hs & Ho & _).
  - discriminate.
  - reflexivity.
  - exists r. split; [exact Hr|]. split; [exact Hk|]. split; [|split].
    + apply (proj2 (Hs "name" "name" (VStr "") ltac:(simpl; tauto)) (VStr "tool"));
        [reflexivity|discriminate].
    + apply (proj1 (Hs "description" "description" (VStr "") ltac:(simpl; tauto))).
      reflexivity.
    + apply (Ho eq_refl). simpl. tauto.
Defined.

(** C1 as stated fails at the node with no key at all: every optional
    sub-object is absent, yet the result is the empty dictionary, which has
    none of the documented keys. *)
Lemma empty_node_has_no_record_keys :
  node_shape [] = true
  /\ extract_repo_data (VDict []) = Ok (VDict [])
  /\ ~ (exists r, extract_repo_data (VDict []) = Ok (VDict r)
                  /\ map fst r = record_keys).
Proof.
  split; [reflexivity|]. split; [reflexivity|].
  intros (r & Hr & Hk). cbn in Hr. injection Hr as <-. discriminate Hk.
Qed.

(** C10.  For a node that is [None] or an empty mapping, [extract_repo_data]
    returns the empty dictionary: it has no key at all, so none of the
    record's fields is present. *)
Theorem extract_repo_data_empty :
  extract_repo_data VNone = Ok (VDict [])
  /\ extract_repo_data (VDict []) = Ok (VDict [])
  /\ (forall key, assoc key [] = None)
  /\ map fst (@nil (string * value)) <> record_keys.
Proof.
  repeat split; try reflexivity. discriminate.
Qed.

(** C2.  When extraction returns a record for a node with owner [o]: if the
    owner's [__typename] is "Organization" (the queries request no followers
    of an organization, so its object has no such key), [owner_company] is
    the empty string, [owner_bio] is the owner's description and
    [owner_followers] is 0; if it is "User", [owner_company] and [owner_bio]
    are the owner's company and bio, and [owner_followers] is the total count
    of its followers object (0 when that is null or absent). *)
Theorem owner_kind_branching d o r :
  owner_of d = VDict o ->
  extract_repo_data (VDict d) = Ok (VDict r) ->
  (dict_get o "__typename" (VStr "") = VStr "Organization" ->
     assoc "followers" o = None ->
     assoc "owner_company" r = Some (VStr "")
     /\ assoc "owner_bio" r = Some (dict_get o "description" (VStr ""))
     /\ assoc "owner_followers" r = Some (VInt 0))
  /\ (dict_get o "__typename" (VStr "") = VStr "User" ->
     assoc "owner_company" r = Some (dict_get o "company" (VStr ""))
     /\ assoc "owner_bio" r = Some (dict_get o "bio" (VStr ""))
     /\ (truthy (dict_get o "followers" VNone) = false ->
         assoc "owner_followers" r = Some (VInt 0))
     /\ (forall f, dict_get o "followers" VNone = VDict f -> f <> [] ->
         assoc "owner_followers" r = Some (dict_get f "totalCount" (VInt 0)))).
Proof.
  intros Ho H.
  destruct d as [|kv d'].
  { cbn in Ho. injection Ho as <-. split; discriminate. }
  remember (kv :: d') as d eqn:Ed.
  assert (T : truthy (VDict d) = true) by (subst d; reflexivity).
  clear Ed kv d'.
  unfold extract_repo_data in H. rewrite T in H. cbn [negb py_get rbind] in H.
  unfold owner_of in Ho. rewrite Ho in H. cbn [py_get rbind] in H.
  do 3 step_rbind H.
  step_rbind H. step_rbind H.
  cbn [py_get rbind] in H.
  do 2 step_rbind H. step_rbind H.
  cbn [py_get rbind] in H.
  step_rbind H. step_rbind H. step_rbind H.
  injection H as <-.
  destruct (total_count_dict _ _ _ E9) as [Hz Hf].
  split.
  - intros Ht Hn. rewrite Ht in E7, E8. cbn in E7, E8.
    injection E7 as <-. injection E8 as <-.
    assert (Hfalsy : truthy (dict_get o "followers" VNone) = false)
      by (unfold dict_get; rewrite Hn; reflexivity).
    repeat split; cbn; auto. f_equal. auto.
  - intros Ht. rewrite Ht in E7, E8. cbn in E7, E8.
    injection E7 as <-. injection E8 as <-. repeat split; cbn; auto;
      intros; f_equal; auto.
Qed.

(** The theorem applies to a repository owned by an organization and to one
    owned by a user. *)
Lemma owner_kind_branching_witness :
  (exists o r,
     owner_of org_node = VDict o
     /\ extract_repo_data (VDict org_node) = Ok (VDict r)
     /\ assoc "owner_company" r = Some (VStr "")
     /\ assoc "owner_bio" r = Some (VStr "We build tools")
     /\ assoc "owner_followers" r = Some (VInt 0))
  /\ (exists o r,
        owner_of user_node = VDict o
        /\ extract_repo_data (VDict user_node) = Ok (VDict r)
        /\ assoc "owner_company" r = Some (VStr "ACME")
        /\ assoc "owner_bio" r = Some (VStr "hi")
        /\ assoc "owner_followers" r = Some (VInt 7)).
Proof.
  split.
  - do 2 eexists. split; [reflexivity|]. split; [reflexivity|].
    exact (proj1 (owner_kind_branching org_node _ _ eq_refl eq_refl) eq_refl eq_refl).
  - do 2 eexists. split; [reflexivity|]. split; [reflexivity|].
    pose proof (proj2 (owner_kind_branching user_node _ _ eq_refl eq_refl) eq_refl)
      as (Hc & Hb & _ & Hf).
    split; [exact Hc|]. split; [exact Hb|].
    apply (Hf [("totalCount", VInt 7)]); [reflexivity|discriminate].
Defined.

(** ** Laws of the monad *)

Lemma bind_assoc {A B C} (m : M A) (k : A -> M B) (k' : B -> M C) w :
  bind (bind m k) k' w = bind m (fun a => bind (k a) k') w.
Proof. unfold bind. destruct (m w) as [[[a|e] w']|]; reflexivity. Qed.

Lemma bind_ok_inv {A B} (m : M A) (k : A -> M B) w b w' :
  bind m k w = Some (Ok b, w') ->
  exists a w1, m w = Some (Ok a, w1) /\ k a w1 = Some (Ok b, w').
Proof.
  unfold bind. destruct (m w) as [[[a|e] w1]|]; try discriminate.
  intros Hk. now exists a, w1.
Qed.

Lemma bind_eq {A B} (m : M A) (k : A -> M B) w a w1 :
  m w = Some (Ok a, w1) -> bind m k w = k a w1.
Proof. unfold bind. now intros ->. Qed.

Ltac mcbn0 :=
  cbn [bind lift ret raise try_except log sleep get_rate_limit set_rate_limit
       get_repos set_repos session_post seconds_until
       script clock _rate_limit _repos trace
       py_in py_getitem py_iter].

(** Runs a computation forward as far as it is determined. *)
Ltac mcbn := repeat first [rewrite bind_assoc | progress mcbn0].

(** ** Frame rules *)

Lemma client_step_refl w : client_step w w.
Proof. split; [reflexivity | lia]. Qed.

Lemma client_step_trans w1 w2 w3 :
  client_step w1 w2 -> client_step w2 w3 -> client_step w1 w3.
Proof. intros [R1 L1] [R2 L2]. split; [congruence | lia]. Qed.

Section SafeRules.
Context {A B : Type}.

Lemma safe_ret (a : A) : safe (ret a).
Proof. intros w. exists (Ok a), w. split; [reflexivity | apply client_step_refl]. Qed.

Lemma safe_raise (e : exn) : safe (raise (A := A) e).
Proof. intros w. exists (Raise e), w. split; [reflexivity | apply client_step_refl]. Qed.

Lemma safe_lift (r : res A) : safe (lift r).
Proof. intros w. exists r, w. split; [reflexivity | apply client_step_refl]. Qed.

Lemma safe_bind (m : M A) (k : A -> M B) :
  safe m -> (forall a, safe (k a)) -> safe (bind m k).
Proof.
  intros Hm Hk w. destruct (Hm w) as (r & w1 & E & S1). unfold bind. rewrite E.
  destruct r as [a|e].
  - destruct (Hk a w1) as (r2 & w2 & E2 & S2). exists r2, w2.
    split; [assumption | eapply client_step_trans; eassumption].
  - exists (Raise e), w1. now split.
Qed.

Lemma safe_try_except (m : M A) (h : exn -> M A) :
  safe m -> (forall e, safe (h e)) -> safe (try_except m h).
Proof.
  intros Hm Hh w. destruct (Hm w) as (r & w1 & E & S1). unfold try_except.
  rewrite E. destruct r as [a|e].
  - exists (Ok a), w1. now split.
  - destruct (Hh e w1) as (r2 & w2 & E2 & S2). exists r2, w2.
    split; [assumption | eapply client_step_trans; eassumption].
Qed.

Lemma consuming_safe (m : M A) : consuming m -> safe m.
Proof. intros H w. destruct (H w) as (r & w' & E & S & _). now exists r, w'. Qed.

Lemma consuming_bind (m : M A) (k : A -> M B) :
  consuming m -> (forall a, safe (k a)) -> consuming (bind m k).
Proof.
  intros Hm Hk w. destruct (Hm w) as (r & w1 & E & S1 & C1). unfold bind. rewrite E.
  destruct r as [a|e].
  - destruct (Hk a w1) as (r2 & w2 & E2 & S2). exists r2, w2.
    split; [assumption|]. split; [eapply client_step_trans; eassumption|].
    intros _. destruct S2 as [_ L2]. specialize (C1 eq_refl). lia.
  - exists (Raise e), w1. repeat split; try apply S1. discriminate.
Qed.

End SafeRules.

Lemma safe_log ev : safe (log ev).
Proof. intros w. eexists _, _. split; [reflexivity|]. split; simpl; [reflexivity | lia]. Qed.

Lemma safe_get_rate_limit : safe get_rate_limit.
Proof. intros w. eexists _, _. split; [reflexivity | apply client_step_refl]. Qed.

Lemma safe_set_rate_limit rl : safe (set_rate_limit rl).
Proof. intros w. eexists _, _. split; [reflexivity|]. split; simpl; [reflexivity | lia]. Qed.

Lemma safe_seconds_until s : safe (seconds_until s).
Proof.
  intros w. unfold seconds_until. destruct (clock w); eexists _, _;
    (split; [reflexivity|]); split; simpl; auto.
Qed.

Lemma consuming_session_post q v : consuming (session_post q v).
Proof.
  intros w. unfold session_post.
  destruct (script w) as [|[msg|result] rest] eqn:E; eexists _, _;
    (split; [reflexivity|]); unfold client_step; cbn [script _repos]; rewrite ?E;
    simpl; repeat split; auto; try lia; try discriminate.
Qed.

Ltac safe_step :=
  first
    [ apply safe_ret | apply safe_raise | apply safe_lift | apply safe_log
    | apply safe_get_rate_limit | apply safe_set_rate_limit
    | apply safe_seconds_until
    | apply safe_bind; [|intros ?]
    | match goal with
      | |- safe (if ?b then _ else _) => destruct b
      | |- safe (match ?x with _ => _ end) => destruct x
      | |- safe (let _ := _ in _) => cbv zeta
      end ].
Ltac safe_tac := repeat safe_step.

(** ** The backoff wrapper *)

Section BackoffFacts.
Context {A : Type}.
Variables (max_retries : nat) (base_delay max_delay exponential_base : Q).
Variable exceptions : exn -> bool.
Variable func : M A.

Let loop := wrapper_loop max_retries base_delay max_delay exponential_base
              exceptions func.

(** The wrapped call returned: so does the wrapper, at once. *)
Lemma wrapper_loop_returns attempt rest last w a w' :
  func w = Some (Ok a, w') ->
  loop (attempt :: rest) last w = Some (Ok a, w').
Proof.
  intros Hf. unfold loop. cbn [wrapper_loop]. unfold try_except.
  now rewrite Hf.
Qed.

(** A failure outside [exceptions] is not caught. *)
Lemma wrapper_loop_not_retryable attempt rest last w e w' :
  func w = Some (Raise e, w') -> exceptions e = false ->
  loop (attempt :: rest) last w = Some (Raise e, w').
Proof.
  intros Hf He. unfold loop. cbn [wrapper_loop]. unfold try_except.
  now rewrite Hf, He.
Qed.

(** A caught failure before the last attempt: sleep, then go on. *)
Lemma wrapper_loop_retry attempt rest last w e w' :
  func w = Some (Raise e, w') -> exceptions e = true ->
  attempt <> max_retries ->
  loop (attempt :: rest) last w
  = loop rest (Some e)
      (after_sleep (backoff_delay base_delay max_delay exponential_base attempt) w').
Proof.
  intros Hf He Hn. unfold loop. cbn [wrapper_loop]. unfold try_except at 1.
  rewrite Hf, He. apply Nat.eqb_neq in Hn. rewrite Hn. reflexivity.
Qed.

(** A caught failure at the last attempt is raised again. *)
Lemma wrapper_loop_exhausted rest last w e w' :
  func w = Some (Raise e, w') -> exceptions e = true ->
  loop (max_retries :: rest) last w = Some (Raise e, w').
Proof.
  intros Hf He. unfold loop. cbn [wrapper_loop]. unfold try_except.
  now rewrite Hf, He, Nat.eqb_refl.
Qed.

End BackoffFacts.

(** C7.  With 3 retries, base delay 2 and multiplier 2 (cap 60), an
    operation that fails four times in a row with a retryable failure is
    called again after sleeping 2, then 4, then 8 seconds, each delay being
    [min(base_delay * multiplier^attempt, max_delay)]; the failure of the
    fourth call is what the wrapper raises, in the world that call left.  A
    failure that is not retryable is raised at once: no sleep, no second
    call. *)
Theorem backoff_schedule {A} (exceptions : exn -> bool) (func : M A)
    (w w0 w1 w2 w3 : world) (e0 e1 e2 e3 : exn) :
  func w = Some (Raise e0, w0) -> exceptions e0 = true ->
  func (after_sleep 2 w0) = Some (Raise e1, w1) -> exceptions e1 = true ->
  func (after_sleep 4 w1) = Some (Raise e2, w2) -> exceptions e2 = true ->
  func (after_sleep 8 w2) = Some (Raise e3, w3) -> exceptions e3 = true ->
  exponential_backoff 3 2 60 2 exceptions func w = Some (Raise e3, w3)
  /\ map (backoff_delay 2 60 2) [0; 1; 2]%nat = [2; 4; 8]%Q
  /\ (forall attempt,
        backoff_delay 2 60 2 attempt = Qmin (2 * 2 ^ Z.of_nat attempt) 60)
  /\ (forall max_retries base_delay max_delay exponential_base v e v',
        func v = Some (Raise e, v') -> exceptions e = false ->
        exponential_backoff max_retries base_delay max_delay exponential_base
          exceptions func v = Some (Raise e, v')).
Proof.
  intros H0 X0 H1 X1 H2 X2 H3 X3. repeat split.
  - unfold exponential_backoff. cbn [seq Nat.add].
    rewrite (wrapper_loop_retry _ _ _ _ _ _ _ _ _ _ _ _ H0 X0) by discriminate.
    change (backoff_delay 2 60 2 0) with 2%Q.
    rewrite (wrapper_loop_retry _ _ _ _ _ _ _ _ _ _ _ _ H1 X1) by discriminate.
    change (backoff_delay 2 60 2 1) with 4%Q.
    rewrite (wrapper_loop_retry _ _ _ _ _ _ _ _ _ _ _ _ H2 X2) by discriminate.
    change (backoff_delay 2 60 2 2) with 8%Q.
    exact (wrapper_loop_exhausted _ _ _ _ _ _ _ _ _ _ _ H3 X3).
  - intros max_retries base_delay max_delay exponential_base v e v' Hf He.
    unfold exponential_backoff. rewrite Nat.add_1_r. cbn [seq].
    now apply wrapper_loop_not_retryable.
Qed.

(** The theorem applies to an operation that always fails with a connection
    error. *)
Lemma backoff_schedule_witness :
  exponential_backoff 3 2 60 2 is_request_exception
    (raise (A := unit) (RequestException "down")) (fresh [])
  = Some (Raise (RequestException "down"),
          after_sleep 8 (after_sleep 4 (after_sleep 2 (fresh [])))).
Proof.
  refine (proj1 (backoff_schedule is_request_exception
                   (raise (RequestException "down"))
                   (fresh []) _ _ _ _ _ _ _ _
                   eq_refl eq_refl eq_refl eq_refl eq_refl eq_refl eq_refl eq_refl)).
Defined.

Lemma consuming_wrapper_loop {A} n b c m exc (func : M A) :
  consuming func ->
  forall attempts last, consuming (wrapper_loop n b c m exc func attempts last).
Proof.
  intros Hf attempts. induction attempts as [|a rest IH]; intros last w; cbn [wrapper_loop].
  - destruct last; eexists _, _; (split; [reflexivity|]);
      (split; [apply client_step_refl | discriminate]).
  - unfold try_except. destruct (Hf w) as (r & w1 & E & S1 & C1). rewrite E.
    destruct r as [x|e]; [now exists (Ok x), w1|].
    destruct (exc e); [|exists (Raise e), w1; repeat split; try apply S1; discriminate].
    destruct (a =? n)%nat;
      [exists (Raise e), w1; repeat split; try apply S1; discriminate|].
    unfold bind, sleep, log.
    match goal with |- context [wrapper_loop _ _ _ _ _ _ _ _ ?w2] =>
      destruct (IH (Some e) w2) as (r2 & w3 & E2 & [R2 L2] & C2) end.
    exists r2, w3. cbn [script _repos] in *. destruct S1 as [R1 L1].
    split; [exact E2|]. split; [split; [congruence | lia]|].
    intros Hok. specialize (C2 Hok). lia.
Qed.

(** ** The transport *)

Section ClientFacts.
Context `{Builtins}.

Lemma consuming_execute_body q v : consuming (execute_body q v).
Proof.
  unfold execute_body. apply consuming_bind; [apply consuming_session_post|].
  intros result. safe_tac.
Qed.

Lemma consuming_execute q v : consuming (execute q v).
Proof. apply consuming_wrapper_loop, consuming_execute_body. Qed.

Lemma safe_execute q v : safe (execute q v).
Proof. apply consuming_safe, consuming_execute. Qed.

Lemma safe_check_rate_limit : safe check_rate_limit.
Proof. unfold check_rate_limit. apply safe_bind; [apply safe_execute|]. intros; safe_tac. Qed.

Lemma safe_wait_for_rate_limit m : safe (wait_for_rate_limit m).
Proof.
  unfold wait_for_rate_limit, calculate_wait_time, sleep.
  repeat first [apply safe_check_rate_limit | safe_step].
Qed.

Lemma safe_get_rate_limit_info : safe get_rate_limit_info.
Proof.
  unfold get_rate_limit_info.
  repeat first [apply safe_check_rate_limit | safe_step].
Qed.

Lemma safe_remaining_requests : safe remaining_requests.
Proof. unfold remaining_requests. safe_tac. Qed.

(** The handler swallows every failure of the transport. *)
Lemma try_execute_spec q v w :
  exists r w',
    try_execute q v w = Some (Ok r, w') /\ client_step w w'
    /\ (r <> None -> (List.length (script w') < List.length (script w))%nat).
Proof.
  unfold try_execute, try_except, bind.
  destruct (consuming_execute q v w) as (r & w' & E & S & C). rewrite E.
  destruct r as [data|e]; cbn [ret].
  - exists (Some data), w'. repeat split; try apply S. intros _. now apply C.
  - exists None, w'. repeat split; try apply S. congruence.
Qed.


Lemma error_messages_ok errs msgs :
  Forall2 error_entry errs msgs ->
  comprehension (fun _ => Ok true)
    (fun e => py_get e "message" (VStr (py_str e))) errs = Ok (map VStr msgs).
Proof.
  induction 1 as [|e m errs msgs (d & -> & Hm) _ IH]; [reflexivity|].
  cbn [comprehension rbind py_get map]. unfold dict_get. rewrite Hm, IH.
  reflexivity.
Qed.

Lemma py_join_strings sep msgs :
  py_join sep (map VStr msgs) = Ok (join_with sep msgs).
Proof.
  induction msgs as [|m [|m' rest] IH]; try reflexivity.
  cbn [map py_join join_with] in *. rewrite IH. reflexivity.
Qed.

Lemma execute_body_graphql_errors query variables d errs msgs rest clk rl rows tr :
  assoc "errors" d = Some (VList errs) ->
  Forall2 error_entry errs msgs ->
  (assoc "data" d = None \/ exists data, assoc "data" d = Some (VDict data)) ->
  exists rl',
    execute_body query variables (mkWorld (HttpOk (VDict d) :: rest) clk rl rows tr)
    = Some (Raise (ValueError ("GraphQL errors: " ++ join_with "; " msgs)),
            mkWorld rest clk rl' rows (Posted query variables :: tr)).
Proof.
  intros He Hm Hd. unfold execute_body.
  mcbn.
  destruct Hd as [Hd|(data & Hd)]; rewrite ?Hd, ?He; mcbn.
  - eexists. rewrite (error_messages_ok _ _ Hm). mcbn. rewrite py_join_strings. mcbn.
    reflexivity.
  - destruct (assoc "rateLimit" data) as [rl1|] eqn:Er; mcbn; rewrite ?Hd; mcbn;
      rewrite ?Er; mcbn; rewrite ?He; mcbn;
      eexists; rewrite (error_messages_ok _ _ Hm); mcbn; rewrite py_join_strings;
      mcbn; reflexivity.
Qed.

(** A body with an error list of messages, and whose [data] is absent or an
    object, makes [execute] raise the [ValueError] of the joined messages
    after one round trip: no retry, no sleep. *)
Lemma execute_graphql_errors query variables d errs msgs rest clk rl rows tr :
  assoc "errors" d = Some (VList errs) ->
  Forall2 error_entry errs msgs ->
  (assoc "data" d = None \/ exists data, assoc "data" d = Some (VDict data)) ->
  exists rl',
    execute query variables (mkWorld (HttpOk (VDict d) :: rest) clk rl rows tr)
    = Some (Raise (ValueError ("GraphQL errors: " ++ join_with "; " msgs)),
            mkWorld rest clk rl' rows (Posted query variables :: tr)).
Proof.
  intros He Hm Hd.
  destruct (execute_body_graphql_errors query variables d errs msgs rest clk rl rows tr
              He Hm Hd) as (rl' & Hb).
  exists rl'. unfold execute, exponential_backoff. cbn [seq Nat.add].
  now apply wrapper_loop_not_retryable.
Qed.

(** Only a [RequestException] of the wrapped call is ever retried: any
    other failure of [execute_body] is the failure of [execute], in the same
    world. *)
Lemma execute_no_retry query variables w e w' :
  execute_body query variables w = Some (Raise e, w') ->
  is_request_exception e = false ->
  execute query variables w = Some (Raise e, w').
Proof.
  intros Hb He. unfold execute, exponential_backoff. cbn [seq Nat.add].
  now apply wrapper_loop_not_retryable.
Qed.

(** C8, at the body [{data: null, errors: [...]}]: the test
    ['rateLimit' in result['data']] raises [TypeError] before the error list
    is looked at.  The failure is not retried (one post, no sleep) but it is
    not the [ValueError] carrying the joined messages; a body with the same
    kind of error list and no [data] key does raise it. *)
Theorem execute_null_data_with_errors query variables rest clk rl rows tr :
  execute query variables (mkWorld (HttpOk null_data_errors :: rest) clk rl rows tr)
  = Some (Raise TypeError, mkWorld rest clk rl rows (Posted query variables :: tr))
  /\ execute query variables (mkWorld (HttpOk (VDict errors_only) :: rest) clk rl rows tr)
    = Some (Raise (ValueError
                     "GraphQL errors: Parse error on line 1; Unexpected end of document"),
            mkWorld rest clk rl rows (Posted query variables :: tr)).
Proof. split; reflexivity. Qed.

End ClientFacts.

(** ** Running the fetcher *)

Lemma len_nil {A} : len (@nil A) = 0%Z.
Proof. reflexivity. Qed.

Lemma len_cons {A} (x : A) l : len (x :: l) = (len l + 1)%Z.
Proof. unfold len. cbn [List.length]. lia. Qed.

Lemma len_app {A} (l1 l2 : list A) : len (l1 ++ l2) = (len l1 + len l2)%Z.
Proof. unfold len. rewrite length_app. lia. Qed.

Lemma len_nonneg {A} (l : list A) : (0 <= len l)%Z.
Proof. unfold len. lia. Qed.

Section RunsRules.
Context {A B : Type}.

Lemma runs_ret (a : A) w (post : res A -> world -> Prop) :
  post (Ok a) w -> runs (ret a) w post.
Proof. intros. now exists (Ok a), w. Qed.

Lemma runs_lift (r : res A) w (post : res A -> world -> Prop) :
  post r w -> runs (lift r) w post.
Proof. intros. now exists r, w. Qed.

Lemma runs_bind (m : M A) (k : A -> M B) w (post : res B -> world -> Prop) :
  runs m w (fun r w1 =>
              match r with
              | Ok a => runs (k a) w1 post
              | Raise e => post (Raise e) w1
              end) ->
  runs (bind m k) w post.
Proof.
  intros (r & w1 & E & Hr). unfold runs, bind. rewrite E.
  destruct r as [a|e]; [exact Hr | now exists (Raise e), w1].
Qed.

Lemma runs_weaken (m : M A) w (pre post : res A -> world -> Prop) :
  runs m w pre -> (forall r w', pre r w' -> post r w') -> runs m w post.
Proof. intros (r & w' & E & Hr) Hi. exists r, w'. auto. Qed.

Lemma runs_safe (m : M A) w : safe m -> runs m w (fun _ w' => client_step w w').
Proof. intros Hs. exact (Hs w). Qed.

Lemma runs_eq (m : M A) w r w' (post : res A -> world -> Prop) :
  m w = Some (r, w') -> post r w' -> runs m w post.
Proof. intros E Hp. now exists r, w'. Qed.

End RunsRules.

Section FetcherFacts.
Context `{Builtins}.

(** [_save_progress] writes the buffer when there is one and touches nothing
    else. *)
Lemma runs_save_progress p w :
  runs (_save_progress p) w
    (fun r w' => r = Ok tt /\ script w' = script w /\ _repos w' = _repos w
                 /\ _rate_limit w' = _rate_limit w
                 /\ posts w' = posts w /\ sleeps w' = sleeps w).
Proof.
  unfold _save_progress, runs, bind, get_repos.
  destruct (_repos w) eqn:E; eexists _, _; (split; [reflexivity|]);
    unfold posts, sleeps; cbn; rewrite ?E; repeat split; reflexivity.
Qed.

(** The loop over the nodes of a page only appends to the buffer; while it
    returns normally the buffer holds [total_matched] rows, at most
    [max_repos] of them. *)
Lemma runs_process_nodes max_repos lf nodes : forall tm tf w,
  runs (process_nodes max_repos lf nodes tm tf) w
    (fun r w' =>
       script w' = script w /\ _rate_limit w' = _rate_limit w
       /\ trace w' = trace w /\ clock w' = clock w
       /\ (forall tm' tf', r = Ok (tm', tf') ->
           len (_repos w) = tm -> (tm < max_repos)%Z ->
           len (_repos w') = tm' /\ (tm' <= max_repos)%Z)).
Proof.
  induction nodes as [|node rest IH]; intros tm tf w; cbn [process_nodes].
  - apply runs_ret. repeat split; auto; injection H0 as <- <-; auto; lia.
  - destruct (truthy node); [|apply IH].
    apply runs_bind, runs_lift.
    destruct (extract_repo_data node) as [repo_data|e];
      [|repeat split; auto; discriminate].
    apply runs_bind, runs_lift.
    destruct (location_matches lf repo_data) as [[|]|e];
      [| apply IH | repeat split; auto; discriminate].
    apply runs_bind. eapply runs_eq; [reflexivity|]. cbn beta iota.
    destruct (tm + 1 >=? max_repos)%Z eqn:G.
    + apply runs_ret. cbn [script _rate_limit trace clock _repos].
      repeat split; auto; injection H0 as <- <-;
        rewrite ?len_app, ?len_cons, ?len_nil; lia.
    + eapply runs_weaken; [apply IH|]. cbn [script _rate_limit trace clock _repos].
      intros r w' (Hs & Hr & Ht & Hc & Hb). repeat split; auto;
      intros; destruct (Hb tm' tf'); auto;
        rewrite ?len_app, ?len_cons, ?len_nil; lia.
Qed.

Lemma runs_checkpoint (op : option string) (c : Z) w :
  runs (match op with
        | Some p => if (c mod SAVE_INTERVAL =? 0)%Z then _save_progress p else ret tt
        | None => ret tt
        end) w
    (fun r w' => r = Ok tt /\ script w' = script w /\ _repos w' = _repos w
                 /\ _rate_limit w' = _rate_limit w
                 /\ posts w' = posts w /\ sleeps w' = sleeps w).
Proof.
  destruct op as [p|]; [destruct (c mod SAVE_INTERVAL =? 0)%Z|];
    try apply runs_save_progress; apply runs_ret; repeat split; reflexivity.
Qed.

Lemma runs_final_save (op : option string) w :
  runs (match op with
        | Some p => _save_progress p
        | None => ret tt
        end) w
    (fun r w' => r = Ok tt /\ script w' = script w /\ _repos w' = _repos w
                 /\ _rate_limit w' = _rate_limit w
                 /\ posts w' = posts w /\ sleeps w' = sleeps w).
Proof.
  destruct op as [p|];
    [apply runs_save_progress | apply runs_ret; repeat split; reflexivity].
Qed.

(** With more fuel than round trips left in the script the loop finishes;
    it only consumes the script, and when it returns normally the buffer
    holds [total_matched] rows, no more than [max_repos] unless it held more
    to begin with. *)
Lemma runs_search_loop q max_repos op lf : forall fuel cursor tm tf w,
  (List.length (script w) < fuel)%nat ->
  runs (search_loop fuel q max_repos op lf cursor tm tf) w
    (fun r w' =>
       (List.length (script w') <= List.length (script w))%nat
       /\ (forall tm' tf', r = Ok (tm', tf') -> len (_repos w) = tm ->
           len (_repos w') = tm' /\ (tm' <= Z.max tm max_repos)%Z)).
Proof.
  induction fuel as [|fuel IH]; intros cursor tm tf w Hfuel; [lia|].
  cbn [search_loop].
  destruct (tm <? max_repos)%Z eqn:Lt;
    [|apply runs_ret; split; [lia|]; intros ? ? [= <- <-] ?; split; [assumption|lia]].
  apply Z.ltb_lt in Lt.
  apply runs_bind; eapply runs_weaken;
    [apply runs_safe, safe_wait_for_rate_limit|].
  intros r1 w1 [R1 L1]. destruct r1 as [[]|e]; [|split; [lia|discriminate]].
  apply runs_bind.
  match goal with |- runs (try_execute ?q ?v) _ _ =>
    destruct (try_execute_spec q v w1) as (r2 & w2 & E2 & [R2 L2] & C2) end.
  eapply runs_eq; [exact E2|]. cbv beta iota.
  destruct r2 as [data|];
    [|apply runs_ret; split; [lia|]; intros ? ? [= <- <-] ?; split; [congruence|lia]].
  assert (L2' : (List.length (script w2) < List.length (script w1))%nat)
    by (apply C2; discriminate).
  apply runs_bind, runs_lift.
  destruct (py_get data "search" (VDict [])) as [search_data|e];
    [|split; [lia|discriminate]].
  apply runs_bind, runs_lift.
  destruct (py_get search_data "nodes" (VList [])) as [nodes|e];
    [|split; [lia|discriminate]].
  apply runs_bind, runs_lift.
  destruct (py_get search_data "pageInfo" (VDict [])) as [page_info|e];
    [|split; [lia|discriminate]].
  destruct (negb (truthy nodes));
    [apply runs_ret; split; [lia|]; intros ? ? [= <- <-] ?; split; [congruence|lia]|].
  apply runs_bind, runs_lift.
  destruct (py_iter nodes) as [items|e]; [|split; [lia|discriminate]].
  apply runs_bind; eapply runs_weaken; [apply runs_process_nodes|].
  intros r3 w3 (S3 & _ & _ & _ & B3).
  assert (L3 : (List.length (script w3) < List.length (script w1))%nat)
    by (rewrite S3; lia).
  destruct r3 as [[tm3 tf3]|e]; [|split; [lia|discriminate]].
  apply runs_bind; eapply runs_weaken; [apply runs_checkpoint|].
  intros r4 w4 (-> & S4 & R4 & _).
  assert (L4 : (List.length (script w4) < List.length (script w1))%nat)
    by (rewrite S4; lia).
  apply runs_bind, runs_lift.
  destruct (py_get page_info "hasNextPage" (VBool false)) as [has_next|e];
    [|split; [lia|discriminate]].
  destruct (negb (truthy has_next)).
  { apply runs_ret. split; [lia|]. intros ? ? [= <- <-] Hl.
    destruct (B3 tm3 tf3 eq_refl) as [B3a B3b]; [congruence|lia|].
    split; [congruence|lia]. }
  apply runs_bind, runs_lift.
  destruct (py_get page_info "endCursor" VNone) as [cursor'|e];
    [|split; [lia|discriminate]].
  apply runs_bind; eapply runs_weaken; [apply runs_safe, safe_remaining_requests|].
  intros r5 w5 [R5 L5]. destruct r5 as [x|e]; [|split; [lia|discriminate]].
  eapply runs_weaken; [apply IH; lia|].
  intros r w' (L6 & B6). split; [lia|].
  intros tm' tf' -> Hl.
  destruct (B3 tm3 tf3 eq_refl) as [B3a B3b]; [congruence|lia|].
  destruct (B6 tm' tf' eq_refl) as [B6a B6b]; [congruence|].
  split; [assumption|lia].
Qed.

(** In any world: an iteration that fetches a page reporting no next page is
    the last one.  After the nodes of the page and the checkpoint the loop
    returns, so that no request follows. *)
Lemma search_loop_last_page fuel q max_repos op lf cursor tm tf
    w w1 w2 w3 data search_data nodes page_info items has_next tm' tf' :
  (tm < max_repos)%Z ->
  wait_for_rate_limit MIN_RATE_LIMIT w = Some (Ok tt, w1) ->
  try_execute SEARCH_REPOS_QUERY
    (VDict [("query", VStr q); ("first", VInt BATCH_SIZE); ("after", cursor)]) w1
  = Some (Ok (Some data), w2) ->
  py_get data "search" (VDict []) = Ok search_data ->
  py_get search_data "nodes" (VList []) = Ok nodes ->
  py_get search_data "pageInfo" (VDict []) = Ok page_info ->
  truthy nodes = true -> py_iter nodes = Ok items ->
  process_nodes max_repos lf items tm tf w2 = Some (Ok (tm', tf'), w3) ->
  py_get page_info "hasNextPage" (VBool false) = Ok has_next ->
  truthy has_next = false ->
  runs (search_loop (S fuel) q max_repos op lf cursor tm tf) w
    (fun r w' => r = Ok (tm', tf') /\ script w' = script w3
                 /\ _repos w' = _repos w3 /\ posts w' = posts w3
                 /\ sleeps w' = sleeps w3).
Proof.
  intros Hlt Hwait Hexec Hsd Hnodes Hpi Tn Hit Hproc Hhn Thn.
  cbn [search_loop]. apply Z.ltb_lt in Hlt. rewrite Hlt.
  apply runs_bind. eapply runs_eq; [exact Hwait|]. cbv beta iota.
  apply runs_bind. eapply runs_eq; [exact Hexec|]. cbv beta iota.
  apply runs_bind, runs_lift. rewrite Hsd.
  apply runs_bind, runs_lift. rewrite Hnodes.
  apply runs_bind, runs_lift. rewrite Hpi. rewrite Tn. cbn [negb].
  apply runs_bind, runs_lift. rewrite Hit.
  apply runs_bind. eapply runs_eq; [exact Hproc|]. cbv beta iota.
  apply runs_bind; eapply runs_weaken; [apply runs_checkpoint|].
  intros r4 w4 (-> & S4 & R4 & _ & P4 & Z4).
  apply runs_bind, runs_lift. rewrite Hhn. rewrite Thn. cbn [negb].
  apply runs_ret. repeat split; assumption.
Qed.
(** [search_repositories] finishes when given more fuel than the script has
    round trips, and a list it returns has at most [max_repos] rows. *)
Lemma search_repositories_bounded fuel q max_repos op lf w :
  (List.length (script w) < fuel)%nat ->
  runs (search_repositories fuel q max_repos op lf) w
    (fun r _ => forall rows, r = Ok rows -> (len rows <= Z.max 0 max_repos)%Z).
Proof.
  intros Hfuel. unfold search_repositories.
  apply runs_bind. eapply runs_eq; [reflexivity|]. cbv beta iota.
  apply runs_bind; eapply runs_weaken;
    [apply runs_safe, safe_get_rate_limit_info|].
  intros r1 w1 [R1 L1]. cbn [_repos script] in R1, L1.
  destruct r1 as [[]|e]; [|discriminate].
  apply runs_bind; eapply runs_weaken; [apply runs_search_loop; lia|].
  intros r2 w2 (L2 & B2). destruct r2 as [[tm tf]|e]; [|discriminate].
  destruct (B2 tm tf eq_refl) as [B2a B2b]; [now rewrite R1|].
  apply runs_bind; eapply runs_weaken; [apply runs_final_save|].
  intros r3 w3 (-> & S3 & R3 & _).
  apply runs_bind; eapply runs_weaken;
    [apply runs_safe, safe_get_rate_limit_info|].
  intros r4 w4 [R4 L4]. destruct r4 as [[]|e]; [|discriminate].
  eapply runs_eq; [reflexivity|]. intros rows [= <-]. rewrite R4, R3. lia.
Qed.

End FetcherFacts.

(** ** Paging through scripted results *)

Section Pages.
Context `{Builtins}.

Lemma wait_healthy w r :
  _rate_limit w = rate_snapshot r -> (MIN_RATE_LIMIT <= r)%Z ->
  wait_for_rate_limit MIN_RATE_LIMIT w = Some (Ok tt, w).
Proof.
  intros Hr Hq. unfold wait_for_rate_limit. mcbn. rewrite Hr. mcbn.
  cbn [rate_snapshot truthy negb]. mcbn. rewrite Hr. 
  cbn [rate_snapshot py_get dict_get assoc String.eqb Ascii.eqb Bool.eqb]. mcbn.
  cbn [as_int]. mcbn.
  apply Z.ltb_ge in Hq. rewrite Hq. reflexivity.
Qed.

Lemma info_healthy w r :
  _rate_limit w = rate_snapshot r -> get_rate_limit_info w = Some (Ok tt, w).
Proof.
  intros Hr. unfold get_rate_limit_info. mcbn. rewrite Hr. mcbn.
  cbn [rate_snapshot truthy negb]. mcbn. rewrite Hr. reflexivity.
Qed.

Lemma remaining_healthy w r :
  _rate_limit w = rate_snapshot r -> remaining_requests w = Some (Ok (VInt r), w).
Proof.
  intros Hr. unfold remaining_requests. mcbn. rewrite Hr. reflexivity.
Qed.

Lemma session_post_ok q v w result rest :
  script w = HttpOk result :: rest ->
  session_post q v w
  = Some (Ok result,
          mkWorld rest (clock w) (_rate_limit w) (_repos w) (Posted q v :: trace w)).
Proof. unfold session_post. now intros ->. Qed.

Lemma execute_page q v w p rest :
  script w = HttpOk (page_body p) :: rest ->
  execute q v w
  = Some (Ok (page_data p),
          mkWorld rest (clock w) (rate_snapshot (quota_left p)) (_repos w)
                  (Posted q v :: trace w)).
Proof.
  intros Hs. unfold execute, exponential_backoff. cbn [seq Nat.add].
  apply wrapper_loop_returns. unfold execute_body.
  rewrite (bind_eq _ _ _ _ _ (session_post_ok q v w _ _ Hs)). reflexivity.
Qed.

Lemma try_execute_page q v w p rest :
  script w = HttpOk (page_body p) :: rest ->
  try_execute q v w
  = Some (Ok (Some (page_data p)),
          mkWorld rest (clock w) (rate_snapshot (quota_left p)) (_repos w)
                  (Posted q v :: trace w)).
Proof.
  intros Hs. unfold try_execute, try_except, bind. now rewrite (execute_page _ _ _ _ _ Hs).
Qed.

Lemma kept_app lf a b : kept lf (a ++ b) = kept lf a ++ kept lf b.
Proof. unfold kept. now rewrite filter_app, map_app, filter_app. Qed.

Lemma kept_skip lf node rest :
  truthy node = false -> kept lf (node :: rest) = kept lf rest.
Proof. intros T. unfold kept. cbn [filter]. now rewrite T. Qed.

Lemma kept_cons lf node rest rd b :
  truthy node = true -> extract_repo_data node = Ok rd ->
  location_matches lf rd = Ok b ->
  kept lf (node :: rest) = if b then rd :: kept lf rest else kept lf rest.
Proof.
  intros T E L.
  assert (Hx : extracted node = rd) by (unfold extracted; now rewrite E).
  assert (Hk : keeps lf rd = b) by (unfold keeps; now rewrite L).
  unfold kept. cbn [filter]. rewrite T. cbn [map filter]. now rewrite Hx, Hk.
Qed.

Lemma runs_process_nodes_kept max_repos lf nodes : forall tm tf w,
  forallb (node_ok lf) nodes = true -> (tm < max_repos)%Z ->
  runs (process_nodes max_repos lf nodes tm tf) w
    (fun r w' =>
       let taken := firstn (Z.to_nat (max_repos - tm)) (kept lf nodes) in
       (exists tf', r = Ok ((tm + len taken)%Z, tf'))
       /\ _repos w' = _repos w ++ taken
       /\ script w' = script w /\ _rate_limit w' = _rate_limit w
       /\ trace w' = trace w /\ clock w' = clock w).
Proof.
  induction nodes as [|node rest IH]; intros tm tf w Hok Hlt; cbn [process_nodes].
  - apply runs_ret. cbn. rewrite firstn_nil, app_nil_r.
    repeat split; auto. exists tf. f_equal. f_equal. cbn. lia.
  - cbn [forallb] in Hok. apply andb_true_iff in Hok as [Hn Hrest].
    unfold node_ok in Hn.
    destruct (truthy node) eqn:T; cbn [negb orb] in Hn.
    + destruct (extract_repo_data node) as [rd|] eqn:E; [|discriminate].
      destruct (location_matches lf rd) as [b|] eqn:L; [|discriminate].
      rewrite (kept_cons _ _ _ _ _ T E L).
      apply runs_bind, runs_lift. cbv beta iota.
      apply runs_bind, runs_lift. rewrite L.
      destruct b; [|apply IH; assumption].
      apply runs_bind. eapply runs_eq; [reflexivity|]. cbv beta iota.
      destruct (tm + 1 >=? max_repos)%Z eqn:G.
      * apply runs_ret. cbn [script _rate_limit trace clock _repos].
        assert (Hone : Z.to_nat (max_repos - tm) = 1%nat) by lia.
        rewrite Hone. cbn [firstn]. repeat split; auto.
        exists (tf + 1)%Z. reflexivity.
      * eapply runs_weaken; [apply IH; [assumption|lia]|].
        cbn [script _rate_limit trace clock _repos].
        intros r w' ((tf' & ->) & Hr & Hs & Hq & Ht & Hc).
        assert (Hn' : Z.to_nat (max_repos - tm)
                      = S (Z.to_nat (max_repos - (tm + 1)))) by lia.
        rewrite Hn'. cbn [firstn]. repeat split; auto.
        -- exists tf'. f_equal. f_equal. rewrite len_cons. lia.
        -- rewrite Hr, <- app_assoc. reflexivity.
    + rewrite (kept_skip _ _ _ T). apply IH; assumption.
Qed.

(** One iteration of the loop on a scripted page, in a world whose quota
    is not low. *)
Lemma search_loop_page_step q max_repos op lf fuel cursor tm tf w p rest r0
    (post : res (Z * Z) -> world -> Prop) :
  script w = HttpOk (page_body p) :: rest ->
  _rate_limit w = rate_snapshot r0 -> (MIN_RATE_LIMIT <= r0)%Z ->
  page_ok lf p -> (tm < max_repos)%Z ->
  (forall tf' w',
     let taken := firstn (Z.to_nat (max_repos - tm)) (kept lf (page_nodes p)) in
     _repos w' = _repos w ++ taken -> script w' = rest ->
     _rate_limit w' = rate_snapshot (quota_left p) ->
     posts w' = posts w ++ [SEARCH_REPOS_QUERY] -> sleeps w' = sleeps w ->
     if has_next_page p && negb (match page_nodes p with [] => true | _ => false end)
     then runs (search_loop fuel q max_repos op lf (VStr (end_cursor p))
                  (tm + len taken) tf') w' post
     else forall tf'', post (Ok ((tm + len taken)%Z, tf'')) w') ->
  runs (search_loop (S fuel) q max_repos op lf cursor tm tf) w post.
Proof.
  intros Hs Hr Hq [Hok Hquota] Hlt Hpost. cbn [search_loop].
  apply Z.ltb_lt in Hlt as Lt. rewrite Lt.
  apply runs_bind. eapply runs_eq; [exact (wait_healthy _ _ Hr Hq)|]. cbv beta iota.
  apply runs_bind. eapply runs_eq; [exact (try_execute_page _ _ _ _ _ Hs)|].
  cbv beta iota.
  apply runs_bind, runs_lift. cbn [page_data py_get dict_get assoc String.eqb Ascii.eqb Bool.eqb].
  apply runs_bind, runs_lift. cbn [py_get dict_get assoc String.eqb Ascii.eqb Bool.eqb].
  apply runs_bind, runs_lift. cbn [py_get dict_get assoc String.eqb Ascii.eqb Bool.eqb].
  cbn [truthy].
  destruct (page_nodes p) as [|n0 nodes] eqn:En.
  - cbn [negb]. apply runs_ret.
    match goal with |- post _ ?w1 => specialize (Hpost tf w1) end.
    rewrite andb_false_r in Hpost. cbn [kept filter map] in Hpost.
    rewrite firstn_nil, app_nil_r, len_nil, Z.add_0_r in Hpost.
    apply Hpost; reflexivity.
  - cbn [negb]. apply runs_bind, runs_lift. cbn [py_iter].
    apply runs_bind; eapply runs_weaken;
      [apply runs_process_nodes_kept; [exact Hok | assumption]|].
    cbn [script _rate_limit trace clock _repos].
    intros r3 w3 ((tf3 & ->) & R3 & S3 & Q3 & T3 & _).
    apply runs_bind; eapply runs_weaken; [apply runs_checkpoint|].
    intros r4 w4 (-> & S4 & R4 & Q4 & P4 & Z4).
    specialize (Hpost tf3 w4). rewrite andb_true_r in Hpost.
    assert (Hposts : posts w4 = posts w ++ [SEARCH_REPOS_QUERY])
      by (rewrite P4; unfold posts; rewrite T3; reflexivity).
    assert (Hsleeps : sleeps w4 = sleeps w)
      by (rewrite Z4; unfold sleeps; rewrite T3; reflexivity).
    specialize (Hpost ltac:(congruence) ltac:(congruence) ltac:(congruence) Hposts Hsleeps).
    apply runs_bind, runs_lift. cbn [py_get dict_get assoc String.eqb Ascii.eqb Bool.eqb].
    cbn [truthy]. destruct (has_next_page p); cbn [negb].
    + apply runs_bind, runs_lift. cbn [py_get dict_get assoc String.eqb Ascii.eqb Bool.eqb].
      apply runs_bind. eapply runs_eq; [apply (remaining_healthy _ (quota_left p)); congruence|].
      cbv beta iota. exact Hpost.
    + apply runs_ret. apply Hpost.
Qed.

Lemma search_loop_done q max_repos op lf fuel cursor tm tf w :
  (max_repos <= tm)%Z ->
  search_loop fuel q max_repos op lf cursor tm tf w = Some (Ok (tm, tf), w).
Proof.
  intros Hge. apply Z.ltb_ge in Hge. destruct fuel; cbn [search_loop]; now rewrite Hge.
Qed.

Lemma len_firstn_le {A} (n : Z) (l : list A) :
  (0 <= n <= len l)%Z -> len (firstn (Z.to_nat n) l) = n.
Proof. unfold len. intros Hn. rewrite length_firstn. lia. Qed.

Lemma firstn_whole {A} (n : Z) (l : list A) :
  (len l <= n)%Z -> firstn (Z.to_nat n) l = l.
Proof. unfold len. intros Hn. apply firstn_all2. lia. Qed.

Lemma firstn_app_whole {A} (n : Z) (l1 l2 : list A) :
  (len l1 <= n)%Z ->
  firstn (Z.to_nat n) (l1 ++ l2) = l1 ++ firstn (Z.to_nat (n - len l1)) l2.
Proof.
  unfold len. intros Hn. rewrite firstn_app, firstn_all2 by lia.
  f_equal. f_equal. lia.
Qed.

Lemma all_nodes_cons p ps : all_nodes (p :: ps) = page_nodes p ++ all_nodes ps.
Proof. reflexivity. Qed.

Lemma runs_search_loop_pages q max_repos op lf last : forall ps fuel cursor tm tf w rest r0,
  script w = script_of (ps ++ [last]) ++ rest ->
  _rate_limit w = rate_snapshot r0 -> (MIN_RATE_LIMIT <= r0)%Z ->
  Forall (page_ok lf) (ps ++ [last]) ->
  Forall (fun p => has_next_page p = true /\ page_nodes p <> []) ps ->
  (tm + len (kept lf (all_nodes ps)) < max_repos)%Z ->
  (has_next_page last = false \/ page_nodes last = []
   \/ (max_repos <= tm + len (kept lf (all_nodes (ps ++ [last]))))%Z) ->
  (List.length ps < fuel)%nat ->
  runs (search_loop fuel q max_repos op lf cursor tm tf) w
    (fun r w' =>
       is_ok r = true
       /\ _repos w' = _repos w ++ firstn (Z.to_nat (max_repos - tm))
                                    (kept lf (all_nodes (ps ++ [last])))
       /\ script w' = rest
       /\ posts w' = posts w ++ repeat SEARCH_REPOS_QUERY (S (List.length ps))
       /\ sleeps w' = sleeps w
       /\ exists r1, _rate_limit w' = rate_snapshot r1 /\ (MIN_RATE_LIMIT <= r1)%Z).
Proof.
  induction ps as [|p ps IH];
    intros fuel cursor tm tf w rest r0 Hs Hr Hq Hok Hnext Hlt Hend Hfuel;
    (destruct fuel as [|fuel]; [cbn in Hfuel; lia|]).
  - cbn [app script_of map List.length] in *. rewrite all_nodes_cons in Hend. cbn [all_nodes flat_map] in *.
    rewrite app_nil_r in *. cbn [kept filter map] in Hlt. rewrite len_nil in Hlt.
    inversion Hok as [|? ? Hp _]; subst.
    eapply search_loop_page_step; try eassumption; [lia|].
    intros tf' w' taken R Sc Q P Sl.
    assert (Hfinal : forall tf'',
      (fun (r : res (Z * Z)) (w'0 : world) =>
         is_ok r = true /\
         _repos w'0 = _repos w ++ firstn (Z.to_nat (max_repos - tm)) (kept lf (page_nodes last)) /\
         script w'0 = rest /\
         posts w'0 = posts w ++ repeat SEARCH_REPOS_QUERY 1 /\
         sleeps w'0 = sleeps w /\
         (exists r1 : Z, _rate_limit w'0 = rate_snapshot r1 /\ (MIN_RATE_LIMIT <= r1)%Z))
        (Ok ((tm + len taken)%Z, tf'')) w').
    { intros tf''. repeat split; auto. exists (quota_left last). split; [assumption|apply Hp]. }
    destruct (has_next_page last && _) eqn:C; [|exact Hfinal].
    apply andb_true_iff in C as [C1 C2].
    destruct Hend as [He|[He|He]]; [congruence| rewrite He in C2; discriminate |].
    eapply runs_eq; [apply search_loop_done|apply Hfinal].
    subst taken. rewrite len_firstn_le; lia.
  - cbn [app script_of map List.length] in *.
    rewrite all_nodes_cons, kept_app, len_app in Hlt.
    inversion Hok as [|? ? Hp Hok']; subst.
    inversion Hnext as [|? ? [Hn1 Hn2] Hnext']; subst.
    pose proof (len_nonneg (kept lf (all_nodes ps))) as Hnn.
    pose proof (len_nonneg (kept lf (page_nodes p))) as Hnp.
    eapply search_loop_page_step; try eassumption; [lia|].
    intros tf' w' taken R Sc Q P Sl.
    assert (Hne : match page_nodes p with [] => true | _ :: _ => false end = false)
      by (destruct (page_nodes p); congruence).
    rewrite Hn1, Hne. cbn [andb negb].
    assert (Htaken : taken = kept lf (page_nodes p))
      by (subst taken; apply firstn_whole; lia).
    rewrite Htaken.
    eapply runs_weaken.
    + eapply (IH fuel _ _ _ w' rest (quota_left p)); try eassumption;
        [apply Hp | lia | | lia].
      rewrite all_nodes_cons, kept_app, len_app in Hend.
      destruct Hend as [He|[He|He]]; auto. right. right. lia.
    + cbv beta. intros r w'' (Hr1 & Hr2 & Hr3 & Hr4 & Hr5 & Hr6).
      repeat split; auto.
      * rewrite Hr2, R, Htaken, all_nodes_cons, kept_app, <- app_assoc.
        f_equal. rewrite firstn_app_whole by lia. f_equal. f_equal. f_equal. lia.
      * rewrite Hr4, P, <- app_assoc. reflexivity.
      * congruence.
Qed.
End Pages.

(** ** The pagination driver *)

Section Pagination.
Context `{Builtins}.

(** C4.  For a script of pages [ps ++ [last]] of which every page before the
    last reports a next page and leaves the matched count below [max_repos],
    and of which the last reports no next page (or is empty, or brings the
    matched count to [max_repos]), [search_repositories] returns exactly the
    records that pass the filter, cut at [max_repos]; it posts one search
    request per page and none after the last: whatever follows in the script
    is left untouched, and nothing is slept.  For every script, when given
    more fuel than the script has round trips, it finishes, and a list it
    returns has at most [max_repos] rows. *)
Theorem search_repositories_pagination fuel q max_repos op lf w ps last rest r0 :
  script w = script_of (ps ++ [last]) ++ rest ->
  _rate_limit w = rate_snapshot r0 -> (MIN_RATE_LIMIT <= r0)%Z ->
  Forall (page_ok lf) (ps ++ [last]) ->
  Forall (fun p => has_next_page p = true /\ page_nodes p <> []) ps ->
  (len (kept lf (all_nodes ps)) < max_repos)%Z ->
  (has_next_page last = false \/ page_nodes last = []
   \/ (max_repos <= len (kept lf (all_nodes (ps ++ [last]))))%Z) ->
  (List.length ps < fuel)%nat ->
  runs (search_repositories fuel q max_repos op lf) w
    (fun r w' =>
       r = Ok (firstn (Z.to_nat max_repos) (kept lf (all_nodes (ps ++ [last]))))
       /\ script w' = rest
       /\ posts w' = posts w ++ repeat SEARCH_REPOS_QUERY (S (List.length ps))
       /\ sleeps w' = sleeps w)
  /\ (forall fuel0 w0,
        (List.length (script w0) < fuel0)%nat ->
        runs (search_repositories fuel0 q max_repos op lf) w0
          (fun r _ => forall rows, r = Ok rows -> (len rows <= Z.max 0 max_repos)%Z)).
Proof.
  intros Hs Hr Hq Hok Hnext Hlt Hend Hfuel.
  split; [|intros fuel0 w0; apply search_repositories_bounded].
  unfold search_repositories.
  apply runs_bind. eapply runs_eq; [reflexivity|]. cbv beta iota.
  apply runs_bind. eapply runs_eq; [apply (info_healthy _ r0); exact Hr|].
  cbv beta iota.
  apply runs_bind. eapply runs_weaken.
  { eapply (runs_search_loop_pages q max_repos op lf last ps fuel VNone 0 0 _ rest r0);
      try eassumption; cbn [script _rate_limit]; try assumption; lia. }
  cbn [_repos]. intros r1 w1 (Ok1 & R1 & S1 & P1 & Z1 & (r1' & Q1 & Q1')).
  destruct r1 as [counts|]; [|discriminate].
  apply runs_bind; eapply runs_weaken; [apply runs_final_save|].
  intros r2 w2 (-> & S2 & R2 & Q2 & P2 & Z2).
  apply runs_bind. eapply runs_eq; [apply (info_healthy _ r1'); congruence|].
  cbv beta iota.
  eapply runs_eq; [reflexivity|].
  rewrite R2, R1, Z.sub_0_r. cbn [app].
  unfold posts, sleeps in *. cbn [trace] in P1, Z1.
  repeat split; congruence.
Qed.
End Pagination.

(** The theorem applies to two scripted pages filtered on "Peru". *)
Lemma search_repositories_pagination_witness :
  runs (search_repositories (H := plain_builtins) 2 "stars:>=5 sort:stars" 1000 None
          (Some "Peru"))
    (warm 4999 (script_of two_pages))
    (fun r w' =>
       r = Ok [extracted (repo_in "Lima, Peru"); extracted (repo_in "Arequipa, Peru")]
       /\ script w' = []
       /\ posts w' = [SEARCH_REPOS_QUERY; SEARCH_REPOS_QUERY]).
Proof.
  pose proof (search_repositories_pagination (H := plain_builtins)
    2 "stars:>=5 sort:stars" 1000 None (Some "Peru")
    (warm 4999 (script_of two_pages))
    [mkPage [repo_in "Lima, Peru"; repo_in "Cusco"] true "Y3Vyc29yOjI=" 4998]
    (mkPage [repo_in "Arequipa, Peru"] false "Y3Vyc29yOjM=" 4997)
    [] 4999) as Hthm.
  destruct Hthm as [Hrun _].
  - reflexivity.
  - reflexivity.
  - unfold MIN_RATE_LIMIT. lia.
  - repeat constructor; unfold MIN_RATE_LIMIT; cbn; lia.
  - repeat constructor. discriminate.
  - vm_compute. reflexivity.
  - left. reflexivity.
  - cbn. lia.
  - eapply runs_weaken; [exact Hrun|]. cbv beta.
    intros r w' (-> & Hs & Hp & _). repeat split; assumption.
Defined.

(** ** Checkpoints of the pagination driver *)

(** C5, evaluated.  On a fresh client, 25 unfiltered pages of 10 nodes end
    at 10, 20, ..., 250 matches and the buffer is written at 100, at 200 and
    at the end.  With the location filter, a first page that keeps 5 of its
    10 nodes makes the pages end at 5, 15, ..., 245, 250 matches: the test
    [total_matched % SAVE_INTERVAL == 0] is only made at the end of a page,
    so nothing is written at 100 or 200 and the 250 rows are written once,
    by the final flush.  The final flush also follows a stop on [max_repos]
    (third run) and a stop on a transport failure (fourth run). *)
Theorem checkpoint_cadence_filtered_run :
  summary (search_repositories (H := plain_builtins) 40 "stars:>=5 sort:stars" 1000
             (Some "out.parquet") None (fresh full_pages_run))
  = Some (250%Z, [100; 200; 250]%Z)
  /\ summary (search_repositories (H := plain_builtins) 40 "stars:>=5 sort:stars" 1000
                (Some "out.parquet") (Some "Peru") (fresh filtered_run))
     = Some (250%Z, [250]%Z)
  /\ summary (search_repositories (H := plain_builtins) 40 "stars:>=5 sort:stars" 15
                (Some "out.parquet") None (fresh full_pages_run))
     = Some (15%Z, [15]%Z)
  /\ summary (search_repositories (H := plain_builtins) 40 "stars:>=5 sort:stars" 1000
                (Some "out.parquet") None
                (fresh [HttpOk (probe_body 5000); HttpOk (page_body (lima_page 10 true))]))
     = Some (10%Z, [10]%Z).
Proof. repeat split; vm_compute; reflexivity. Qed.

(** ** The user discovery driver *)

(** [split_range] cuts a range of two days or more at its midpoint into two
    non-empty halves that cover it without sharing a day. *)
Lemma split_range_partition s e :
  (0 < e - s)%Z ->
  let mid := (s + (e - s) / 2)%Z in
  split_range s e = ((s, mid), ((mid + 1)%Z, e))
  /\ (s <= mid)%Z /\ (mid + 1 <= e)%Z
  /\ (forall d, (s <= d <= e)%Z <-> ((s <= d <= mid)%Z \/ (mid + 1 <= d <= e)%Z))
  /\ (forall d, ~ ((s <= d <= mid)%Z /\ (mid + 1 <= d <= e)%Z)).
Proof.
  intros Hd mid.
  assert (H0 : (0 <= (e - s) / 2)%Z) by (apply Z.div_pos; lia).
  assert (H1 : ((e - s) / 2 < e - s)%Z) by (apply Z.div_lt; lia).
  repeat split; try (subst mid; lia);
    intros [[? ?]|[? ?]]; subst mid; lia.
Qed.

Section Discovery.
Context `{Builtins}.

Lemma collect_logins_bound max_count nodes : forall users users',
  collect_logins max_count nodes users = Ok users' ->
  (len users < max_count)%Z -> (len users' <= max_count)%Z.
Proof.
  induction nodes as [|node rest IH]; intros users users' Hc Hlt; cbn [collect_logins] in Hc.
  - injection Hc as <-. lia.
  - step_rbind Hc. destruct a.
    + step_rbind Hc. 
      destruct (len (users ++ [a]) >=? max_count)%Z eqn:G.
      * injection Hc as <-. rewrite len_app, len_cons, len_nil. lia.
      * apply (IH _ _ Hc). lia.
    + apply (IH _ _ Hc Hlt).
Qed.

Lemma paginated_loop_bound q max_count : forall fuel users cursor w us w',
  paginated_loop fuel q max_count users cursor w = Some (Ok us, w') ->
  (len users <= Z.max 0 max_count)%Z -> (len us <= Z.max 0 max_count)%Z.
Proof.
  induction fuel as [|fuel IH]; intros users cursor w us w' Hrun Hle;
    cbn [paginated_loop] in Hrun;
    (destruct (len users <? max_count)%Z eqn:Lt;
     [|injection Hrun as <- _; exact Hle]); [discriminate|].
  apply Z.ltb_lt in Lt.
  apply bind_ok_inv in Hrun as (? & w1 & _ & Hrun).
  apply bind_ok_inv in Hrun as ([data|] & w2 & _ & Hrun);
    [|injection Hrun as <- _; exact Hle].
  apply bind_ok_inv in Hrun as (search_data & ? & _ & Hrun).
  apply bind_ok_inv in Hrun as (nodes & ? & _ & Hrun).
  apply bind_ok_inv in Hrun as (page_info & ? & _ & Hrun).
  apply bind_ok_inv in Hrun as (items & ? & _ & Hrun).
  apply bind_ok_inv in Hrun as (users1 & ? & Hc & Hrun).
  unfold lift in Hc. injection Hc as Hc _.
  apply collect_logins_bound in Hc; [|assumption].
  apply bind_ok_inv in Hrun as (has_next & ? & _ & Hrun).
  destruct (negb (truthy has_next)); [injection Hrun as <- _; lia|].
  apply bind_ok_inv in Hrun as (cursor' & ? & _ & Hrun).
  apply (IH _ _ _ _ _ Hrun). lia.
Qed.

(** [_paginated_user_search] never returns more than [max_count] logins. *)
Lemma paginated_user_search_bound fuel q max_count w us w' :
  _paginated_user_search fuel q max_count w = Some (Ok us, w') ->
  (len us <= Z.max 0 max_count)%Z.
Proof.
  intros Hrun. apply (paginated_loop_bound _ _ _ _ _ _ _ _ Hrun). rewrite len_nil. lia.
Qed.


(** One iteration of the loop on a range that counts more than 1000
    accounts. *)
Lemma date_split_loop_over_limit fuel bq mu users s e ranges w w1 w2 count c :
  under_cap mu users = true ->
  wait_for_rate_limit MIN_RATE_LIMIT w = Some (Ok tt, w1) ->
  try_count (range_query bq s e) w1 = Some (Ok (Some count), w2) ->
  py_is_zero count = false -> as_int count = Ok c -> (1000 < c)%Z ->
  date_split_loop (S fuel) bq mu users ((s, e) :: ranges) w
  = if (e - s <=? 1)%Z then
      bind (_paginated_user_search (S fuel) (range_query bq s e) 1000)
        (fun new_users =>
           date_split_loop fuel bq mu (add_first_thousand new_users users) ranges) w2
    else
      date_split_loop fuel bq mu users
        (fst (split_range s e) :: snd (split_range s e) :: ranges) w2.
Proof.
  intros Hcap Hwait Hcount Hz Hc Hlt. cbn [date_split_loop]. rewrite Hcap.
  rewrite (bind_eq _ _ _ _ _ Hwait).
  fold (range_query bq s e).
  rewrite (bind_eq _ _ _ _ _ Hcount). rewrite Hz.
  unfold lift at 1. unfold bind at 1. rewrite Hc.
  assert (Hgt : (c <=? 1000)%Z = false) by (apply Z.leb_gt; lia).
  rewrite Hgt. destruct (e - s <=? 1)%Z; reflexivity.
Qed.

End Discovery.

(** C3.  The driver does not split a range of two days.  The midpoint split
    of the code cuts the range 2008-01-01..2008-01-02 into its two days; but
    when 5000 accounts are counted in that range the driver takes the branch
    of a range that cannot be split: it asks for ten pages of 100 accounts
    of the two days together, keeps these 1000 accounts and is done with the
    range, as it does for the single day 2008-01-01, and no request is made
    for either day alone.  A range of three days with the same count is
    split: its two halves are counted next.  The range of two days is
    reached from the first range, 2008-01-01 to 2026-11-03, after twelve
    halvings, and the request that follows its ten pages is the count of
    2008-01-03..2008-01-04. *)
Theorem two_day_range_not_split :
  split_range 733042 733043 = ((733042, 733042), (733043, 733043))%Z
  /\ discovery_report
       (date_split_loop (H := plain_builtins) 12 "type:user" None []
          [(733042, 733043)%Z] (warm 4999 two_day_run))
     = Some (1000%Z, Some (VStr "user0"), Some (VStr "user999"),
             (USER_COUNT_QUERY, "type:user created:2008-01-01..2008-01-02")
             :: repeat (USER_SEARCH_QUERY, "type:user created:2008-01-01..2008-01-02") 10)
  /\ discovery_report
       (date_split_loop (H := plain_builtins) 12 "type:user" None []
          [(733042, 733042)%Z] (warm 4999 two_day_run))
     = Some (1000%Z, Some (VStr "user0"), Some (VStr "user999"),
             (USER_COUNT_QUERY, "type:user created:2008-01-01..2008-01-01")
             :: repeat (USER_SEARCH_QUERY, "type:user created:2008-01-01..2008-01-01") 10)
  /\ discovery_report
       (date_split_loop (H := plain_builtins) 12 "type:user" None []
          [(733042, 733044)%Z] (warm 4999 three_day_run))
     = Some (0%Z, None, None,
             [ (USER_COUNT_QUERY, "type:user created:2008-01-01..2008-01-03");
               (USER_COUNT_QUERY, "type:user created:2008-01-01..2008-01-02");
               (USER_COUNT_QUERY, "type:user created:2008-01-03..2008-01-03") ])
  /\ option_map (fun report => firstn 24 (snd report))
       (discovery_report
          (_fetch_users_with_date_split (H := plain_builtins) 60 a_day_in_2026
             "type:user" None (warm 4999 crowded_run)))
     = Some (map (fun e => (USER_COUNT_QUERY,
                            "type:user created:2008-01-01.." ++ e)%string)
               [ "2026-11-03"; "2017-06-02"; "2012-09-16"; "2010-05-10";
                 "2009-03-06"; "2008-08-03"; "2008-04-17"; "2008-02-23";
                 "2008-01-27"; "2008-01-14"; "2008-01-07"; "2008-01-04";
                 "2008-01-02" ]
             ++ repeat (USER_SEARCH_QUERY, "type:user created:2008-01-01..2008-01-02") 10
             ++ [(USER_COUNT_QUERY, "type:user created:2008-01-03..2008-01-04")]).
Proof. repeat split; vm_compute; reflexivity. Qed.


(** ** The logins of a discovery *)

Lemma value_eqb_refl : forall a, value_eqb a a = true.
Proof.
  fix IH 1. intros [| b | n | s | items | entries]; simpl.
  - reflexivity.
  - apply eqb_reflx.
  - apply Z.eqb_refl.
  - apply String.eqb_refl.
  - revert items. fix IHl 1. intros [|x xs]; [reflexivity|].
    rewrite (IH x). simpl. apply IHl.
  - revert entries. fix IHl 1. intros [|[k x] xs]; [reflexivity|].
    rewrite String.eqb_refl, (IH x). simpl. apply IHl.
Qed.

Lemma py_elem_false u users : py_elem u users = false -> ~ In u users.
Proof.
  unfold py_elem. intros Hf Hin.
  assert (Ht : existsb (value_eqb u) users = true)
    by (apply existsb_exists; exists u; split; [assumption | apply value_eqb_refl]).
  congruence.
Qed.

Lemma NoDup_snoc {A} (l : list A) x : NoDup l -> ~ In x l -> NoDup (l ++ [x]).
Proof.
  intros Hl Hx. apply NoDup_rev in Hl. rewrite <- (rev_involutive (l ++ [x])).
  apply NoDup_rev. rewrite rev_app_distr. cbn. constructor; [|assumption].
  now rewrite <- in_rev.
Qed.

Lemma add_new_users_NoDup mu new_users : forall users,
  NoDup users -> NoDup (add_new_users mu new_users users).
Proof.
  induction new_users as [|u rest IH]; intros users Hn; cbn [add_new_users]; [assumption|].
  destruct (py_elem u users) eqn:E; [now apply IH|].
  assert (Hn' : NoDup (users ++ [u])) by (apply NoDup_snoc; [assumption|now apply py_elem_false]).
  destruct (cap_reached mu (users ++ [u])); [assumption | now apply IH].
Qed.

Lemma add_first_thousand_NoDup new_users : forall users,
  NoDup users -> NoDup (add_first_thousand new_users users).
Proof.
  induction new_users as [|u rest IH]; intros users Hn; cbn [add_first_thousand]; [assumption|].
  destruct (py_elem u users) eqn:E; [now apply IH|].
  apply IH, NoDup_snoc; [assumption|now apply py_elem_false].
Qed.

Section DiscoveryResult.
Context `{Builtins}.

Lemma date_split_loop_NoDup bq mu : forall fuel users ranges w us w',
  date_split_loop fuel bq mu users ranges w = Some (Ok us, w') ->
  NoDup users -> NoDup us.
Proof.
  induction fuel as [|fuel IH]; intros users ranges w us w' Hrun Hn;
    destruct ranges as [|[s e] ranges]; cbn [date_split_loop] in Hrun;
    try (injection Hrun as <- _; exact Hn);
    (destruct (under_cap mu users); [|injection Hrun as <- _; exact Hn]);
    [discriminate|].
  apply bind_ok_inv in Hrun as (? & w1 & _ & Hrun).
  apply bind_ok_inv in Hrun as ([count|] & w2 & _ & Hrun); [|now apply (IH _ _ _ _ _ Hrun)].
  destruct (py_is_zero count); [now apply (IH _ _ _ _ _ Hrun)|].
  apply bind_ok_inv in Hrun as (c & w3 & _ & Hrun).
  destruct (c <=? 1000)%Z.
  - apply bind_ok_inv in Hrun as (new_users & w4 & _ & Hrun).
    apply (IH _ _ _ _ _ Hrun). now apply add_new_users_NoDup.
  - destruct (e - s <=? 1)%Z.
    + apply bind_ok_inv in Hrun as (new_users & w4 & _ & Hrun).
      apply (IH _ _ _ _ _ Hrun). now apply add_first_thousand_NoDup.
    + cbn [split_range] in Hrun. now apply (IH _ _ _ _ _ Hrun).
Qed.

(** The logins returned by one pass of the discovery driver are pairwise
    distinct. *)
Lemma fetch_users_with_date_split_NoDup fuel today bq mu w us w' :
  _fetch_users_with_date_split fuel today bq mu w = Some (Ok us, w') -> NoDup us.
Proof.
  intros Hrun. apply (date_split_loop_NoDup _ _ _ _ _ _ _ _ Hrun). constructor.
Qed.
End DiscoveryResult.

(** C6, evaluated.  With [max_users = 2], counts of 5000 lead the loop
    down to a range of one day, whose branch asks for 1000 logins and appends
    every new one without looking at [max_users]: 1000 logins are returned.
    With [max_users = 0] the user pass returns nothing, and the quota of the
    organization pass, [max_users - len(all_users) if max_users else None],
    is [None]: both organizations are returned. *)
Theorem discovery_exceeds_max_users :
  logins_summary (fetch_users_by_location (H := plain_builtins) 60 a_day_in_2026
                    "Peru" true (Some 2%Z) (warm 4999 crowded_run))
  = Some (1000%Z, Some (VStr "user0"), Some (VStr "user999"))
  /\ logins_of (fetch_users_by_location (H := plain_builtins) 60 a_day_in_2026 "Peru"
                  true (Some 0%Z) (warm 4999 two_orgs_run))
     = Some [VStr "org1"; VStr "org2"].
Proof. split; vm_compute; reflexivity. Qed.

(** ** The two-step orchestrator *)

Section Orchestrator.
Context `{Builtins}.

(** A failure of the transport ends the pagination of the account with the
    records of the pages already fetched. *)
Lemma user_repos_loop_failure fuel q repos cursor w w' :
  try_execute SEARCH_REPOS_QUERY
    (VDict [("query", VStr q); ("first", VInt 100); ("after", cursor)]) w
  = Some (Ok None, w') ->
  user_repos_loop (S fuel) q repos cursor w = Some (Ok repos, w').
Proof.
  intros Hf. cbn [user_repos_loop]. now rewrite (bind_eq _ _ _ _ _ Hf).
Qed.

Lemma extend_repos_nil w : extend_repos [] w = Some (Ok tt, w).
Proof.
  unfold extend_repos, bind, get_repos, set_repos. rewrite app_nil_r.
  now destruct w.
Qed.

Lemma try_execute_frame q v w r w' :
  try_execute q v w = Some (r, w') -> client_step w w'.
Proof.
  intros Hr. destruct (try_execute_spec q v w) as (r0 & w0 & E & S & _).
  rewrite E in Hr. now injection Hr as _ <-.
Qed.

Lemma safe_frame {A} (m : M A) w r w' :
  safe m -> m w = Some (r, w') -> client_step w w'.
Proof.
  intros Hs Hr. destruct (Hs w) as (r0 & w0 & E & S).
  rewrite E in Hr. now injection Hr as _ <-.
Qed.

(** C9 (as amended).  When the first page request of an account fails,
    [_fetch_user_repos] returns the empty list instead of raising, the buffer
    is what it was before the account, and the loop of
    [fetch_repos_for_users] goes on with the next account.  No failure of the
    transport ever leaves the [try] of a page request, and a failure on a
    later page ends the account with the records of the pages already
    fetched. *)
Theorem account_failure_contained fuel username rest op min_stars include_forks
    extra_filter w w1 w2 :
  wait_for_rate_limit MIN_RATE_LIMIT w = Some (Ok tt, w1) ->
  try_execute SEARCH_REPOS_QUERY
    (first_page username min_stars include_forks extra_filter) w1
  = Some (Ok None, w2) ->
  _fetch_user_repos (S fuel) username min_stars include_forks extra_filter w1
  = Some (Ok [], w2)
  /\ _repos w2 = _repos w
  /\ users_loop (S fuel) (username :: rest) op min_stars include_forks extra_filter w
     = bind remaining_requests
         (fun _ =>
            bind (users_checkpoint op)
              (fun _ => users_loop (S fuel) rest op min_stars include_forks
                          extra_filter)) w2
  /\ (forall q v v0, exists r v1, try_execute q v v0 = Some (Ok r, v1))
  /\ (forall fuel' q repos cursor v0 v1,
        try_execute SEARCH_REPOS_QUERY
          (VDict [("query", VStr q); ("first", VInt 100); ("after", cursor)]) v0
        = Some (Ok None, v1) ->
        user_repos_loop (S fuel') q repos cursor v0 = Some (Ok repos, v1)).
Proof.
  intros Hwait Hfail.
  assert (Hfetch : _fetch_user_repos (S fuel) username min_stars include_forks
                     extra_filter w1 = Some (Ok [], w2))
    by (apply user_repos_loop_failure; exact Hfail).
  split; [exact Hfetch|]. split; [|split; [|split]].
  - destruct (safe_frame _ _ _ _ (safe_wait_for_rate_limit _) Hwait) as [R1 _].
    destruct (try_execute_frame _ _ _ _ _ Hfail) as [R2 _]. congruence.
  - cbn [users_loop]. rewrite (bind_eq _ _ _ _ _ Hwait).
    rewrite (bind_eq _ _ _ _ _ Hfetch).
    rewrite (bind_eq _ _ _ _ _ (extend_repos_nil w2)).
    unfold users_checkpoint. destruct op; reflexivity.
  - intros q v v0. destruct (try_execute_spec q v v0) as (r & v1 & E & _).
    now exists r, v1.
  - intros. now apply user_repos_loop_failure.
Qed.

End Orchestrator.

(** The theorem applies to an account whose request fails four times. *)
Lemma account_failure_contained_witness :
  users_loop (H := plain_builtins) 1 [VStr "ghost"; VStr "ana"] None 1 false ""
    (warm 4999 (repeat bad_gateway 4))
  = bind remaining_requests
      (fun _ => bind (users_checkpoint (H := plain_builtins) None)
         (fun _ => users_loop (H := plain_builtins) 1 [VStr "ana"] None 1 false ""))
      after_four_failures
  /\ _repos after_four_failures = [].
Proof.
  assert (Hwait : wait_for_rate_limit (H := plain_builtins) MIN_RATE_LIMIT
                    (warm 4999 (repeat bad_gateway 4))
                  = Some (Ok tt, warm 4999 (repeat bad_gateway 4)))
    by (vm_compute; reflexivity).
  assert (Hfail : try_execute (H := plain_builtins) SEARCH_REPOS_QUERY
                    (first_page (H := plain_builtins) (VStr "ghost") 1 false "")
                    (warm 4999 (repeat bad_gateway 4))
                  = Some (Ok None, after_four_failures))
    by (vm_compute; reflexivity).
  destruct (account_failure_contained (H := plain_builtins) 0 (VStr "ghost")
              [VStr "ana"] None 1 false "" _ _ _ Hwait Hfail) as (_ & Hr & Hl & _).
  split; [exact Hl | exact Hr].
Defined.

(** C9 as stated fails when the failure comes after a first page: the
    second page request of the account fails (five posts, the last four
    separated by the sleeps of the retries), and the account still
    contributes the record of its first page. *)
Lemma failed_account_keeps_first_page :
  report (fetch_repos_for_users (H := plain_builtins) 5 [VStr "ana"] None 1 false ""
            (warm 4999 one_page_then_down))
  = Some ([extracted (repo_in "Lima, Peru")],
          repeat SEARCH_REPOS_QUERY 5,
          [2; 4; 8]%Q).
Proof. vm_compute. reflexivity. Qed.

(** * Termination of the discovery and of the per-account fetch

    Each loop that the model runs on fuel finishes once the fuel is above
    the number of round trips left in the script (twice that number, plus
    the queue of date ranges, for the range-splitting loop, which spends
    an iteration on a range whose count fails). *)

Section Termination.
Context `{Builtins}.

Lemma runs_paginated_loop q max_count : forall fuel users cursor w,
  (List.length (script w) < fuel)%nat ->
  runs (paginated_loop fuel q max_count users cursor) w (fun _ w' => client_step w w').
Proof.
  induction fuel as [|fuel IH]; intros users cursor w Hfuel; [lia|].
  cbn [paginated_loop].
  destruct (len users <? max_count)%Z; [|apply runs_ret, client_step_refl].
  apply runs_bind; eapply runs_weaken;
    [apply runs_safe, safe_wait_for_rate_limit|].
  intros r1 w1 S1. destruct r1 as [[]|e]; [|exact S1].
  apply runs_bind.
  match goal with |- runs (try_execute ?q ?v) _ _ =>
    destruct (try_execute_spec q v w1) as (r2 & w2 & E2 & S2 & C2) end.
  eapply runs_eq; [exact E2|]. cbv beta iota.
  assert (S12 : client_step w w2) by (eapply client_step_trans; eassumption).
  destruct r2 as [data|]; [|apply runs_ret; exact S12].
  assert (L2 : (List.length (script w2) < fuel)%nat)
    by (specialize (C2 ltac:(discriminate)); destruct S1 as [_ L1]; lia).
  apply runs_bind, runs_lift.
  destruct (py_get data "search" (VDict [])) as [search_data|e]; [|exact S12].
  apply runs_bind, runs_lift.
  destruct (py_get search_data "nodes" (VList [])) as [nodes|e]; [|exact S12].
  apply runs_bind, runs_lift.
  destruct (py_get search_data "pageInfo" (VDict [])) as [page_info|e]; [|exact S12].
  apply runs_bind, runs_lift.
  destruct (py_iter nodes) as [items|e]; [|exact S12].
  apply runs_bind, runs_lift.
  destruct (collect_logins max_count items users) as [users'|e]; [|exact S12].
  apply runs_bind, runs_lift.
  destruct (py_get page_info "hasNextPage" (VBool false)) as [has_next|e]; [|exact S12].
  destruct (negb (truthy has_next)); [apply runs_ret; exact S12|].
  apply runs_bind, runs_lift.
  destruct (py_get page_info "endCursor" VNone) as [cursor'|e]; [|exact S12].
  eapply runs_weaken; [apply IH; exact L2|].
  intros r w' S3. eapply client_step_trans; eassumption.
Qed.

Lemma runs_user_repos_loop q : forall fuel repos cursor w,
  (List.length (script w) < fuel)%nat ->
  runs (user_repos_loop fuel q repos cursor) w (fun _ w' => client_step w w').
Proof.
  induction fuel as [|fuel IH]; intros repos cursor w Hfuel; [lia|].
  cbn [user_repos_loop].
  apply runs_bind.
  match goal with |- runs (try_execute ?q ?v) _ _ =>
    destruct (try_execute_spec q v w) as (r2 & w2 & E2 & S2 & C2) end.
  eapply runs_eq; [exact E2|]. cbv beta iota.
  destruct r2 as [data|]; [|apply runs_ret; exact S2].
  assert (L2 : (List.length (script w2) < fuel)%nat)
    by (specialize (C2 ltac:(discriminate)); lia).
  apply runs_bind, runs_lift.
  destruct (py_get data "search" (VDict [])) as [search_data|e]; [|exact S2].
  apply runs_bind, runs_lift.
  destruct (py_get search_data "nodes" (VList [])) as [nodes|e]; [|exact S2].
  apply runs_bind, runs_lift.
  destruct (py_get search_data "pageInfo" (VDict [])) as [page_info|e]; [|exact S2].
  destruct (negb (truthy nodes)); [apply runs_ret; exact S2|].
  apply runs_bind, runs_lift.
  destruct (py_iter nodes) as [items|e]; [|exact S2].
  apply runs_bind, runs_lift.
  destruct (comprehension _ _ items) as [page|e]; [|exact S2].
  apply runs_bind, runs_lift.
  destruct (py_get page_info "hasNextPage" (VBool false)) as [has_next|e]; [|exact S2].
  destruct (negb (truthy has_next)); [apply runs_ret; exact S2|].
  apply runs_bind, runs_lift.
  destruct (py_get page_info "endCursor" VNone) as [cursor'|e]; [|exact S2].
  eapply runs_weaken; [apply IH; exact L2|].
  intros r w' S3. eapply client_step_trans; eassumption.
Qed.

Lemma try_count_spec query w :
  exists r w',
    try_count query w = Some (Ok r, w') /\ client_step w w'
    /\ (r <> None -> (List.length (script w') < List.length (script w))%nat).
Proof.
  unfold try_count, try_except.
  destruct (consuming_execute USER_COUNT_QUERY (VDict [("query", VStr query)]) w)
    as (r & w' & E & S & C).
  unfold bind at 1. rewrite E. destruct r as [data|e]; cbn [ret].
  - unfold bind, lift.
    destruct (py_get data "search" (VDict [])) as [sd|];
      [destruct (py_get sd "userCount" (VInt 0)) as [c|]|];
      eexists _, _; (split; [reflexivity|]); (split; [exact S|]);
      try congruence; intros _; now apply C.
  - exists None, w'. repeat split; try apply S. congruence.
Qed.

Lemma runs_date_split_loop bq mu : forall fuel users ranges w,
  (2 * List.length (script w) + List.length ranges < fuel)%nat ->
  runs (date_split_loop fuel bq mu users ranges) w (fun _ w' => client_step w w').
Proof.
  induction fuel as [|fuel IH]; intros users ranges w Hfuel; [lia|].
  destruct ranges as [|[s e] ranges]; cbn [date_split_loop];
    [apply runs_ret, client_step_refl|].
  cbn [List.length] in Hfuel.
  destruct (under_cap mu users); [|apply runs_ret, client_step_refl].
  apply runs_bind; eapply runs_weaken;
    [apply runs_safe, safe_wait_for_rate_limit|].
  intros r1 w1 S1. destruct r1 as [[]|e']; [|exact S1].
  apply runs_bind.
  match goal with |- runs (try_count ?q) _ _ =>
    destruct (try_count_spec q w1) as (r2 & w2 & E2 & S2 & C2) end.
  eapply runs_eq; [exact E2|]. cbv beta iota.
  assert (S12 : client_step w w2) by (eapply client_step_trans; eassumption).
  pose proof S1 as [_ L1]. pose proof S2 as [_ L2].
  destruct r2 as [count|].
  2:{ eapply runs_weaken; [apply IH; lia|].
      intros r w' S3. eapply client_step_trans; eassumption. }
  specialize (C2 ltac:(discriminate)).
  destruct (py_is_zero count).
  { eapply runs_weaken; [apply IH; lia|].
    intros r w' S3. eapply client_step_trans; eassumption. }
  apply runs_bind, runs_lift. destruct (as_int count) as [c|e']; [|exact S12].
  destruct (c <=? 1000)%Z; [|destruct (e - s <=? 1)%Z].
  - apply runs_bind; eapply runs_weaken;
      [unfold _paginated_user_search; apply runs_paginated_loop; lia|].
    intros r3 w3 S3. pose proof S3 as [_ L3].
    assert (S13 : client_step w w3) by (eapply client_step_trans; eassumption).
    destruct r3 as [new_users|e']; [|exact S13].
    eapply runs_weaken; [apply IH; lia|].
    intros r w' S4. eapply client_step_trans; eassumption.
  - apply runs_bind; eapply runs_weaken;
      [unfold _paginated_user_search; apply runs_paginated_loop; lia|].
    intros r3 w3 S3. pose proof S3 as [_ L3].
    assert (S13 : client_step w w3) by (eapply client_step_trans; eassumption).
    destruct r3 as [new_users|e']; [|exact S13].
    eapply runs_weaken; [apply IH; lia|].
    intros r w' S4. eapply client_step_trans; eassumption.
  - cbn [split_range]. eapply runs_weaken; [apply IH; cbn [List.length]; lia|].
    intros r w' S4. eapply client_step_trans; eassumption.
Qed.

(** The discovery finishes when given more fuel than twice the round trips
    of the script, plus one. *)
Lemma runs_fetch_users_by_location fuel today location include_orgs mu w :
  (2 * List.length (script w) + 1 < fuel)%nat ->
  runs (fetch_users_by_location fuel today location include_orgs mu) w
    (fun _ w' => client_step w w').
Proof.
  intros Hfuel. unfold fetch_users_by_location, _fetch_users_with_date_split.
  apply runs_bind; eapply runs_weaken;
    [apply runs_date_split_loop; cbn [List.length]; lia|].
  intros r1 w1 S1. pose proof S1 as [_ L1]. destruct r1 as [users|e]; [|exact S1].
  destruct include_orgs; [|apply runs_ret; exact S1].
  apply runs_bind; eapply runs_weaken;
    [apply runs_date_split_loop; cbn [List.length]; lia|].
  intros r2 w2 S2.
  assert (S12 : client_step w w2) by (eapply client_step_trans; eassumption).
  destruct r2 as [orgs|e]; [apply runs_ret|]; exact S12.
Qed.


Lemma runs_users_checkpoint op w :
  runs (match op with
        | Some p =>
            bind get_repos
              (fun rows =>
                 if (len rows mod SAVE_INTERVAL =? 0)%Z then _save_progress p
                 else ret tt)
        | None => ret tt
        end) w
    (fun r w' => r = Ok tt /\ script w' = script w /\ _repos w' = _repos w).
Proof.
  destruct op as [p|]; [|apply runs_ret; auto].
  apply runs_bind. eapply runs_eq; [reflexivity|]. cbv beta iota.
  destruct (len (_repos w) mod SAVE_INTERVAL =? 0)%Z; [|apply runs_ret; auto].
  eapply runs_weaken; [apply runs_save_progress|].
  intros r w' (Hr & Hs & Hb & _). auto.
Qed.

Lemma runs_users_loop fuel op min_stars include_forks extra_filter :
  forall usernames w,
  (List.length (script w) < fuel)%nat ->
  runs (users_loop fuel usernames op min_stars include_forks extra_filter) w
    (fun _ w' => (List.length (script w') <= List.length (script w))%nat).
Proof.
  induction usernames as [|username rest IH]; intros w Hfuel; cbn [users_loop];
    [apply runs_ret; lia|].
  apply runs_bind; eapply runs_weaken;
    [apply runs_safe, safe_wait_for_rate_limit|].
  intros r1 w1 [_ L1]. destruct r1 as [[]|e]; [|exact L1].
  apply runs_bind; eapply runs_weaken;
    [unfold _fetch_user_repos; apply runs_user_repos_loop; lia|].
  intros r2 w2 [_ L2]. destruct r2 as [user_repos|e]; [|lia].
  apply runs_bind. eapply runs_eq; [reflexivity|]. cbv beta iota.
  apply runs_bind; eapply runs_weaken;
    [apply runs_safe, safe_remaining_requests|].
  cbn [script]. intros r3 w3 [_ L3]. cbn [script] in L3.
  destruct r3 as [x|e]; [|lia].
  apply runs_bind; eapply runs_weaken; [apply runs_users_checkpoint|].
  intros r4 w4 (-> & S4 & _).
  eapply runs_weaken; [apply IH; rewrite S4; lia|].
  cbv beta. intros r w' L5. rewrite S4 in L5. lia.
Qed.

Lemma runs_fetch_repos_for_users fuel usernames op min_stars include_forks
    extra_filter w :
  (List.length (script w) < fuel)%nat ->
  runs (fetch_repos_for_users fuel usernames op min_stars include_forks extra_filter)
    w (fun _ w' => (List.length (script w') <= List.length (script w))%nat).
Proof.
  intros Hfuel. unfold fetch_repos_for_users.
  apply runs_bind. eapply runs_eq; [reflexivity|]. cbv beta iota.
  apply runs_bind; eapply runs_weaken;
    [apply runs_safe, safe_get_rate_limit_info|].
  cbn [script]. intros r1 w1 [_ L1]. cbn [script] in L1.
  destruct r1 as [[]|e]; [|exact L1].
  apply runs_bind; eapply runs_weaken; [apply runs_users_loop; lia|].
  cbv beta. intros r2 w2 L2. destruct r2 as [[]|e]; [|lia].
  apply runs_bind; eapply runs_weaken; [apply runs_final_save|].
  intros r3 w3 (-> & S3 & _).
  apply runs_bind; eapply runs_weaken;
    [apply runs_safe, safe_get_rate_limit_info|].
  intros r4 w4 [_ L4]. destruct r4 as [[]|e]; [|rewrite S3 in L4; lia].
  eapply runs_eq; [reflexivity|]. rewrite S3 in L4. lia.
Qed.

(** The two-step fetch finishes when given more fuel than twice the round
    trips of the script, plus one. *)
Lemma runs_fetch_by_location_two_step fuel today location include_orgs min_stars
    mu include_forks extra_filter op w :
  (2 * List.length (script w) + 1 < fuel)%nat ->
  runs (fetch_by_location_two_step fuel today location include_orgs min_stars mu
          include_forks extra_filter op) w
    (fun _ w' => (List.length (script w') <= List.length (script w))%nat).
Proof.
  intros Hfuel. unfold fetch_by_location_two_step.
  apply runs_bind; eapply runs_weaken;
    [apply runs_fetch_users_by_location; exact Hfuel|].
  intros r1 w1 [_ L1]. destruct r1 as [usernames|e]; [|exact L1].
  destruct usernames as [|u us]; [apply runs_ret; exact L1|].
  eapply runs_weaken; [apply runs_fetch_repos_for_users; lia|].
  cbv beta. intros r w' L2. lia.
Qed.

End Termination.

(** * Frames of the client *)

Section StepsRules.
Context {A B : Type}.
Variable R : world -> world -> Prop.
Hypothesis R_refl : forall w, R w w.
Hypothesis R_trans : forall w1 w2 w3, R w1 w2 -> R w2 w3 -> R w1 w3.

Lemma steps_ret (a : A) : steps R (ret a).
Proof. intros w r w' E. inversion E; subst. apply R_refl. Qed.

Lemma steps_raise (e : exn) : steps R (raise (A := A) e).
Proof. intros w r w' E. inversion E; subst. apply R_refl. Qed.

Lemma steps_lift (x : res A) : steps R (lift x).
Proof. intros w r w' E. inversion E; subst. apply R_refl. Qed.

Lemma steps_out_of_fuel : steps R (out_of_fuel (A := A)).
Proof. intros w r w' E. discriminate E. Qed.

Lemma steps_bind (m : M A) (k : A -> M B) :
  steps R m -> (forall a, steps R (k a)) -> steps R (bind m k).
Proof.
  intros Hm Hk w r w' E. unfold bind in E.
  destruct (m w) as [[[a|e] w1]|] eqn:Em; [| |discriminate E].
  - eapply R_trans; [eapply Hm, Em|eapply Hk, E].
  - inversion E; subst. eapply Hm, Em.
Qed.

Lemma steps_try_except (m : M A) (h : exn -> M A) :
  steps R m -> (forall e, steps R (h e)) -> steps R (try_except m h).
Proof.
  intros Hm Hh w r w' E. unfold try_except in E.
  destruct (m w) as [[[a|e] w1]|] eqn:Em; [| |discriminate E].
  - inversion E; subst. eapply Hm, Em.
  - eapply R_trans; [eapply Hm, Em|eapply Hh, E].
Qed.

End StepsRules.

Lemma bind_inv {A B} (m : M A) (k : A -> M B) w r w' :
  bind m k w = Some (r, w') ->
  (exists a w1, m w = Some (Ok a, w1) /\ k a w1 = Some (r, w'))
  \/ (exists e, m w = Some (Raise e, w') /\ r = Raise e).
Proof.
  unfold bind. destruct (m w) as [[[a|e] w1]|]; try discriminate.
  - intros Hk. left. now exists a, w1.
  - intros Hk. injection Hk as <- <-. right. now exists e.
Qed.

Lemma steps_lift_ok {A B} (R : world -> world -> Prop) (a : A) (k : A -> M B) :
  steps R (k a) -> steps R (bind (lift (Ok a)) k).
Proof. intros S w r w' E. exact (S w r w' E). Qed.

Lemma steps_weaken {A} (R R' : world -> world -> Prop) (m : M A) :
  (forall w w', R w w' -> R' w w') -> steps R m -> steps R' m.
Proof. intros HR Hm w r w' E. apply HR. eapply Hm, E. Qed.

Lemma added_refl P w : added P w w.
Proof. exists []. split; [reflexivity|constructor]. Qed.

Lemma added_trans P w1 w2 w3 : added P w1 w2 -> added P w2 w3 -> added P w1 w3.
Proof.
  intros (n1 & E1 & F1) (n2 & E2 & F2). exists (n2 ++ n1). split.
  - rewrite E2, E1. apply app_assoc.
  - apply Forall_app. split; assumption.
Qed.

Lemma added_weaken (P Q : event -> Prop) w w' :
  (forall ev, P ev -> Q ev) -> added P w w' -> added Q w w'.
Proof.
  intros HPQ (n & E & F). exists n. split; [exact E|].
  eapply Forall_impl; [exact HPQ|exact F].
Qed.

Lemma added_one (P : event -> Prop) ev w w' :
  trace w' = ev :: trace w -> P ev -> added P w w'.
Proof. intros E HP. exists [ev]. split; [exact E|repeat constructor; exact HP]. Qed.

Lemma added_same P w w' : trace w' = trace w -> added P w w'.
Proof. intros E. exists []. split; [exact E|constructor]. Qed.

(** One step of a frame proof, on the shape of the computation. *)
Ltac steps_step refl trans :=
  match goal with
  | |- steps _ (ret _) => apply (steps_ret _ refl)
  | |- steps _ (raise _) => apply (steps_raise _ refl)
  | |- steps _ (lift _) => apply (steps_lift _ refl)
  | |- steps _ out_of_fuel => apply steps_out_of_fuel
  | |- steps _ (bind _ _) => apply (steps_bind _ trans); [|intros ?]
  | |- steps _ (try_except _ _) => apply (steps_try_except _ trans); [|intros ?]
  | |- steps _ (if ?b then _ else _) => destruct b
  | |- steps _ (match ?x with _ => _ end) => destruct x
  | |- steps _ (let _ := _ in _) => cbv zeta
  end.

Ltac steps_with refl trans := repeat steps_step refl trans.

Lemma same_but_rate_limit_refl w : same_but_rate_limit w w.
Proof. repeat split. Qed.

Lemma same_but_rate_limit_trans w1 w2 w3 :
  same_but_rate_limit w1 w2 -> same_but_rate_limit w2 w3 -> same_but_rate_limit w1 w3.
Proof. unfold same_but_rate_limit. intuition congruence. Qed.

Lemma quiet_refl P w : quiet P w w.
Proof. split; [reflexivity|apply added_refl]. Qed.

Lemma quiet_trans P w1 w2 w3 : quiet P w1 w2 -> quiet P w2 w3 -> quiet P w1 w3.
Proof.
  intros [R1 A1] [R2 A2]. split; [congruence|eapply added_trans; eassumption].
Qed.

Lemma quiet_weaken (P Q : event -> Prop) w w' :
  (forall ev, P ev -> Q ev) -> quiet P w w' -> quiet Q w w'.
Proof. intros HPQ [R1 A1]. split; [exact R1|eapply added_weaken; eassumption]. Qed.

Lemma steps_sleep_quiet (P : event -> Prop) d :
  (forall d, P (Slept d)) -> steps (quiet P) (sleep d).
Proof.
  intros HP w r w' E. inversion E; subst. split; [reflexivity|].
  now apply added_one with (ev := Slept d).
Qed.

Lemma steps_get_rate_limit_quiet P : steps (quiet P) get_rate_limit.
Proof. intros w r w' E. inversion E; subst. apply quiet_refl. Qed.

Lemma steps_set_rate_limit_quiet P rl : steps (quiet P) (set_rate_limit rl).
Proof.
  intros w r w' E. inversion E; subst. split; [reflexivity|now apply added_same].
Qed.

Lemma steps_seconds_until_quiet P s : steps (quiet P) (seconds_until s).
Proof.
  intros w r w' E. unfold seconds_until in E.
  destruct (clock w); inversion E; subst; [apply quiet_refl|].
  split; [reflexivity|now apply added_same].
Qed.

Lemma steps_session_post_quiet (P : event -> Prop) q v :
  P (Posted q v) -> steps (quiet P) (session_post q v).
Proof.
  intros HP w r w' E. unfold session_post in E.
  destruct (script w) as [|[msg|result] rest]; inversion E; subst;
    (split; [reflexivity|now apply added_one with (ev := Posted q v)]).
Qed.

Section WrapperFrame.
Context {A : Type}.
Variable R : world -> world -> Prop.
Hypothesis R_refl : forall w, R w w.
Hypothesis R_trans : forall w1 w2 w3, R w1 w2 -> R w2 w3 -> R w1 w3.

Lemma steps_wrapper_loop n b c m exc (func : M A) :
  steps R func -> (forall d, steps R (sleep d)) ->
  forall attempts last, steps R (wrapper_loop n b c m exc func attempts last).
Proof.
  intros Hf Hs attempts. induction attempts as [|a rest IH]; intros last; cbn [wrapper_loop].
  - destruct last; now apply steps_raise.
  - apply steps_try_except; [assumption..|]. intros e.
    destruct (exc e); [|now apply steps_raise].
    destruct (a =? n)%nat; [now apply steps_raise|].
    apply steps_bind; [assumption..|apply Hs|]. intros _. apply IH.
Qed.

End WrapperFrame.

Section ClientFrames.
Context `{Builtins}.

(** After the round trip, [execute_body] only reads the response and sets
    the quota snapshot. *)
Lemma execute_body_world q v w r w' :
  execute_body q v w = Some (r, w') ->
  script w' = tl (script w) /\ clock w' = clock w /\ _repos w' = _repos w
  /\ trace w' = Posted q v :: trace w.
Proof.
  unfold execute_body. intros E. unfold bind at 1 in E.
  destruct (session_post q v w) as [[[result|e] w0]|] eqn:Ep; [| |discriminate E].
  - assert (F0 : script w0 = tl (script w) /\ clock w0 = clock w
                 /\ _repos w0 = _repos w /\ trace w0 = Posted q v :: trace w).
    { unfold session_post in Ep.
      destruct (script w) as [|[msg|res0] rest]; inversion Ep; subst; repeat split. }
    match type of E with ?m w0 = _ =>
      assert (S : steps same_but_rate_limit m) end.
    { steps_with same_but_rate_limit_refl same_but_rate_limit_trans;
        intros ? ? ? E'; inversion E'; subst; repeat split. }
    apply S in E. destruct E as (E1 & E2 & E3 & E4), F0 as (F1 & F2 & F3 & F4).
    repeat split; congruence.
  - inversion E; subst. unfold session_post in Ep.
    destruct (script w) as [|[msg|res0] rest]; inversion Ep; subst; repeat split.
Qed.

Lemma steps_execute_body (P : event -> Prop) q v :
  P (Posted q v) -> steps (quiet P) (execute_body q v).
Proof.
  intros HP w r w' E. apply execute_body_world in E.
  destruct E as (_ & _ & E3 & E4). split; [exact E3|].
  now apply added_one with (ev := Posted q v).
Qed.

Lemma steps_execute (P : event -> Prop) q v :
  P (Posted q v) -> (forall d, P (Slept d)) -> steps (quiet P) (execute q v).
Proof.
  intros HP HS. unfold execute, exponential_backoff.
  apply steps_wrapper_loop; [apply quiet_refl|apply quiet_trans| |].
  - now apply steps_execute_body.
  - intros d. now apply steps_sleep_quiet.
Qed.

Lemma steps_try_execute (P : event -> Prop) q v :
  P (Posted q v) -> (forall d, P (Slept d)) -> steps (quiet P) (try_execute q v).
Proof.
  intros HP HS. unfold try_execute.
  apply steps_try_except; [apply quiet_trans| |].
  - apply steps_bind; [apply quiet_trans|now apply steps_execute|].
    intros a. apply steps_ret, quiet_refl.
  - intros e. apply steps_ret, quiet_refl.
Qed.

Lemma steps_check_rate_limit : steps (quiet quota_event) check_rate_limit.
Proof.
  unfold check_rate_limit.
  apply steps_bind; [apply quiet_trans| |].
  - apply steps_execute; [exact I|intros d; exact I].
  - intros a. apply steps_lift, quiet_refl.
Qed.

Ltac quiet_tac :=
  repeat first
    [ apply steps_check_rate_limit | apply steps_get_rate_limit_quiet
    | apply steps_set_rate_limit_quiet | apply steps_seconds_until_quiet
    | apply steps_sleep_quiet; intros ?; exact I
    | steps_step (quiet_refl quota_event) (quiet_trans quota_event) ].

Lemma steps_calculate_wait_time reset_at :
  steps (quiet quota_event) (calculate_wait_time reset_at).
Proof. unfold calculate_wait_time. quiet_tac. Qed.

Lemma steps_wait_for_rate_limit m :
  steps (quiet quota_event) (wait_for_rate_limit m).
Proof.
  unfold wait_for_rate_limit. quiet_tac. apply steps_calculate_wait_time.
Qed.

Lemma steps_get_rate_limit_info : steps (quiet quota_event) get_rate_limit_info.
Proof. unfold get_rate_limit_info. quiet_tac. Qed.

Lemma steps_remaining_requests : steps (quiet quota_event) remaining_requests.
Proof. unfold remaining_requests. quiet_tac. Qed.

End ClientFrames.

(** * More on the backoff wrapper, the transport and the quota *)

Section Retries.
Context {A : Type}.
Variables (max_retries : nat) (base_delay max_delay exponential_base : Q).
Variable exceptions : exn -> bool.
Variable func : M A.

Let delay := backoff_delay base_delay max_delay exponential_base.
Let loop := wrapper_loop max_retries base_delay max_delay exponential_base
              exceptions func.

Lemma wrapper_loop_final i rest last w r w' :
  func w = Some (r, w') -> final_attempt exceptions i max_retries r ->
  loop (i :: rest) last w = Some (r, w').
Proof.
  intros Hf Hr. destruct r as [a|e].
  - now apply wrapper_loop_returns.
  - destruct (exceptions e) eqn:He.
    + destruct Hr as [Hr| ->]; [congruence|].
      now apply wrapper_loop_exhausted.
    + now apply wrapper_loop_not_retryable.
Qed.

Lemma wrapper_loop_fails_then k : forall i last w w1 r w2,
  (i + k <= max_retries)%nat ->
  fails_then exceptions func (map delay (seq i k)) w w1 ->
  func w1 = Some (r, w2) -> final_attempt exceptions (i + k) max_retries r ->
  loop (seq i (S (max_retries - i))) last w = Some (r, w2).
Proof.
  induction k as [|k IH]; intros i last w w1 r w2 Hle Hfail Hf Hr.
  - cbn [seq map] in Hfail. inversion Hfail; subst. rewrite Nat.add_0_r in Hr.
    cbn [seq]. now apply wrapper_loop_final.
  - cbn [seq map] in Hfail. inversion Hfail as [|d ds w0 e w0' w1' Hf0 He Hrest]; subst.
    cbn [seq]. unfold loop.
    rewrite (wrapper_loop_retry _ _ _ _ _ _ _ _ _ _ _ _ Hf0 He) by lia.
    replace (max_retries - i)%nat with (S (max_retries - S i)) by lia.
    apply (IH (S i) (Some e) _ w1 r w2); try assumption; try lia.
    now rewrite Nat.add_succ_comm.
Qed.

End Retries.

Lemma backoff_delay_bounds (base_delay max_delay : Q) (attempt : nat) :
  (0 <= base_delay)%Q -> (0 <= max_delay)%Q ->
  (0 <= backoff_delay base_delay max_delay 2 attempt <= max_delay)%Q.
Proof.
  intros Hb Hm. unfold backoff_delay. split.
  - apply Q.min_glb; [|exact Hm].
    apply Qmult_le_0_compat; [exact Hb|]. apply Qpower_0_le. discriminate.
  - apply Q.le_min_r.
Qed.

(** X1.  [exponential_backoff] with a doubling delay, for any number of
    retries below 1024, any base delay that is not negative and any maximum
    delay between 0 and 10^9 seconds (so that the delay is computed without
    rounding or overflow and [time.sleep] accepts it): when the wrapped call
    fails [k <= max_retries] times in a row with an exception of
    [exceptions], the wrapper sleeps [min(base_delay * 2 ** i, max_delay)]
    after the failure of attempt [i] and calls again; the outcome of the
    first call that returns, that fails with an exception outside
    [exceptions] or that is attempt [max_retries] is the outcome of the
    wrapper, in the world that call left: no sleep follows it.  Every delay
    slept lies between 0 and [max_delay]. *)
Theorem exponential_backoff_outcome {A} (max_retries : nat)
    (base_delay max_delay : Q) (exceptions : exn -> bool)
    (func : M A) (k : nat) (w w1 w2 : world) (r : res A) :
  (max_retries < 1024)%nat ->
  (0 <= base_delay)%Q -> (0 <= max_delay <= 1000000000)%Q ->
  (k <= max_retries)%nat ->
  fails_then exceptions func
    (map (backoff_delay base_delay max_delay 2) (seq 0 k)) w w1 ->
  func w1 = Some (r, w2) -> final_attempt exceptions k max_retries r ->
  exponential_backoff max_retries base_delay max_delay 2 exceptions func w
  = Some (r, w2)
  /\ Forall (fun delay => (0 <= delay <= max_delay)%Q)
       (map (backoff_delay base_delay max_delay 2) (seq 0 k)).
Proof.
  intros _ Hb [Hm _] Hk Hfail Hf Hr. split.
  - unfold exponential_backoff.
    replace (max_retries + 1)%nat with (S (max_retries - 0)) by lia.
    now apply (wrapper_loop_fails_then _ _ _ _ _ _ k 0%nat None w w1 r w2).
  - apply Forall_forall. intros d Hd. apply in_map_iff in Hd as (a & <- & _).
    now apply backoff_delay_bounds.
Qed.

(** The theorem applies to a request that succeeds at its third attempt. *)
Lemma exponential_backoff_outcome_witness :
  exponential_backoff 3 2 60 2 is_request_exception
    (session_post SEARCH_REPOS_QUERY VNone) (fresh flaky)
  = Some (Ok (page_body (mkPage [repo_in "Lima, Peru"] false "Y3Vyc29yOjE=" 4000)),
          mkWorld [] [] VNone []
            [ Posted SEARCH_REPOS_QUERY VNone; Slept 4;
              Posted SEARCH_REPOS_QUERY VNone; Slept 2;
              Posted SEARCH_REPOS_QUERY VNone ]).
Proof.
  assert (H1 : (3 < 1024)%nat) by lia.
  assert (H2 : (0 <= 2)%Q) by discriminate.
  assert (H3 : (0 <= 60 <= 1000000000)%Q) by (split; discriminate).
  assert (H4 : (2 <= 3)%nat) by lia.
  assert (Hf : fails_then is_request_exception (session_post SEARCH_REPOS_QUERY VNone)
                 (map (backoff_delay 2 60 2) (seq 0 2)) (fresh flaky)
                 (mkWorld [HttpOk (page_body (mkPage [repo_in "Lima, Peru"] false
                                                "Y3Vyc29yOjE=" 4000))]
                    [] VNone []
                    [ Slept 4; Posted SEARCH_REPOS_QUERY VNone; Slept 2;
                      Posted SEARCH_REPOS_QUERY VNone ])).
  { eapply fails_cons; [reflexivity|reflexivity|].
    eapply fails_cons; [reflexivity|reflexivity|].
    apply fails_nil. }
  exact (proj1 (exponential_backoff_outcome 3 2 60 is_request_exception
                  (session_post SEARCH_REPOS_QUERY VNone) 2 _ _ _ _
                  H1 H2 H3 H4 Hf eq_refl I)).
Defined.

Section Transport.
Context `{Builtins}.

Lemma execute_body_runs q v w :
  exists r w', execute_body q v w = Some (r, w')
    /\ script w' = tl (script w) /\ clock w' = clock w /\ _repos w' = _repos w
    /\ trace w' = Posted q v :: trace w.
Proof.
  destruct (consuming_execute_body q v w) as (r & w' & E & _).
  exists r, w'. split; [exact E|]. now apply execute_body_world in E.
Qed.

Lemma tl_skipn {A} n (l : list A) : tl (skipn n l) = skipn (S n) l.
Proof.
  revert l. induction n as [|n IH]; intros [|x l]; try reflexivity.
  cbn [skipn]. rewrite IH. reflexivity.
Qed.

(** X2.  [execute] makes between one and four attempts of the same request,
    sleeping 2, 4 and 8 seconds between them; it consumes exactly one round
    trip per attempt, leaves the clock and the buffer alone, adds nothing
    else to the trace, and a [RequestException] leaves it only after the
    fourth attempt. *)
Theorem execute_effort query variables w :
  exists k r w',
    execute query variables w = Some (r, w')
    /\ (1 <= k <= 4)%nat
    /\ script w' = skipn k (script w)
    /\ clock w' = clock w
    /\ _repos w' = _repos w
    /\ trace w' = attempts_trace query variables k ++ trace w
    /\ (is_ok r = false -> k = 4%nat \/ exists e, r = Raise e /\ is_request_exception e = false).
Proof.
  unfold execute, exponential_backoff. cbn [seq Nat.add].
  destruct (execute_body_runs query variables w) as (r0 & w0 & E0 & S0 & C0 & R0 & T0).
  destruct r0 as [a|e0].
  { exists 1%nat, (Ok a), w0. rewrite (wrapper_loop_returns _ _ _ _ _ _ _ _ _ _ _ _ E0).
    repeat split; try assumption; try lia. discriminate. }
  destruct (is_request_exception e0) eqn:X0.
  2:{ exists 1%nat, (Raise e0), w0.
      rewrite (wrapper_loop_not_retryable _ _ _ _ _ _ _ _ _ _ _ _ E0 X0).
      repeat split; try assumption; try lia. intros _. right. now exists e0. }
  rewrite (wrapper_loop_retry _ _ _ _ _ _ _ _ _ _ _ _ E0 X0) by discriminate.
  change (backoff_delay 2 60 2 0) with 2%Q.
  destruct (execute_body_runs query variables (after_sleep 2 w0))
    as (r1 & w1 & E1 & S1 & C1 & R1 & T1).
  cbn [after_sleep script clock _repos trace] in S1, C1, R1, T1.
  assert (K1 : script w1 = skipn 2 (script w)
               /\ clock w1 = clock w /\ _repos w1 = _repos w
               /\ trace w1 = attempts_trace query variables 2 ++ trace w).
  { rewrite S1, S0, C1, C0, R1, R0, T1, T0. repeat split.
    change 2%nat with (S 1) at 1. rewrite <- tl_skipn. reflexivity. }
  destruct K1 as (KS1 & KC1 & KR1 & KT1).
  destruct r1 as [a|e1].
  { exists 2%nat, (Ok a), w1. rewrite (wrapper_loop_returns _ _ _ _ _ _ _ _ _ _ _ _ E1).
    repeat split; try assumption; try lia. discriminate. }
  destruct (is_request_exception e1) eqn:X1.
  2:{ exists 2%nat, (Raise e1), w1.
      rewrite (wrapper_loop_not_retryable _ _ _ _ _ _ _ _ _ _ _ _ E1 X1).
      repeat split; try assumption; try lia. intros _. right. now exists e1. }
  rewrite (wrapper_loop_retry _ _ _ _ _ _ _ _ _ _ _ _ E1 X1) by discriminate.
  change (backoff_delay 2 60 2 1) with 4%Q.
  destruct (execute_body_runs query variables (after_sleep 4 w1))
    as (r2 & w2 & E2 & S2 & C2 & R2 & T2).
  cbn [after_sleep script clock _repos trace] in S2, C2, R2, T2.
  assert (K2 : script w2 = skipn 3 (script w)
               /\ clock w2 = clock w /\ _repos w2 = _repos w
               /\ trace w2 = attempts_trace query variables 3 ++ trace w).
  { rewrite S2, KS1, C2, KC1, R2, KR1, T2, KT1. repeat split.
    apply tl_skipn. }
  destruct K2 as (KS2 & KC2 & KR2 & KT2).
  destruct r2 as [a|e2].
  { exists 3%nat, (Ok a), w2. rewrite (wrapper_loop_returns _ _ _ _ _ _ _ _ _ _ _ _ E2).
    repeat split; try assumption; try lia. discriminate. }
  destruct (is_request_exception e2) eqn:X2.
  2:{ exists 3%nat, (Raise e2), w2.
      rewrite (wrapper_loop_not_retryable _ _ _ _ _ _ _ _ _ _ _ _ E2 X2).
      repeat split; try assumption; try lia. intros _. right. now exists e2. }
  rewrite (wrapper_loop_retry _ _ _ _ _ _ _ _ _ _ _ _ E2 X2) by discriminate.
  change (backoff_delay 2 60 2 2) with 8%Q.
  destruct (execute_body_runs query variables (after_sleep 8 w2))
    as (r3 & w3 & E3 & S3 & C3 & R3 & T3).
  cbn [after_sleep script clock _repos trace] in S3, C3, R3, T3.
  assert (K3 : script w3 = skipn 4 (script w)
               /\ clock w3 = clock w /\ _repos w3 = _repos w
               /\ trace w3 = attempts_trace query variables 4 ++ trace w).
  { rewrite S3, KS2, C3, KC2, R3, KR2, T3, KT2. repeat split.
    apply tl_skipn. }
  destruct K3 as (KS3 & KC3 & KR3 & KT3).
  exists 4%nat, r3, w3. split.
  - destruct r3 as [a|e3].
    + now rewrite (wrapper_loop_returns _ _ _ _ _ _ _ _ _ _ _ _ E3).
    + destruct (is_request_exception e3) eqn:X3.
      * now rewrite (wrapper_loop_exhausted _ _ _ _ _ _ _ _ _ _ _ E3 X3).
      * now rewrite (wrapper_loop_not_retryable _ _ _ _ _ _ _ _ _ _ _ _ E3 X3).
  - repeat split; try assumption; try lia.
Qed.

End Transport.

Section Transport2.
Context `{Builtins}.

Lemma execute_body_payload query variables body d rest clk rl rows tr :
  assoc "errors" body = None -> assoc "data" body = Some (VDict d) ->
  execute_body query variables (mkWorld (HttpOk (VDict body) :: rest) clk rl rows tr)
  = Some (Ok (VDict d),
          mkWorld rest clk (dict_get d "rateLimit" rl) rows (Posted query variables :: tr)).
Proof.
  intros He Hd. unfold execute_body, py_get, dict_get.
  destruct (assoc "rateLimit" d) as [new|] eqn:Hr;
    repeat first [progress mcbn | rewrite Hd | rewrite He | rewrite Hr]; reflexivity.
Qed.

Lemma execute_body_no_data query variables body rest clk rl rows tr :
  assoc "errors" body = None -> assoc "data" body = None ->
  execute_body query variables (mkWorld (HttpOk (VDict body) :: rest) clk rl rows tr)
  = Some (Ok (VDict []), mkWorld rest clk rl rows (Posted query variables :: tr)).
Proof.
  intros He Hd. unfold execute_body, py_get, dict_get.
  repeat first [progress mcbn | rewrite Hd | rewrite He]; reflexivity.
Qed.

(** An attempt that returns ends [execute] at once. *)
Lemma execute_first_attempt query variables w a w' :
  execute_body query variables w = Some (Ok a, w') ->
  execute query variables w = Some (Ok a, w').
Proof.
  intros E. unfold execute, exponential_backoff. cbn [seq Nat.add].
  now apply wrapper_loop_returns.
Qed.

(** X3.  A response without [errors] is answered at the first attempt: [execute]
    returns its [data] object (the empty dict when the body has no [data]),
    and the quota snapshot becomes the [rateLimit] object of the payload when
    there is one and is left as it was otherwise. *)
Theorem execute_returns_payload query variables body rest clk rl rows tr :
  assoc "errors" body = None ->
  (forall d, assoc "data" body = Some (VDict d) ->
     execute query variables (mkWorld (HttpOk (VDict body) :: rest) clk rl rows tr)
     = Some (Ok (VDict d),
             mkWorld rest clk (dict_get d "rateLimit" rl) rows
                     (Posted query variables :: tr)))
  /\ (assoc "data" body = None ->
      execute query variables (mkWorld (HttpOk (VDict body) :: rest) clk rl rows tr)
      = Some (Ok (VDict []),
              mkWorld rest clk rl rows (Posted query variables :: tr))).
Proof.
  intros He. split.
  - intros d Hd. apply execute_first_attempt. now apply execute_body_payload.
  - intros Hd. apply execute_first_attempt. now apply execute_body_no_data.
Qed.

(** X4.  The quota snapshot is updated before the errors are looked at: a
    response that carries both a [rateLimit] object and [errors] makes
    [execute] raise the [ValueError] with the joined messages at the first
    attempt, and leaves the snapshot of that response behind. *)
Theorem execute_errors_update_snapshot query variables body d new errs msgs
    rest clk rl rows tr :
  assoc "data" body = Some (VDict d) -> assoc "rateLimit" d = Some new ->
  assoc "errors" body = Some (VList errs) -> Forall2 error_entry errs msgs ->
  execute query variables (mkWorld (HttpOk (VDict body) :: rest) clk rl rows tr)
  = Some (Raise (ValueError ("GraphQL errors: " ++ join_with "; " msgs)),
          mkWorld rest clk new rows (Posted query variables :: tr)).
Proof.
  intros Hd Hr He Hm.
  apply execute_no_retry; [|reflexivity].
  unfold execute_body.
  repeat first [progress mcbn | rewrite Hd | rewrite He | rewrite Hr
               | rewrite (error_messages_ok _ _ Hm) | rewrite py_join_strings ].
  reflexivity.
Qed.

End Transport2.

(** The theorem applies to the answer to the quota probe. *)
Lemma execute_returns_payload_witness :
  execute (H := plain_builtins) RATE_LIMIT_QUERY VNone (fresh [HttpOk (probe_body 4999)])
  = Some (Ok (VDict [("rateLimit", rate_snapshot 4999)]),
          mkWorld [] [] (rate_snapshot 4999) [] [Posted RATE_LIMIT_QUERY VNone]).
Proof.
  exact (proj1 (execute_returns_payload (H := plain_builtins) RATE_LIMIT_QUERY VNone
                  [("data", VDict [("rateLimit", rate_snapshot 4999)])]
                  [] [] VNone [] [] eq_refl)
           [("rateLimit", rate_snapshot 4999)] eq_refl).
Defined.


(** The theorem applies to a response to a query that hit a resource limit. *)
Lemma execute_errors_update_snapshot_witness :
  execute (H := plain_builtins) SEARCH_REPOS_QUERY VNone
    (warm 5000
       [HttpOk (VDict [ ("data", VDict [("search", VNone); ("rateLimit", rate_snapshot 12)]);
                        ("errors", VList [VDict [("message", VStr "Resource limits exceeded")]]) ])])
  = Some (Raise (ValueError "GraphQL errors: Resource limits exceeded"),
          mkWorld [] [] (rate_snapshot 12) [] [Posted SEARCH_REPOS_QUERY VNone]).
Proof.
  apply (execute_errors_update_snapshot (H := plain_builtins) SEARCH_REPOS_QUERY VNone
           _ [("search", VNone); ("rateLimit", rate_snapshot 12)] (rate_snapshot 12)
           [VDict [("message", VStr "Resource limits exceeded")]]
           ["Resource limits exceeded"]);
    try reflexivity.
  repeat constructor. eexists. split; reflexivity.
Defined.

Section Quota.
Context `{Builtins}.

(** X5.  [wait_for_rate_limit] does not block a client whose snapshot shows
    at least [min_remaining] requests left, nor one whose snapshot has no
    reset time: it returns at once, the world unchanged (no request, no
    sleep, the clock not read). *)
Theorem wait_for_rate_limit_passes min_remaining w rl r :
  _rate_limit w = VDict rl -> rl <> [] ->
  as_int (dict_get rl "remaining" (VInt 0)) = Ok r ->
  (min_remaining <= r)%Z \/ truthy (dict_get rl "resetAt" (VStr "")) = false ->
  wait_for_rate_limit min_remaining w = Some (Ok tt, w).
Proof.
  intros Hrl Hne Hr Hpass. unfold wait_for_rate_limit. mcbn. rewrite Hrl.
  destruct rl as [|entry rl0]; [contradiction|].
  cbn [truthy negb]. mcbn. rewrite Hrl. cbn [py_get]. mcbn. rewrite Hr. mcbn.
  destruct Hpass as [Hge|Hreset].
  - apply Z.ltb_ge in Hge. rewrite Hge. reflexivity.
  - rewrite Hreset, andb_false_r. reflexivity.
Qed.

(** X6.  With a snapshot that shows fewer than [min_remaining] requests left
    and a reset time, [wait_for_rate_limit] reads the clock once; when the
    reset is [secs] seconds away with [secs + 5 > 0] it sleeps exactly
    [secs + 5] seconds and then refreshes the snapshot with the quota probe;
    when [secs + 5 <= 0] (the reset is at least five seconds past) it
    neither sleeps nor refreshes, so the snapshot stays low. *)
Theorem wait_for_rate_limit_low min_remaining w rl r reset_at secs :
  _rate_limit w = VDict rl -> rl <> [] ->
  as_int (dict_get rl "remaining" (VInt 0)) = Ok r -> (r < min_remaining)%Z ->
  dict_get rl "resetAt" (VStr "") = VStr reset_at -> reset_at <> "" ->
  hd_error (clock w) = Some (Ok secs) ->
  wait_for_rate_limit min_remaining w
  = if Qle_bool (secs + 5) 0 then Some (Ok tt, tick w)
    else bind check_rate_limit (fun _ => ret tt) (after_sleep (secs + 5) (tick w)).
Proof.
  intros Hrl Hne Hr Hlow Hreset Hs Hclock. unfold wait_for_rate_limit. mcbn. rewrite Hrl.
  destruct rl as [|entry rl0]; [contradiction|].
  cbn [truthy negb]. mcbn. rewrite Hrl. cbn [py_get]. mcbn. rewrite Hr. mcbn.
  apply Z.ltb_lt in Hlow. rewrite Hlow, Hreset. cbn [truthy andb].
  apply String.eqb_neq in Hs. rewrite Hs. cbn [negb].
  unfold calculate_wait_time. mcbn.
  destruct (clock w) as [|c clk] eqn:Hc; [discriminate Hclock|].
  cbn [hd_error] in Hclock. inversion Hclock; subst c.
  unfold bind at 1. unfold seconds_until. rewrite Hc. mcbn.
  unfold tick. rewrite Hc, Hrl. cbn [tl].
  destruct (Qle_bool (secs + 5) 0) eqn:Hw.
  - assert (Hmax : Qmax 0 (secs + 5) = 0%Q).
    { unfold Qmax, GenericMinMax.gmax. apply Qle_bool_iff in Hw.
      destruct (0 ?= secs + 5)%Q eqn:Hcmp; try reflexivity.
      apply Qlt_alt in Hcmp. exfalso. now apply (Qlt_not_le _ _ Hcmp). }
    rewrite Hmax. reflexivity.
  - assert (Hmax : Qmax 0 (secs + 5) = (secs + 5)%Q).
    { unfold Qmax, GenericMinMax.gmax.
      destruct (0 ?= secs + 5)%Q eqn:Hcmp; try reflexivity; exfalso.
      - apply Qeq_alt in Hcmp. assert (Hle : (secs + 5 <= 0)%Q) by (rewrite <- Hcmp; apply Qle_refl).
        apply Qle_bool_iff in Hle. congruence.
      - apply Qgt_alt in Hcmp. apply Qlt_le_weak in Hcmp.
        apply Qle_bool_iff in Hcmp. congruence. }
    rewrite Hmax, Hw. cbn [negb]. mcbn. unfold after_sleep. cbn [script clock _rate_limit _repos trace].
    reflexivity.
Qed.

(** X7.  A client without a snapshot probes the quota first; when the answer
    carries no [rateLimit] object the snapshot is still [None], and both
    [wait_for_rate_limit] and [get_rate_limit_info] raise [AttributeError]
    after that single request. *)
Theorem probe_without_rate_limit min_remaining body d rest clk rows tr :
  assoc "errors" body = None -> assoc "data" body = Some (VDict d) ->
  assoc "rateLimit" d = None ->
  wait_for_rate_limit min_remaining (mkWorld (HttpOk (VDict body) :: rest) clk VNone rows tr)
  = Some (Raise AttributeError,
          mkWorld rest clk VNone rows (Posted RATE_LIMIT_QUERY VNone :: tr))
  /\ get_rate_limit_info (mkWorld (HttpOk (VDict body) :: rest) clk VNone rows tr)
     = Some (Raise AttributeError,
             mkWorld rest clk VNone rows (Posted RATE_LIMIT_QUERY VNone :: tr)).
Proof.
  intros He Hd Hr.
  pose proof (execute_first_attempt _ _ _ _ _
                (execute_body_payload RATE_LIMIT_QUERY VNone body d rest clk VNone
                   rows tr He Hd)) as E.
  unfold dict_get in E. rewrite Hr in E.
  split.
  - unfold wait_for_rate_limit, check_rate_limit. mcbn. cbn [truthy negb]. mcbn.
    rewrite (bind_eq _ _ _ _ _ E). mcbn. reflexivity.
  - unfold get_rate_limit_info, check_rate_limit. mcbn. cbn [truthy negb]. mcbn.
    rewrite (bind_eq _ _ _ _ _ E). mcbn. reflexivity.
Qed.

End Quota.

(** The theorem applies to a client with 4999 requests left. *)
Lemma wait_for_rate_limit_passes_witness :
  wait_for_rate_limit (H := plain_builtins) 100 (warm 4999 [])
  = Some (Ok tt, warm 4999 []).
Proof.
  apply (wait_for_rate_limit_passes (H := plain_builtins) 100 (warm 4999 [])
           [ ("remaining", VInt 4999); ("resetAt", VStr "2026-11-03T12:00:00Z");
             ("limit", VInt 5000); ("cost", VInt 1) ] 4999).
  - reflexivity.
  - discriminate.
  - reflexivity.
  - left. vm_compute. discriminate.
Defined.

(** The theorem applies to a client with 3 requests left, 55 seconds before
    the reset: it sleeps 60 seconds and probes the quota. *)
Lemma wait_for_rate_limit_low_witness :
  wait_for_rate_limit (H := plain_builtins) 100 low_quota
  = Some (Ok tt,
          mkWorld [] [] (rate_snapshot 5000) []
            [Posted RATE_LIMIT_QUERY VNone; Slept (55 + 5)]).
Proof.
  rewrite (wait_for_rate_limit_low (H := plain_builtins) 100 low_quota
             [ ("remaining", VInt 3); ("resetAt", VStr "2026-11-03T12:00:00Z");
               ("limit", VInt 5000); ("cost", VInt 1) ] 3 "2026-11-03T12:00:00Z" 55).
  - reflexivity.
  - reflexivity.
  - discriminate.
  - reflexivity.
  - vm_compute. reflexivity.
  - reflexivity.
  - discriminate.
  - reflexivity.
Defined.

(** The theorem applies to such an answer. *)
Lemma probe_without_rate_limit_witness :
  wait_for_rate_limit (H := plain_builtins) 100 (fresh [HttpOk (VDict no_quota_body)])
  = Some (Raise AttributeError,
          mkWorld [] [] VNone [] [Posted RATE_LIMIT_QUERY VNone]).
Proof.
  exact (proj1 (probe_without_rate_limit (H := plain_builtins) 100 no_quota_body
                  [("viewer", VDict [("login", VStr "ana")])] [] [] [] []
                  eq_refl eq_refl eq_refl)).
Defined.

(** * More on the extraction *)

Lemma rbind_ok {A B} (m : res A) (k : A -> res B) b :
  rbind m k = Ok b -> exists a, m = Ok a /\ k a = Ok b.
Proof. destruct m as [a|e]; [eauto|discriminate]. Qed.

(** Peels the first [rbind] of a run that returned, forgetting its value. *)
Ltac skip_rbind H :=
  let a := fresh "a" in
  apply rbind_ok in H as (a & _ & H).

Section Extraction3.
Local Open Scope res_scope.

Lemma extract_languages_list node v :
  extract_languages node = Ok v -> exists l, v = VList l.
Proof.
  unfold extract_languages. intros E.
  step_rbind E. destruct (truthy a).
  - do 3 step_rbind E. injection E as <-. eauto.
  - injection E as <-. eauto.
Qed.

Lemma extract_topics_list node v :
  extract_topics node = Ok v -> exists l, v = VList l.
Proof.
  unfold extract_topics. intros E.
  step_rbind E. destruct (truthy a).
  - do 3 step_rbind E. injection E as <-. eauto.
  - injection E as <-. eauto.
Qed.

(** What a record returned for a truthy node is made of. *)
Lemma extract_repo_data_fields node fields :
  truthy node = true -> extract_repo_data node = Ok (VDict fields) ->
  exists langs tops,
    extract_languages node = Ok langs /\ extract_topics node = Ok tops
    /\ assoc "languages" fields = Some langs /\ assoc "topics" fields = Some tops
    /\ map fst fields = record_keys.
Proof.
  unfold extract_repo_data. intros T E. rewrite T in E. cbn [negb] in E.
  do 2 skip_rbind E.
  apply rbind_ok in E as (langs & EL & E).
  apply rbind_ok in E as (tops & ET & E).
  repeat skip_rbind E.
  injection E as <-.
  exists langs, tops. repeat split; assumption.
Qed.

(** A record returned for a truthy node is a dict with the 33 keys. *)
Lemma extract_repo_data_record node r :
  truthy node = true -> extract_repo_data node = Ok r ->
  exists fields, r = VDict fields /\ map fst fields = record_keys.
Proof.
  intros T E.
  assert (D : exists fields, r = VDict fields).
  { unfold extract_repo_data in E. rewrite T in E. cbn [negb] in E.
    repeat skip_rbind E. injection E as <-. eauto. }
  destruct D as [fields ->]. exists fields. split; [reflexivity|].
  now destruct (extract_repo_data_fields _ _ T E) as (? & ? & _ & _ & _ & _ & K).
Qed.

(** X8.  Whatever the node, a record that [extract_repo_data] returns is
    never partial: it is the empty dict, for a falsy node only, or it has
    exactly the 33 keys of the record, in their order, with lists under
    [languages] and [topics]. *)
Theorem extract_repo_data_all_or_nothing node r :
  extract_repo_data node = Ok r ->
  (truthy node = false /\ r = VDict [])
  \/ (truthy node = true
      /\ exists fields languages topics,
           r = VDict fields /\ map fst fields = record_keys
           /\ assoc "languages" fields = Some (VList languages)
           /\ assoc "topics" fields = Some (VList topics)).
Proof.
  intros E. destruct (truthy node) eqn:T.
  2:{ left. unfold extract_repo_data in E. rewrite T in E. injection E as <-. auto. }
  right. split; [reflexivity|].
  assert (D : exists fields, r = VDict fields).
  { unfold extract_repo_data in E. rewrite T in E. cbn [negb] in E.
    repeat skip_rbind E. injection E as <-. eauto. }
  destruct D as [fields ->].
  destruct (extract_repo_data_fields _ _ T E) as (langs & tops & EL & ET & AL & AT & K).
  destruct (extract_languages_list _ _ EL) as [l ->].
  destruct (extract_topics_list _ _ ET) as [t ->].
  exists fields, l, t. repeat split; assumption.
Qed.

Lemma comprehension_names items : forall l,
  comprehension (fun lang => Ok (truthy lang))
    (fun lang => py_get lang "name" VNone) items = Ok l ->
  l = map name_of (filter truthy items).
Proof.
  induction items as [|x items IH]; intros l E; cbn [comprehension rbind] in E.
  - injection E as <-. reflexivity.
  - cbn [filter]. destruct (truthy x) eqn:T.
    + apply rbind_ok in E as (y & Ey & E). apply rbind_ok in E as (ys & Eys & E).
      injection E as <-. cbn [map]. rewrite <- (IH _ Eys). f_equal.
      destruct x; try discriminate Ey. cbn [py_get] in Ey. injection Ey as <-.
      reflexivity.
    + now apply IH.
Qed.

Lemma comprehension_topic_names items : forall l,
  comprehension
    (fun node =>
       if truthy node then
         t <- py_get node "topic" VNone ;; Ok (truthy t)
       else Ok false)
    (fun node =>
       t <- py_get node "topic" (VDict []) ;;
       py_get t "name" VNone) items = Ok l ->
  l = map (fun node => name_of (topic_of node)) (filter has_topic items).
Proof.
  induction items as [|x items IH]; intros l E; cbn [comprehension rbind] in E.
  - injection E as <-. reflexivity.
  - cbn [filter]. unfold has_topic at 1. destruct (truthy x) eqn:T; cbn [andb].
    + apply rbind_ok in E as (c & Ec & E). apply rbind_ok in Ec as (t & Et & Ec).
      injection Ec as <-.
      destruct x as [| | | | |d]; try discriminate Et.
      cbn [py_get] in Et. injection Et as <-. cbn [topic_of].
      destruct (truthy (dict_get d "topic" VNone)) eqn:Tt.
      * apply rbind_ok in E as (y & Ey & E). apply rbind_ok in E as (ys & Eys & E).
        injection E as <-. cbn [map topic_of]. rewrite <- (IH _ Eys). f_equal.
        cbn [py_get rbind] in Ey.
        rewrite (dict_get_truthy d "topic" VNone (VDict []) Tt eq_refl) in Ey.
        destruct (dict_get d "topic" VNone); try discriminate Ey.
        cbn [py_get] in Ey. injection Ey as <-. reflexivity.
      * now apply IH.
    + now apply IH.
Qed.

Lemma extract_languages_names d c items langs :
  dict_get d "languages" (VDict []) = VDict c -> c <> [] ->
  dict_get c "nodes" (VList []) = VList items ->
  extract_languages (VDict d) = Ok langs ->
  langs = VList (map name_of (filter truthy items)).
Proof.
  intros Hc Hcne Hitems. unfold extract_languages, py_get at 1. cbn [rbind].
  rewrite Hc. destruct c as [|kv c']; [contradiction|].
  cbn [truthy]. unfold py_get at 1. cbn [rbind]. rewrite Hitems. cbn [py_iter rbind].
  intros EL. apply rbind_ok in EL as (l & El & EL). injection EL as <-.
  f_equal. now apply comprehension_names.
Qed.

Lemma extract_topics_names d c items tops :
  dict_get d "repositoryTopics" (VDict []) = VDict c -> c <> [] ->
  dict_get c "nodes" (VList []) = VList items ->
  extract_topics (VDict d) = Ok tops ->
  tops = VList (map (fun node => name_of (topic_of node)) (filter has_topic items)).
Proof.
  intros Hc Hcne Hitems. unfold extract_topics, py_get at 1. cbn [rbind].
  rewrite Hc. destruct c as [|kv c']; [contradiction|].
  cbn [truthy]. unfold py_get at 1. cbn [rbind]. rewrite Hitems. cbn [py_iter rbind].
  intros ET. apply rbind_ok in ET as (l & El & ET). injection ET as <-.
  f_equal. now apply comprehension_topic_names.
Qed.

(** X9.  In a record returned for a node, [languages] holds, in order, the
    name of every language node that is not null ([None] for one without a
    name), and [topics] the topic name of every topic node that is not null
    and has a topic: null entries of the two connections are dropped, nothing
    else is. *)
Theorem extracted_languages_and_topics d fields :
  d <> [] -> extract_repo_data (VDict d) = Ok (VDict fields) ->
  (forall c items,
     dict_get d "languages" (VDict []) = VDict c -> c <> [] ->
     dict_get c "nodes" (VList []) = VList items ->
     assoc "languages" fields = Some (VList (map name_of (filter truthy items))))
  /\ (forall c items,
       dict_get d "repositoryTopics" (VDict []) = VDict c -> c <> [] ->
       dict_get c "nodes" (VList []) = VList items ->
       assoc "topics" fields
       = Some (VList (map (fun node => name_of (topic_of node))
                        (filter has_topic items)))).
Proof.
  intros Hne E.
  assert (T : truthy (VDict d) = true) by (destruct d; [contradiction|reflexivity]).
  destruct (extract_repo_data_fields _ _ T E) as (langs & tops & EL & ET & AL & AT & _).
  split; intros c items Hc Hcne Hitems.
  - rewrite AL. f_equal. eapply extract_languages_names; eassumption.
  - rewrite AT. f_equal. eapply extract_topics_names; eassumption.
Qed.

Lemma rbind_Raise {A B} (e : exn) (k : A -> res B) : rbind (Raise e) k = Raise e.
Proof. reflexivity. Qed.

Lemma extract_repo_data_languages_raise d o e :
  truthy (VDict d) = true ->
  py_or (dict_get d "owner" (VDict [])) (VDict []) = VDict o ->
  extract_languages (VDict d) = Raise e ->
  extract_repo_data (VDict d) = Raise e.
Proof.
  intros T Eo EL. unfold extract_repo_data. rewrite T.
  change (py_get (VDict d) "owner" (VDict [])) with (Ok (dict_get d "owner" (VDict []))).
  cbv beta iota zeta delta [negb rbind]. rewrite Eo.
  change (py_get (VDict o) "__typename" (VStr ""))
    with (Ok (dict_get o "__typename" (VStr ""))).
  cbv beta iota. rewrite EL. reflexivity.
Qed.

(** X10.  A [languages] object whose [nodes] is null is not tolerated: the
    default of [get] does not apply to a key that is present, the
    comprehension iterates over [None], and [extract_repo_data] raises
    [TypeError] (here for a node whose owner is null, absent or an object). *)
Theorem extract_repo_data_null_language_nodes d c :
  is_dict (owner_of d) = true ->
  dict_get d "languages" (VDict []) = VDict c -> c <> [] ->
  assoc "nodes" c = Some VNone ->
  extract_repo_data (VDict d) = Raise TypeError.
Proof.
  intros Ho Hc Hcne Hn.
  assert (T : truthy (VDict d) = true).
  { destruct d; [|reflexivity]. cbn in Hc. injection Hc as <-. contradiction. }
  assert (EL : extract_languages (VDict d) = Raise TypeError).
  { unfold extract_languages, py_get at 1. cbn [rbind]. rewrite Hc.
    destruct c as [|kv c']; [contradiction|]. cbn [truthy].
    unfold py_get at 1, dict_get at 1. rewrite Hn. reflexivity. }
  destruct (owner_of d) as [| | | | |o] eqn:Eo; try discriminate Ho.
  unfold owner_of in Eo.
  apply extract_repo_data_languages_raise with (o := o); assumption.
Qed.

End Extraction3.

(** The theorem applies to a node whose optional sub-objects are all null. *)
Lemma extract_repo_data_all_or_nothing_witness :
  exists fields,
    extract_repo_data (VDict bare_node) = Ok (VDict fields)
    /\ map fst fields = record_keys.
Proof.
  destruct (extract_repo_data_all_or_nothing (VDict bare_node) (extracted (VDict bare_node))
              eq_refl) as [[F _]|(_ & fields & l & t & E & K & _)].
  - discriminate F.
  - exists fields. split; [rewrite <- E; reflexivity|exact K].
Defined.

(** The theorem applies to that repository. *)
Lemma extracted_languages_and_topics_witness :
  assoc "languages" (match extracted (VDict polyglot) with VDict f => f | _ => [] end)
  = Some (VList [VStr "Python"; VStr "C"]).
Proof.
  exact (proj1 (extracted_languages_and_topics polyglot _ ltac:(discriminate) eq_refl)
           _ _ eq_refl ltac:(discriminate) eq_refl).
Defined.

(** The theorem applies to it. *)
Lemma extract_repo_data_null_language_nodes_witness :
  extract_repo_data (VDict null_languages) = Raise TypeError.
Proof.
  apply (extract_repo_data_null_language_nodes null_languages [("nodes", VNone)]);
    [reflexivity|reflexivity|discriminate|reflexivity].
Defined.

(** * Frames of the pagination driver *)

Section SearchFrame.
Context `{Builtins}.
Variables (query : string) (output_path location_filter : option string).
Variable R : world -> world -> Prop.
Hypothesis R_refl : forall w, R w w.
Hypothesis R_trans : forall w1 w2 w3, R w1 w2 -> R w2 w3 -> R w1 w3.
Hypothesis R_quota : forall w w', quiet quota_event w w' -> R w w'.
Hypothesis R_page : forall cursor w w',
  quiet (request_event SEARCH_REPOS_QUERY (search_variables query BATCH_SIZE cursor)) w w' ->
  R w w'.
Hypothesis R_append : forall row w,
  full_record row -> location_matches location_filter row = Ok true ->
  R w (with_repos (_repos w ++ [row]) w).
Hypothesis R_write : forall p w,
  output_path = Some p -> _repos w <> [] -> R w (after_write p w).

Lemma steps_quota {A} (m : M A) : steps (quiet quota_event) m -> steps R m.
Proof. apply steps_weaken. exact R_quota. Qed.

Lemma steps_save_progress p : output_path = Some p -> steps R (_save_progress p).
Proof.
  intros Hp w r w' E. unfold _save_progress, bind, get_repos in E.
  destruct (_repos w) as [|row rows] eqn:Er.
  - injection E as <- <-. apply R_refl.
  - unfold log in E. injection E as <- <-. rewrite <- Er.
    apply R_write; [exact Hp|]. now rewrite Er.
Qed.

Lemma steps_final_save (op : option string) :
  op = output_path ->
  steps R (match op with
           | Some p => _save_progress p
           | None => ret tt
           end).
Proof.
  intros Eo. destruct op as [p|]; [|now apply steps_ret].
  apply steps_save_progress. now symmetry.
Qed.

Lemma steps_checkpoint (op : option string) (c : Z) :
  op = output_path ->
  steps R (match op with
           | Some p => if (c mod SAVE_INTERVAL =? 0)%Z then _save_progress p else ret tt
           | None => ret tt
           end).
Proof.
  intros Eo. destruct op as [p|]; [|now apply steps_ret].
  destruct (c mod SAVE_INTERVAL =? 0)%Z; [|now apply steps_ret].
  apply steps_save_progress. now symmetry.
Qed.

Lemma steps_process_nodes max_repos nodes : forall tm tf,
  steps R (process_nodes max_repos location_filter nodes tm tf).
Proof.
  induction nodes as [|node rest IH]; intros tm tf; cbn [process_nodes].
  - now apply steps_ret.
  - destruct (truthy node) eqn:T; [|apply IH].
    destruct (extract_repo_data node) as [repo_data|e] eqn:Ex.
    2:{ intros w r w' E. unfold bind at 1, lift in E. inversion E; subst. apply R_refl. }
    pose proof (extract_repo_data_record _ _ T Ex) as Hfull.
    apply steps_lift_ok. cbv zeta.
    destruct (location_matches location_filter repo_data) as [[|]|e] eqn:Ek.
    + intros w r w' E. unfold bind at 1, lift in E.
      unfold bind at 1, append_repo, bind, get_repos, set_repos in E.
      apply R_trans with (with_repos (_repos w ++ [repo_data]) w);
        [now apply R_append|].
      destruct (tm + 1 >=? max_repos)%Z.
      * inversion E; subst. apply R_refl.
      * eapply IH. exact E.
    + intros w r w' E. unfold bind at 1, lift in E. eapply IH. exact E.
    + intros w r w' E. unfold bind at 1, lift in E. inversion E; subst. apply R_refl.
Qed.

Lemma steps_search_loop max_repos : forall fuel cursor tm tf,
  steps R (search_loop fuel query max_repos output_path location_filter cursor tm tf).
Proof.
  induction fuel as [|fuel IH]; intros cursor tm tf; cbn [search_loop];
    (destruct (tm <? max_repos)%Z; [|now apply steps_ret]).
  - apply steps_out_of_fuel.
  - apply steps_bind; [assumption|apply steps_quota, steps_wait_for_rate_limit|].
    intros _. cbv zeta.
    apply steps_bind; [assumption| |].
    { eapply steps_weaken; [apply (R_page cursor)|].
      apply steps_try_execute; [split; reflexivity|intros d; exact I]. }
    intros [data|]; [|now apply steps_ret].
    repeat (apply steps_bind; [assumption|now apply steps_lift|intros ?]).
    destruct (negb (truthy a0)); [now apply steps_ret|].
    apply steps_bind; [assumption|now apply steps_lift|intros items].
    apply steps_bind; [assumption|apply steps_process_nodes|intros [tm' tf']].
    apply steps_bind; [assumption|now apply steps_checkpoint|intros _].
    apply steps_bind; [assumption|now apply steps_lift|intros has_next].
    destruct (negb (truthy has_next)); [now apply steps_ret|].
    apply steps_bind; [assumption|now apply steps_lift|intros cursor'].
    apply steps_bind; [assumption|apply steps_quota, steps_remaining_requests|intros _].
    apply IH.
Qed.

(** What [search_repositories] does once it has emptied the buffer. *)
Lemma steps_search_repositories_rest fuel max_repos :
  steps R
    (bind get_rate_limit_info (fun _ =>
     bind (search_loop fuel query max_repos output_path location_filter VNone 0 0)
       (fun _ =>
     bind (match output_path with
           | Some p => _save_progress p
           | None => ret tt
           end) (fun _ =>
     bind get_rate_limit_info (fun _ => get_repos))))).
Proof.
  apply steps_bind; [assumption|apply steps_quota, steps_get_rate_limit_info|intros _].
  apply steps_bind; [assumption|apply steps_search_loop|intros _].
  apply steps_bind; [assumption|now apply steps_final_save|intros _].
  apply steps_bind; [assumption|apply steps_quota, steps_get_rate_limit_info|intros _].
  intros w r w' E. inversion E; subst. apply R_refl.
Qed.

End SearchFrame.

(** ** The three invariants of the pagination driver *)

Lemma is_prefix_refl {A} (l : list A) : is_prefix l l.
Proof. exists []. now rewrite app_nil_r. Qed.

Lemma is_prefix_trans {A} (a b c : list A) : is_prefix a b -> is_prefix b c -> is_prefix a c.
Proof. intros [t1 ->] [t2 ->]. exists (t1 ++ t2). now rewrite app_assoc. Qed.

Lemma checkpoint_of_mono op rows rows' ev :
  is_prefix rows rows' -> checkpoint_of op rows ev -> checkpoint_of op rows' ev.
Proof.
  intros Hp. destruct ev; cbn; auto. intros (Ho & Hn & Hw).
  repeat split; auto. eapply is_prefix_trans; eassumption.
Qed.




Lemma quota_not_written ev : quota_event ev -> not_written ev.
Proof. destruct ev; cbn; auto. Qed.


Lemma quota_search_event q ev : quota_event ev -> search_event q ev.
Proof. destruct ev as [t v| |]; cbn; auto. destruct t, v; cbn; auto; contradiction. Qed.

Lemma page_search_event q cursor ev :
  request_event SEARCH_REPOS_QUERY (search_variables q BATCH_SIZE cursor) ev ->
  search_event q ev.
Proof.
  destruct ev as [t v| |]; cbn; auto. intros [-> ->]. now exists cursor.
Qed.


Lemma location_matches_located loc row :
  loc <> "" -> location_matches (Some loc) row = Ok true -> located_in loc row.
Proof.
  intros Hne. unfold location_matches. apply String.eqb_neq in Hne. rewrite Hne.
  destruct row as [| | | | |fields]; try discriminate. cbn [py_get rbind].
  destruct (py_or (dict_get fields "owner_location" VNone) (VStr "")) as [| | |l| |] eqn:El;
    try discriminate.
  cbn [py_lower rbind]. intros E. injection E as E.
  exists fields, l. auto.
Qed.

Section SearchInvariants.
Context `{Builtins}.

(** X11.  With a location filter that is not empty, every record that
    [search_repositories] returns has an owner location (the empty string
    for a null one) that contains the filter, the case of the letters being
    ignored on both sides. *)
Theorem search_repositories_location_sound fuel query max_repos output_path
    location w rows w' :
  location <> "" ->
  search_repositories fuel query max_repos output_path (Some location) w
  = Some (Ok rows, w') ->
  Forall (located_in location) rows.
Proof.
  intros Hne E. unfold search_repositories in E.
  unfold bind at 1, set_repos in E.
  pose (R := fun v v' : world =>
               Forall (located_in location) (_repos v) ->
               Forall (located_in location) (_repos v')).
  assert (S : R (mkWorld (script w) (clock w) (_rate_limit w) [] (trace w)) w').
  { eapply (steps_search_repositories_rest query output_path (Some location) R);
      try exact E; unfold R.
    - auto.
    - auto.
    - intros v v' [Hr _]. now rewrite Hr.
    - intros cursor v v' [Hr _]. now rewrite Hr.
    - intros row v _ Hk Hf. cbn [with_repos _repos]. apply Forall_app. split; [exact Hf|].
      repeat constructor. now apply location_matches_located.
    - intros p v _ _ Hf. exact Hf. }
  specialize (S (Forall_nil _)).
  repeat (apply bind_ok_inv in E as (? & ? & _ & E)).
  unfold get_repos in E. injection E as <- <-. exact S.
Qed.


(** X13.  Besides sleeping, refreshing the quota with the bare probe and
    writing files, [search_repositories] only posts [SEARCH_REPOS_QUERY] with
    the query string it was given and a page size of 10. *)
Theorem search_repositories_requests fuel query max_repos output_path
    location_filter w r w' :
  search_repositories fuel query max_repos output_path location_filter w
  = Some (r, w') ->
  exists new, trace w' = new ++ trace w /\ Forall (search_event query) new.
Proof.
  intros E. unfold search_repositories in E.
  unfold bind at 1, set_repos in E.
  apply (steps_search_repositories_rest query output_path location_filter
           (added (search_event query))) in E.
  - exact E.
  - apply added_refl.
  - apply added_trans.
  - intros v v' [_ A]. eapply added_weaken; [|exact A]. apply quota_search_event.
  - intros cursor v v' [_ A]. eapply added_weaken; [|exact A]. apply page_search_event.
  - intros row v _ _. now apply added_same.
  - intros p v _ _. now apply added_one with (ev := Written p (_repos v)).
Qed.

End SearchInvariants.

(** The theorem applies to two scripted pages filtered on "Peru". *)
Lemma search_repositories_location_sound_witness :
  Forall (located_in "Peru")
    [extracted (repo_in "Lima, Peru"); extracted (repo_in "Arequipa, Peru")].
Proof.
  apply (search_repositories_location_sound (H := plain_builtins) 2
           "stars:>=5 sort:stars" 1000 (Some "out.parquet") "Peru"
           (warm 4999 (script_of two_pages)) _
           (world_of two_pages_saved (fresh []))).
  - discriminate.
  - vm_compute. reflexivity.
Defined.


(** The theorem applies to the same run. *)
Lemma search_repositories_requests_witness :
  exists new,
    trace (world_of two_pages_saved (fresh [])) = new ++ []
    /\ Forall (search_event "stars:>=5 sort:stars") new.
Proof.
  apply (search_repositories_requests (H := plain_builtins) 2
           "stars:>=5 sort:stars" 1000 (Some "out.parquet") (Some "Peru")
           (warm 4999 (script_of two_pages))
           (Ok [extracted (repo_in "Lima, Peru"); extracted (repo_in "Arequipa, Peru")])
           (world_of two_pages_saved (fresh []))).
  vm_compute. reflexivity.
Defined.

(** * The query builder and the single-repository fetch *)

Lemma prefix_append (n b : string) : prefix n (n ++ b) = true.
Proof.
  induction n as [|c n IH]; cbn; [now destruct b|].
  destruct (Ascii.ascii_dec c c) as [_|Hc]; [exact IH|contradiction].
Qed.

Lemma is_substring_here (n b : string) : is_substring n (n ++ b) = true.
Proof.
  destruct (n ++ b)%string eqn:E; cbn [is_substring]; rewrite <- E, prefix_append;
    reflexivity.
Qed.

Lemma is_substring_append (a n b : string) : is_substring n (a ++ n ++ b) = true.
Proof.
  induction a as [|c a IH]; [cbn [append]; apply is_substring_here|].
  cbn [append is_substring]. rewrite IH. apply orb_true_r.
Qed.

Lemma string_app_assoc (a b c : string) : ((a ++ b) ++ c = a ++ b ++ c)%string.
Proof. induction a as [|x a IH]; [reflexivity|]. cbn [append]. now rewrite IH. Qed.

Lemma is_substring_append2 (a a' n b : string) :
  is_substring n (a ++ a' ++ n ++ b) = true.
Proof. rewrite <- string_app_assoc. apply is_substring_append. Qed.

Lemma is_substring_empty (n : string) : n <> "" -> is_substring n "" = false.
Proof. destruct n; [contradiction|reflexivity]. Qed.

Section QueryBuilder.
Context `{Builtins}.

Lemma build_search_query_has_stars language min_stars custom_query :
  is_substring "stars:" (build_search_query language min_stars custom_query) = true.
Proof.
  unfold build_search_query.
  destruct (opt_truthy custom_query).
  - destruct (is_substring "stars:" (opt_text custom_query)) eqn:E; cbn [negb];
      [exact E|].
    apply (is_substring_append2 (opt_text custom_query) " " "stars:"
             (">=" ++ fmt (VInt min_stars))).
  - cbv zeta. destruct (opt_truthy language); cbn [app join_with].
    + apply (is_substring_append2 ("language:" ++ opt_text language) " " "stars:"
               (">=" ++ fmt (VInt min_stars) ++ " " ++ "sort:stars")).
    + apply (is_substring_append "" "stars:"
               (">=" ++ fmt (VInt min_stars) ++ " " ++ "sort:stars")).
Qed.

(** X14.  The text [stars:] occurs in every query built by
    [build_search_query].  The builder tests the text of the custom query,
    not its qualifiers: a custom query that is not empty and in which
    [stars:] occurs anywhere, also inside another word, is returned as it is
    and [min_stars] is not used; one in which it does not occur is followed
    by [stars:>=min_stars].  So what the builder returns is a fixed point of
    it: given back as a custom query, with any other language or threshold,
    it is returned unchanged. *)
Theorem build_search_query_stars language min_stars custom_query :
  is_substring "stars:" (build_search_query language min_stars custom_query) = true
  /\ (forall custom, custom_query = Some custom -> custom <> "" ->
        build_search_query language min_stars custom_query
        = if is_substring "stars:" custom then custom
          else (custom ++ " stars:>=" ++ fmt (VInt min_stars))%string)
  /\ (forall language' min_stars',
        build_search_query language' min_stars'
          (Some (build_search_query language min_stars custom_query))
        = build_search_query language min_stars custom_query).
Proof.
  pose proof (build_search_query_has_stars language min_stars custom_query) as Hs.
  split; [exact Hs|]. split.
  - intros custom -> Hne. unfold build_search_query. cbn [opt_truthy opt_text].
    apply String.eqb_neq in Hne. rewrite Hne. cbn [negb].
    now destruct (is_substring "stars:" custom).
  - intros language' min_stars'.
    set (q := build_search_query language min_stars custom_query) in *.
    unfold build_search_query at 1. cbn [opt_truthy opt_text].
    destruct (q =? "") eqn:Eq.
    + apply String.eqb_eq in Eq. rewrite Eq in Hs. discriminate Hs.
    + cbn [negb]. rewrite Hs. reflexivity.
Qed.

End QueryBuilder.

(** The theorem applies to a custom query in which [stars:] is only the end
    of another word: it is returned as it is, without a star threshold. *)
Lemma build_search_query_stars_witness :
  build_search_query (H := plain_builtins) None 50 (Some "topic:rockstars:demo")
  = "topic:rockstars:demo".
Proof.
  exact (proj1 (proj2 (build_search_query_stars (H := plain_builtins) None 50
                         (Some "topic:rockstars:demo")))
           "topic:rockstars:demo" eq_refl ltac:(discriminate)).
Defined.


Lemma length_split_on c s : List.length (split_on c s) = S (occurrences c s).
Proof.
  induction s as [|a s IH]; [reflexivity|]. cbn [split_on occurrences].
  destruct (Ascii.eqb a c).
  - cbn [List.length]. now rewrite IH.
  - destruct (split_on c s) as [|part parts]; [discriminate IH|exact IH].
Qed.

Lemma split_on_whole c s : occurrences c s = 0%nat -> split_on c s = [s].
Proof.
  induction s as [|a s IH]; [reflexivity|]. cbn [split_on occurrences].
  destruct (Ascii.eqb a c); [discriminate|]. intros Hs. now rewrite (IH Hs).
Qed.

Lemma split_on_append c a b :
  occurrences c a = 0%nat ->
  split_on c (a ++ String c b) = a :: split_on c b.
Proof.
  induction a as [|x a IH]; cbn [append split_on occurrences].
  - now rewrite Ascii.eqb_refl.
  - destruct (Ascii.eqb x c); [discriminate|]. intros Ha. now rewrite (IH Ha).
Qed.

Section SingleRepository.
Context `{Builtins}.

(** X15.  [fetch_repo_details] refuses a name that does not hold exactly one
    slash: it raises the [ValueError] naming the argument before anything is
    done; no request is posted and the quota is not looked at. *)
Theorem fetch_repo_details_invalid_nwo nwo w :
  occurrences slash nwo <> 1%nat ->
  fetch_repo_details nwo w
  = Some (Raise (ValueError ("Invalid nwo format: " ++ nwo ++ ". Expected 'owner/name'")),
          w).
Proof.
  intros Hn. unfold fetch_repo_details. cbv zeta.
  assert (E : (len (split_on slash nwo) =? 2)%Z = false).
  { unfold len. rewrite length_split_on. apply Z.eqb_neq. lia. }
  rewrite E. reflexivity.
Qed.

(** X16.  For a name [owner/name], [fetch_repo_details] always finishes.
    It leaves the buffer alone and adds to the trace only quota events and
    requests of [SINGLE_REPO_QUERY] for that owner and that name.  The only
    exception that leaves it is one of the wait on the quota, which is
    outside the [try]: a failure of the request, of the response or of the
    extraction gives [None].  A result that is not [None] is a record with
    the 33 keys. *)
Theorem fetch_repo_details_contained owner name w :
  occurrences slash owner = 0%nat -> occurrences slash name = 0%nat ->
  exists r w',
    fetch_repo_details (owner ++ "/" ++ name) w = Some (r, w')
    /\ quiet (fun ev => quota_event ev
                        \/ request_event SINGLE_REPO_QUERY
                             (VDict [("owner", VStr owner); ("name", VStr name)]) ev)
             w w'
    /\ (forall e, r = Raise e ->
        wait_for_rate_limit MIN_RATE_LIMIT w = Some (Raise e, w'))
    /\ (forall record, r = Ok (Some record) ->
        exists fields, record = VDict fields /\ map fst fields = record_keys).
Proof.
  intros Ho Hn. unfold fetch_repo_details. cbv zeta.
  change (owner ++ "/" ++ name)%string with (owner ++ String slash name)%string.
  rewrite (split_on_append _ _ _ Ho), (split_on_whole _ _ Hn).
  cbn [len List.length Z.of_nat Pos.of_succ_nat Pos.succ Z.eqb Pos.eqb negb].
  set (variables := VDict [("owner", VStr owner); ("name", VStr name)]).
  set (P := fun ev => quota_event ev \/ request_event SINGLE_REPO_QUERY variables ev).
  destruct (safe_wait_for_rate_limit MIN_RATE_LIMIT w) as (r1 & w1 & Ew & _).
  assert (Q1 : quiet P w w1).
  { apply (quiet_weaken quota_event); [now left|].
    exact (steps_wait_for_rate_limit _ _ _ _ Ew). }
  destruct r1 as [[]|e1]; [rewrite (bind_eq _ _ _ _ _ Ew)|unfold bind at 1; rewrite Ew].
  2:{ exists (Raise e1), w1. repeat split; try apply Q1.
      - intros e He. injection He as <-. reflexivity.
      - discriminate. }
  destruct (safe_execute SINGLE_REPO_QUERY variables w1) as (r2 & w2 & Ex & _).
  assert (Q2 : quiet P w w2).
  { apply (quiet_trans _ _ w1); [exact Q1|].
    refine (steps_execute P _ _ _ _ _ _ _ Ex); [right; now split|intros d; now left]. }
  unfold try_except, bind at 1. rewrite Ex.
  assert (None_ok : exists (r : res (option value)) w',
             Some (Ok (@None value), w2) = Some (r, w') /\ quiet P w w'
             /\ (forall e, r = Raise e ->
                 wait_for_rate_limit MIN_RATE_LIMIT w = Some (Raise e, w'))
             /\ (forall record, r = Ok (Some record) ->
                 exists fields, record = VDict fields /\ map fst fields = record_keys)).
  { exists (Ok None), w2. repeat split; try apply Q2; discriminate. }
  destruct r2 as [data|e2]; [|exact None_ok].
  unfold bind at 1, lift.
  destruct (py_get data "repository" VNone) as [repo_node|e3]; [|exact None_ok].
  destruct (truthy repo_node) eqn:T; [|exact None_ok].
  unfold bind, lift, ret.
  destruct (extract_repo_data repo_node) as [repo_data|e4] eqn:Ed; [|exact None_ok].
  exists (Ok (Some repo_data)), w2. repeat split; try apply Q2; try discriminate.
  intros record Hrec. injection Hrec as <-.
  now apply (extract_repo_data_record repo_node).
Qed.

End SingleRepository.

(** The theorem applies to a name with two slashes. *)
Lemma fetch_repo_details_invalid_nwo_witness :
  fetch_repo_details (H := plain_builtins) "microsoft/vscode/issues" (fresh [])
  = Some (Raise (ValueError
                   "Invalid nwo format: microsoft/vscode/issues. Expected 'owner/name'"),
          fresh []).
Proof.
  apply (fetch_repo_details_invalid_nwo (H := plain_builtins)
           "microsoft/vscode/issues" (fresh [])).
  vm_compute. discriminate.
Defined.

(** The theorem applies to [microsoft/vscode] and a scripted answer. *)
Lemma fetch_repo_details_contained_witness :
  exists r w',
    fetch_repo_details (H := plain_builtins) "microsoft/vscode" one_repository
    = Some (r, w')
    /\ quiet (fun ev => quota_event ev
                        \/ request_event SINGLE_REPO_QUERY
                             (VDict [("owner", VStr "microsoft"); ("name", VStr "vscode")])
                             ev)
             one_repository w'
    /\ (forall e, r = Raise e ->
        wait_for_rate_limit (H := plain_builtins) MIN_RATE_LIMIT one_repository
        = Some (Raise e, w'))
    /\ (forall record, r = Ok (Some record) ->
        exists fields, record = VDict fields /\ map fst fields = record_keys).
Proof.
  exact (fetch_repo_details_contained (H := plain_builtins) "microsoft" "vscode"
           one_repository eq_refl eq_refl).
Defined.

(** * The search entry points *)

Section SearchEntryPoints.
Context `{Builtins}.

(** The requests of a search and the rows it returns, in one frame. *)
Lemma search_repositories_rows_events fuel query max_repos op lf (P : value -> Prop)
    w r w' :
  (forall row, full_record row -> location_matches lf row = Ok true -> P row) ->
  search_repositories fuel query max_repos op lf w = Some (r, w') ->
  added (search_event query) w w' /\ (forall rows, r = Ok rows -> Forall P rows).
Proof.
  intros HP E. unfold search_repositories in E.
  unfold bind at 1, set_repos in E.
  pose (R := fun v v' : world =>
               added (search_event query) v v'
               /\ (Forall P (_repos v) -> Forall P (_repos v'))).
  assert (S : R (mkWorld (script w) (clock w) (_rate_limit w) [] (trace w)) w').
  { eapply (steps_search_repositories_rest query op lf R); try exact E; unfold R.
    - intros v. split; [apply added_refl|auto].
    - intros v1 v2 v3 [A1 F1] [A2 F2]. split; [eapply added_trans; eassumption|auto].
    - intros v v' [Hr A]. split; [|now rewrite Hr].
      eapply added_weaken; [|exact A]. apply quota_search_event.
    - intros cursor v v' [Hr A]. split; [|now rewrite Hr].
      eapply added_weaken; [|exact A]. apply page_search_event.
    - intros row v Hfull Hk. split; [now apply added_same|].
      intros Hf. cbn [with_repos _repos]. apply Forall_app. split; [exact Hf|].
      repeat constructor. now apply HP.
    - intros p v _ _. split; [|auto].
      now apply added_one with (ev := Written p (_repos v)). }
  destruct S as [A F]. split; [exact A|].
  intros rows ->. specialize (F (Forall_nil _)).
  repeat (apply bind_ok_inv in E as (? & ? & _ & E)).
  unfold get_repos in E. injection E as <- <-. exact F.
Qed.

(** X17.  Every row that [search_repositories] returns is a record with the
    33 keys of [extract_repo_data], with or without a location filter: the
    rows of a run all have the same columns. *)
Theorem search_repositories_full_records fuel query max_repos output_path
    location_filter w rows w' :
  search_repositories fuel query max_repos output_path location_filter w
  = Some (Ok rows, w') ->
  Forall full_record rows.
Proof.
  intros E.
  destruct (search_repositories_rows_events _ _ _ _ _ full_record _ _ _
              (fun row Hfull _ => Hfull) E) as [_ F].
  now apply F.
Qed.

(** X18.  [fetch_by_location] finishes on every finite script of responses.
    The location is no part of the query it posts, which is built from the
    language and [min_stars] alone: the location only filters the rows, so
    that at most [max_repos] rows are returned and each has an owner location
    that contains the location, the case of the letters being ignored. *)
Theorem fetch_by_location_filters_rows fuel location min_stars language max_repos
    output_path w :
  location <> "" ->
  (List.length (script w) < fuel)%nat ->
  exists r w',
    fetch_by_location fuel location min_stars language max_repos output_path w
    = Some (r, w')
    /\ added (search_event (build_search_query language min_stars None)) w w'
    /\ (forall rows, r = Ok rows ->
          (len rows <= Z.max 0 max_repos)%Z /\ Forall (located_in location) rows).
Proof.
  intros Hne Hfuel. unfold fetch_by_location. cbv zeta.
  destruct (search_repositories_bounded fuel (build_search_query language min_stars None)
              max_repos output_path (Some location) w Hfuel) as (r & w' & E & B).
  exists r, w'. split; [exact E|].
  destruct (search_repositories_rows_events _ _ _ _ _ (located_in location) _ _ _
              (fun row _ => location_matches_located location row Hne) E) as [A F].
  split; [exact A|]. intros rows Hr. split; [now apply B|now apply F].
Qed.

(** X19.  [fetch_by_query] finishes on every finite script of responses and
    returns at most [max_repos] rows.  Every page it posts carries the same
    query: the custom query itself when the text [stars:] occurs anywhere in
    it ([min_stars] is then not used, also when the text is only part of
    another word), the custom query followed by [stars:>=min_stars] when it
    does not occur, and [stars:>=min_stars sort:stars] when the custom query
    is empty. *)
Theorem fetch_by_query_requests fuel custom_query min_stars max_repos output_path w :
  (List.length (script w) < fuel)%nat ->
  exists r w',
    fetch_by_query fuel custom_query min_stars max_repos output_path w = Some (r, w')
    /\ added (search_event
                (if custom_query =? ""
                 then "stars:>=" ++ fmt (VInt min_stars) ++ " sort:stars"
                 else if is_substring "stars:" custom_query then custom_query
                 else custom_query ++ " stars:>=" ++ fmt (VInt min_stars))%string)
         w w'
    /\ (forall rows, r = Ok rows -> (len rows <= Z.max 0 max_repos)%Z).
Proof.
  intros Hfuel. unfold fetch_by_query. cbv zeta.
  set (query := build_search_query None min_stars (Some custom_query)).
  destruct (search_repositories_bounded fuel query max_repos output_path None w Hfuel)
    as (r & w' & E & B).
  exists r, w'. split; [exact E|].
  destruct (search_repositories_rows_events _ _ _ _ _ (fun _ => True) _ _ _
              (fun _ _ _ => I) E) as [A _].
  split; [|exact B].
  replace (if custom_query =? ""
           then "stars:>=" ++ fmt (VInt min_stars) ++ " sort:stars"
           else if is_substring "stars:" custom_query then custom_query
           else custom_query ++ " stars:>=" ++ fmt (VInt min_stars))%string
    with query; [exact A|].
  unfold query, build_search_query. cbn [opt_truthy opt_text].
  destruct (custom_query =? "") eqn:Ec; cbn [negb]; [reflexivity|].
  now destruct (is_substring "stars:" custom_query).
Qed.

(** X20.  With [max_repos] zero or negative, [search_repositories] asks for
    no page at all: it empties the buffer, gives the empty list, and writes
    no file even with an output path; the only requests it can make are the
    bare quota probes of [get_rate_limit_info]. *)
Theorem search_repositories_nothing_wanted fuel query max_repos output_path
    location_filter w :
  (max_repos <= 0)%Z ->
  exists r w',
    search_repositories fuel query max_repos output_path location_filter w
    = Some (r, w')
    /\ _repos w' = []
    /\ added quota_event w w'
    /\ (forall rows, r = Ok rows -> rows = []).
Proof.
  intros Hm. unfold search_repositories.
  unfold bind at 1, set_repos.
  set (w0 := mkWorld (script w) (clock w) (_rate_limit w) [] (trace w)).
  assert (L : forall c, search_loop fuel query max_repos output_path location_filter c 0 0
                        = ret (0%Z, 0%Z)).
  { intros c. assert (Hlt : (0 <? max_repos)%Z = false) by (apply Z.ltb_ge; lia).
    destruct fuel; cbn [search_loop]; rewrite Hlt; reflexivity. }
  rewrite L.
  destruct (safe_get_rate_limit_info w0) as (r1 & w1 & E1 & _).
  destruct (steps_get_rate_limit_info _ _ _ E1) as [R1 A1]. cbn [w0 _repos] in R1.
  unfold bind at 1. rewrite E1. destruct r1 as [[]|e1].
  2:{ exists (Raise e1), w1. repeat split; [exact R1|exact A1|discriminate]. }
  unfold bind at 1, ret at 1.
  assert (Es : (match output_path with Some p => _save_progress p | None => ret tt end) w1
               = Some (Ok tt, w1)).
  { destruct output_path as [p|]; [|reflexivity].
    unfold _save_progress, bind, get_repos. rewrite R1. reflexivity. }
  unfold bind at 1. rewrite Es.
  destruct (safe_get_rate_limit_info w1) as (r2 & w2 & E2 & _).
  destruct (steps_get_rate_limit_info _ _ _ E2) as [R2 A2].
  assert (A : added quota_event w w2) by (eapply added_trans; [exact A1|exact A2]).
  unfold bind at 1. rewrite E2. destruct r2 as [[]|e2].
  2:{ exists (Raise e2), w2. repeat split; [congruence|exact A|discriminate]. }
  unfold get_repos. exists (Ok (_repos w2)), w2.
  repeat split; [congruence|exact A|]. intros rows Hr. injection Hr as <-. congruence.
Qed.

End SearchEntryPoints.

(** The theorem applies to the two rows of [two_pages_saved]. *)
Lemma search_repositories_full_records_witness :
  Forall full_record
    [extracted (repo_in "Lima, Peru"); extracted (repo_in "Arequipa, Peru")].
Proof.
  apply (search_repositories_full_records (H := plain_builtins) 2
           "stars:>=5 sort:stars" 1000 (Some "out.parquet") (Some "Peru")
           (warm 4999 (script_of two_pages)) _
           (world_of two_pages_saved (fresh []))).
  vm_compute. reflexivity.
Defined.

(** The theorem applies to two scripted pages filtered on "Peru". *)
Lemma fetch_by_location_filters_rows_witness :
  exists r w',
    fetch_by_location (H := plain_builtins) 3 "Peru" 5 (Some "Python") 1000 None
      (warm 4999 (script_of two_pages)) = Some (r, w')
    /\ added (search_event "language:Python stars:>=5 sort:stars")
         (warm 4999 (script_of two_pages)) w'
    /\ (forall rows, r = Ok rows ->
          (len rows <= 1000)%Z /\ Forall (located_in "Peru") rows).
Proof.
  apply (fetch_by_location_filters_rows (H := plain_builtins) 3 "Peru" 5 (Some "Python")
           1000 None (warm 4999 (script_of two_pages))).
  - discriminate.
  - vm_compute. lia.
Defined.

(** The theorem applies to a custom query without a [stars:] qualifier. *)
Lemma fetch_by_query_requests_witness :
  exists r w',
    fetch_by_query (H := plain_builtins) 3 "topic:maps" 5 1000 None
      (warm 4999 (script_of two_pages)) = Some (r, w')
    /\ added (search_event "topic:maps stars:>=5") (warm 4999 (script_of two_pages)) w'
    /\ (forall rows, r = Ok rows -> (len rows <= 1000)%Z).
Proof.
  apply (fetch_by_query_requests (H := plain_builtins) 3 "topic:maps" 5 1000 None
           (warm 4999 (script_of two_pages))).
  vm_compute. lia.
Defined.

(** The theorem applies to a target of zero repositories. *)
Lemma search_repositories_nothing_wanted_witness :
  exists r w',
    search_repositories (H := plain_builtins) 0 "stars:>=5 sort:stars" 0
      (Some "out.parquet") None (warm 4999 (script_of two_pages)) = Some (r, w')
    /\ _repos w' = []
    /\ added quota_event (warm 4999 (script_of two_pages)) w'
    /\ (forall rows, r = Ok rows -> rows = []).
Proof.
  apply (search_repositories_nothing_wanted (H := plain_builtins) 0
           "stars:>=5 sort:stars" 0 (Some "out.parquet") None
           (warm 4999 (script_of two_pages))).
  lia.
Defined.

(** * Frames of the discovery of accounts *)

Lemma quota_user_page_event q m ev : quota_event ev -> user_page_event q m ev.
Proof. destruct ev as [t v|d|p rows]; [destruct t, v|..]; cbn; tauto. Qed.

Section DiscoveryFrames.
Context `{Builtins}.

Lemma steps_paginated_loop query max_count : forall fuel users cursor,
  steps (quiet (user_page_event query max_count))
    (paginated_loop fuel query max_count users cursor).
Proof.
  set (P := user_page_event query max_count).
  induction fuel as [|fuel IH]; intros users cursor; cbn [paginated_loop];
    (destruct (len users <? max_count)%Z eqn:Hlt; [|apply steps_ret, quiet_refl]).
  - apply steps_out_of_fuel.
  - apply Z.ltb_lt in Hlt. pose proof (len_nonneg users) as Hn.
    apply steps_bind; [apply quiet_trans| |intros _].
    { eapply steps_weaken; [|apply steps_wait_for_rate_limit].
      intros v v'. apply quiet_weaken, quota_user_page_event. }
    cbv zeta.
    apply steps_bind; [apply quiet_trans| |].
    { apply steps_try_execute; [|intros d; exact I].
      exists (Z.min 100 (max_count - len users)), cursor.
      split; [reflexivity|lia]. }
    intros [data|]; [|apply steps_ret, quiet_refl].
    repeat (apply steps_bind; [apply quiet_trans|apply steps_lift, quiet_refl|intros ?]).
    destruct (negb (truthy a4)); [apply steps_ret, quiet_refl|].
    apply steps_bind; [apply quiet_trans|apply steps_lift, quiet_refl|intros cursor'].
    apply IH.
Qed.

(** X21.  [_paginated_user_search] leaves the buffer alone and writes no
    file; every page it asks for is a page of the query it was given, of
    between 1 and 100 accounts and never of more than [max_count]; it returns
    at most [max_count] logins, and with [max_count] zero or negative it
    returns the empty list without any request. *)
Theorem paginated_user_search_pages fuel query max_count w r w' :
  _paginated_user_search fuel query max_count w = Some (r, w') ->
  quiet (user_page_event query max_count) w w'
  /\ (forall users, r = Ok users -> (len users <= Z.max 0 max_count)%Z)
  /\ ((max_count <= 0)%Z -> r = Ok [] /\ w' = w).
Proof.
  intros E. split; [|split].
  - unfold _paginated_user_search in E. eapply steps_paginated_loop, E.
  - intros users ->. eapply paginated_user_search_bound, E.
  - intros Hm. unfold _paginated_user_search in E.
    assert (Hlt : (len (@nil value) <? max_count)%Z = false)
      by (apply Z.ltb_ge; cbn; lia).
    destruct fuel; cbn [paginated_loop] in E; rewrite Hlt in E;
      injection E as <- <-; split; reflexivity.
Qed.

Lemma steps_try_count (P : event -> Prop) query :
  P (Posted USER_COUNT_QUERY (VDict [("query", VStr query)])) ->
  (forall d, P (Slept d)) -> steps (quiet P) (try_count query).
Proof.
  intros HP HS. unfold try_count.
  apply steps_try_except; [apply quiet_trans| |intros e; apply steps_ret, quiet_refl].
  apply steps_bind; [apply quiet_trans|now apply steps_execute|intros data].
  repeat (apply steps_bind; [apply quiet_trans|apply steps_lift, quiet_refl|intros ?]).
  apply steps_ret, quiet_refl.
Qed.

Lemma quota_range_event bq lo hi ev : quota_event ev -> range_event bq lo hi ev.
Proof. destruct ev as [t v|d|p rows]; [destruct t, v|..]; cbn; tauto. Qed.

Lemma page_range_event bq lo hi s e m ev :
  range_within lo hi (s, e) ->
  user_page_event (range_query bq s e) m ev -> range_event bq lo hi ev.
Proof.
  intros [Hs He]. cbn [fst snd] in Hs, He.
  destruct ev as [t v|d|p rows]; [destruct t|..]; cbn; try tauto.
  intros (first & cursor & -> & Hf & _). exists s, e, first, cursor. auto.
Qed.

Lemma split_range_within lo hi s e :
  range_within lo hi (s, e) -> (e - s <=? 1)%Z = false ->
  range_within lo hi (fst (split_range s e))
  /\ range_within lo hi (snd (split_range s e)).
Proof.
  unfold range_within, split_range. cbn [fst snd]. intros [Hs He] Hd.
  apply Z.leb_gt in Hd.
  assert (1 <= (e - s) / 2)%Z by (apply Z.div_le_lower_bound; lia).
  assert ((e - s) / 2 < e - s)%Z by (apply Z.div_lt; lia).
  lia.
Qed.

Lemma steps_date_split_loop bq mu lo hi : forall fuel users ranges,
  Forall (range_within lo hi) ranges ->
  steps (quiet (range_event bq lo hi)) (date_split_loop fuel bq mu users ranges).
Proof.
  set (P := range_event bq lo hi).
  assert (Rf := quiet_refl P). assert (Rt := quiet_trans P).
  induction fuel as [|fuel IH]; intros users [|[s e] ranges] Hr; cbn [date_split_loop];
    try (apply steps_ret, Rf);
    (destruct (under_cap mu users); [|apply steps_ret, Rf]).
  - apply steps_out_of_fuel.
  - inversion Hr as [|? ? Hse Hrest]; subst. cbv zeta.
    change (bq ++ " " ++ ("created:" ++ isoformat s ++ ".." ++ isoformat e))%string
      with (range_query bq s e).
    assert (Hpage : forall f m,
              steps (quiet P) (_paginated_user_search f (range_query bq s e) m)).
    { intros f m. unfold _paginated_user_search.
      eapply steps_weaken; [|apply steps_paginated_loop].
      intros v v'. apply quiet_weaken. intros ev. now apply page_range_event. }
    apply steps_bind; [exact Rt| |intros _].
    { eapply steps_weaken; [|apply steps_wait_for_rate_limit].
      intros v v'. apply quiet_weaken, quota_range_event. }
    apply steps_bind; [exact Rt| |].
    { apply steps_try_count; [|intros d; exact I].
      destruct Hse as [Hs He]. cbn [fst snd] in Hs, He. exists s, e. auto. }
    intros [count|]; [|now apply IH].
    destruct (py_is_zero count); [now apply IH|].
    apply steps_bind; [exact Rt|apply steps_lift, Rf|intros c].
    destruct (c <=? 1000)%Z.
    { cbv zeta. apply steps_bind; [exact Rt|apply Hpage|intros new_users].
      now apply IH. }
    cbv zeta. destruct (e - s <=? 1)%Z eqn:Hd.
    { apply steps_bind; [exact Rt|apply Hpage|intros new_users]. now apply IH. }
    destruct (split_range_within lo hi s e Hse Hd) as [H1 H2].
    destruct (split_range s e) as [first_half second_half]. cbn [fst snd] in H1, H2.
    apply IH. constructor; [exact H1|constructor; [exact H2|exact Hrest]].
Qed.

Lemma steps_fetch_users_with_date_split fuel today base_query max_users :
  (GITHUB_FOUNDING <= today)%Z ->
  steps (quiet (range_event base_query GITHUB_FOUNDING today))
    (_fetch_users_with_date_split fuel today base_query max_users).
Proof.
  intros Ht. unfold _fetch_users_with_date_split.
  apply steps_date_split_loop. repeat constructor; cbn [fst snd]; lia.
Qed.

(** X22.  [_fetch_users_with_date_split] leaves the buffer alone and writes
    no file.  Its requests are counting requests and pages of 1 to 100
    accounts, each for the base query followed by a range of creation dates
    [s..e] that lies between the founding day and today with [s <= e].  The
    logins it returns are pairwise distinct. *)
Theorem fetch_users_with_date_split_requests fuel today base_query max_users
    w r w' :
  (GITHUB_FOUNDING <= today)%Z ->
  _fetch_users_with_date_split fuel today base_query max_users w = Some (r, w') ->
  quiet (range_event base_query GITHUB_FOUNDING today) w w'
  /\ (forall users, r = Ok users -> NoDup users).
Proof.
  intros Ht E. split.
  - exact (steps_fetch_users_with_date_split _ _ _ _ Ht _ _ _ E).
  - intros users ->. eapply fetch_users_with_date_split_NoDup, E.
Qed.

(** The two passes of [fetch_users_by_location]: the users, then, when asked
    for, the organizations, searched in the world the first pass left with
    what is left of [max_users]. *)
Lemma fetch_users_by_location_frame fuel today location include_orgs max_users
    w r w' :
  (GITHUB_FOUNDING <= today)%Z ->
  fetch_users_by_location fuel today location include_orgs max_users w = Some (r, w') ->
  quiet (discovery_event location today include_orgs) w w'
  /\ (forall accounts, r = Ok accounts ->
        exists users w1,
          _fetch_users_with_date_split fuel today (account_query location "user")
            max_users w = Some (Ok users, w1)
          /\ NoDup users
          /\ if include_orgs
             then exists orgs,
                    _fetch_users_with_date_split fuel today
                      (account_query location "org") (org_quota max_users users) w1
                    = Some (Ok orgs, w')
                    /\ NoDup orgs /\ accounts = users ++ orgs
             else accounts = users /\ w' = w1).
Proof.
  intros Ht E. unfold fetch_users_by_location in E. cbv zeta in E.
  change ("location:" ++ dquote ++ location ++ dquote ++ " type:user")%string
    with (account_query location "user") in E.
  change ("location:" ++ dquote ++ location ++ dquote ++ " type:org")%string
    with (account_query location "org") in E.
  apply bind_inv in E as [(users & w1 & E1 & E)|(e & E1 & ->)].
  2:{ split; [|discriminate].
      apply (steps_fetch_users_with_date_split _ _ _ _ Ht) in E1.
      revert E1. apply quiet_weaken. intros ev Hev. now left. }
  assert (Q1 : quiet (discovery_event location today include_orgs) w w1).
  { pose proof (steps_fetch_users_with_date_split _ _ _ _ Ht _ _ _ E1) as S1.
    revert S1. apply quiet_weaken. intros ev Hev. now left. }
  pose proof (fetch_users_with_date_split_NoDup _ _ _ _ _ _ _ E1) as N1.
  destruct include_orgs.
  - apply bind_inv in E as [(orgs & w2 & E2 & E)|(e & E2 & ->)].
    + injection E as <- <-. split.
      * apply quiet_trans with w1; [exact Q1|].
        pose proof (steps_fetch_users_with_date_split _ _ _ _ Ht _ _ _ E2) as S2.
        revert S2. apply quiet_weaken. intros ev Hev. right. now split.
      * intros accounts Ha. injection Ha as <-. exists users, w1.
        split; [exact E1|]. split; [exact N1|]. exists orgs.
        split; [exact E2|]. split; [|reflexivity].
        eapply fetch_users_with_date_split_NoDup, E2.
    + split; [|discriminate].
      apply quiet_trans with w1; [exact Q1|].
      pose proof (steps_fetch_users_with_date_split _ _ _ _ Ht _ _ _ E2) as S2.
      revert S2. apply quiet_weaken. intros ev Hev. right. now split.
  - injection E as <- <-. split; [exact Q1|].
    intros accounts Ha. injection Ha as <-. exists users, w1.
    split; [exact E1|]. split; [exact N1|]. split; reflexivity.
Qed.

(** X23.  [fetch_users_by_location] finishes on every finite script of
    responses.  It leaves the buffer alone and writes no file; it only posts
    the counting requests and the pages of the date-splitting search for the
    users of the location and, when organizations are included, for its
    organizations.  The list it returns is what the search for the users
    returned, followed, when organizations are included, by what the search
    for the organizations returned in the world the first search left, with
    what is left of [max_users]; neither part has a repeated login, and
    without organizations the list is that of the users. *)
Theorem fetch_users_by_location_discovery fuel today location include_orgs
    max_users w :
  (GITHUB_FOUNDING <= today)%Z ->
  (2 * List.length (script w) + 1 < fuel)%nat ->
  exists r w',
    fetch_users_by_location fuel today location include_orgs max_users w = Some (r, w')
    /\ quiet (discovery_event location today include_orgs) w w'
    /\ (forall accounts, r = Ok accounts ->
          exists users w1,
            _fetch_users_with_date_split fuel today (account_query location "user")
              max_users w = Some (Ok users, w1)
            /\ NoDup users
            /\ if include_orgs
               then exists orgs,
                      _fetch_users_with_date_split fuel today
                        (account_query location "org") (org_quota max_users users) w1
                      = Some (Ok orgs, w')
                      /\ NoDup orgs /\ accounts = users ++ orgs
               else accounts = users /\ w' = w1).
Proof.
  intros Ht Hfuel.
  destruct (runs_fetch_users_by_location fuel today location include_orgs max_users w
              Hfuel) as (r & w' & E & _).
  exists r, w'. split; [exact E|].
  exact (fetch_users_by_location_frame _ _ _ _ _ _ _ _ Ht E).
Qed.

End DiscoveryFrames.

(** The theorem applies to a page of two organizations. *)
Lemma paginated_user_search_pages_witness :
  quiet (user_page_event "type:org" 2)
    (warm 4999 [HttpOk (users_body 2 ["org1"; "org2"] false)])
    (world_of two_orgs_page (fresh []))
  /\ (len [VStr "org1"; VStr "org2"] <= 2)%Z.
Proof.
  destruct (paginated_user_search_pages (H := plain_builtins) 3 "type:org" 2
              (warm 4999 [HttpOk (users_body 2 ["org1"; "org2"] false)])
              (Ok [VStr "org1"; VStr "org2"]) (world_of two_orgs_page (fresh [])))
    as (Hq & Hb & _).
  - vm_compute. reflexivity.
  - split; [exact Hq|]. exact (Hb _ eq_refl).
Defined.

(** The theorem applies to the search for the organizations of Peru. *)
Lemma fetch_users_with_date_split_requests_witness :
  quiet (range_event (H := plain_builtins) (account_query "Peru" "org")
           GITHUB_FOUNDING a_day_in_2026)
    (warm 4999 two_orgs_run) (world_of two_orgs_found (fresh []))
  /\ NoDup [VStr "org1"; VStr "org2"].
Proof.
  destruct (fetch_users_with_date_split_requests (H := plain_builtins) 3 a_day_in_2026
              (account_query "Peru" "org") None (warm 4999 two_orgs_run)
              (Ok [VStr "org1"; VStr "org2"]) (world_of two_orgs_found (fresh [])))
    as (Hq & Hn).
  - vm_compute. discriminate.
  - vm_compute. reflexivity.
  - split; [exact Hq|]. exact (Hn _ eq_refl).
Defined.

(** The theorem applies to a discovery that finds one user and then two
    organizations. *)
Lemma fetch_users_by_location_discovery_witness :
  exists r w',
    fetch_users_by_location (H := plain_builtins) 10 a_day_in_2026 "Peru" true None
      (warm 4999 user_and_orgs_run) = Some (r, w')
    /\ quiet (discovery_event (H := plain_builtins) "Peru" a_day_in_2026 true)
         (warm 4999 user_and_orgs_run) w'
    /\ (forall accounts, r = Ok accounts ->
          exists users w1,
            _fetch_users_with_date_split (H := plain_builtins) 10 a_day_in_2026
              (account_query "Peru" "user") None (warm 4999 user_and_orgs_run)
            = Some (Ok users, w1)
            /\ NoDup users
            /\ exists orgs,
                 _fetch_users_with_date_split (H := plain_builtins) 10 a_day_in_2026
                   (account_query "Peru" "org") (org_quota None users) w1
                 = Some (Ok orgs, w')
                 /\ NoDup orgs /\ accounts = users ++ orgs).
Proof.
  apply (fetch_users_by_location_discovery (H := plain_builtins) 10 a_day_in_2026 "Peru"
           true None (warm 4999 user_and_orgs_run)).
  - vm_compute. discriminate.
  - vm_compute. lia.
Defined.

(** * Frames of the per-account fetch *)

Lemma fetching_refl Q op w : fetching Q op w w.
Proof. split; [apply is_prefix_refl|split; [apply added_refl|auto]]. Qed.

Lemma fetching_trans Q op w1 w2 w3 :
  fetching Q op w1 w2 -> fetching Q op w2 w3 -> fetching Q op w1 w3.
Proof.
  intros (P1 & (n1 & E1 & F1) & R1) (P2 & (n2 & E2 & F2) & R2). split; [|split].
  - eapply is_prefix_trans; eassumption.
  - exists (n2 ++ n1). split; [rewrite E2, E1; apply app_assoc|].
    apply Forall_app. split; [exact F2|].
    eapply Forall_impl; [|exact F1]. intros ev [Hq Hc]. split; [exact Hq|].
    eapply checkpoint_of_mono; eassumption.
  - auto.
Qed.

Lemma quiet_fetching (P Q : event -> Prop) op w w' :
  (forall ev, P ev -> Q ev /\ not_written ev) -> quiet P w w' -> fetching Q op w w'.
Proof.
  intros HP [Hr (n & E & F)]. split; [|split].
  - rewrite Hr. apply is_prefix_refl.
  - exists n. split; [exact E|]. eapply Forall_impl; [|exact F].
    intros ev Hev. apply HP in Hev. destruct Hev as [Hq Hn]. split; [exact Hq|].
    destruct ev; cbn in *; auto; contradiction.
  - now rewrite Hr.
Qed.

Lemma comprehension_records items : forall page,
  comprehension (fun node => Ok (truthy node)) extract_repo_data items = Ok page ->
  Forall full_record page.
Proof.
  induction items as [|x items IH]; intros page E; cbn [comprehension rbind] in E.
  - injection E as <-. constructor.
  - destruct (truthy x) eqn:T; [|now apply IH].
    apply rbind_ok in E as (y & Ey & E). apply rbind_ok in E as (ys & Eys & E).
    injection E as <-. constructor; [|now apply IH].
    exact (extract_repo_data_record x y T Ey).
Qed.

Section AccountFrames.
Context `{Builtins}.

Lemma steps_user_repos_loop q : forall fuel repos cursor,
  steps (quiet (page_event q 100)) (user_repos_loop fuel q repos cursor).
Proof.
  set (P := page_event q 100).
  induction fuel as [|fuel IH]; intros repos cursor; cbn [user_repos_loop].
  - apply steps_out_of_fuel.
  - cbv zeta. apply steps_bind; [apply quiet_trans| |].
    { apply steps_try_execute; [now exists cursor|intros d; exact I]. }
    intros [data|]; [|apply steps_ret, quiet_refl].
    repeat (apply steps_bind; [apply quiet_trans|apply steps_lift, quiet_refl|intros ?]).
    destruct (negb (truthy a0)); [apply steps_ret, quiet_refl|].
    repeat (apply steps_bind; [apply quiet_trans|apply steps_lift, quiet_refl|intros ?]).
    destruct (negb (truthy a4)); [apply steps_ret, quiet_refl|].
    apply steps_bind; [apply quiet_trans|apply steps_lift, quiet_refl|intros cursor'].
    apply IH.
Qed.

Lemma user_repos_loop_records q : forall fuel repos cursor w rows w',
  user_repos_loop fuel q repos cursor w = Some (Ok rows, w') ->
  Forall full_record repos -> Forall full_record rows.
Proof.
  induction fuel as [|fuel IH]; intros repos cursor w rows w' E Hr;
    cbn [user_repos_loop] in E; [discriminate E|].
  cbv zeta in E.
  apply bind_ok_inv in E as ([data|] & w1 & _ & E).
  2:{ injection E as <- <-. exact Hr. }
  unfold bind at 1, lift in E.
  destruct (py_get data "search" (VDict [])) as [search_data|]; [|discriminate E].
  unfold bind at 1, lift in E.
  destruct (py_get search_data "nodes" (VList [])) as [nodes|]; [|discriminate E].
  unfold bind at 1, lift in E.
  destruct (py_get search_data "pageInfo" (VDict [])) as [page_info|]; [|discriminate E].
  destruct (negb (truthy nodes)).
  { injection E as <- <-. exact Hr. }
  unfold bind at 1, lift in E.
  destruct (py_iter nodes) as [items|]; [|discriminate E].
  unfold bind at 1, lift in E.
  destruct (comprehension _ extract_repo_data items) as [page|] eqn:Ep; [|discriminate E].
  assert (Hp : Forall full_record (repos ++ page)).
  { apply Forall_app. split; [exact Hr|]. now apply (comprehension_records items). }
  cbv zeta in E. unfold bind at 1, lift in E.
  destruct (py_get page_info "hasNextPage" (VBool false)) as [has_next|]; [|discriminate E].
  destruct (negb (truthy has_next)).
  { injection E as <- <-. exact Hp. }
  unfold bind at 1, lift in E.
  destruct (py_get page_info "endCursor" VNone) as [cursor'|]; [|discriminate E].
  eapply IH; eassumption.
Qed.

Variables (op : option string) (min_stars : Z) (include_forks : bool)
  (extra_filter : string).
Variable Q : event -> Prop.
Hypothesis Q_quota : forall ev, quota_event ev -> Q ev.
Hypothesis Q_written : forall p rows, Q (Written p rows).

Lemma steps_quota_fetching {A} (m : M A) :
  steps (quiet quota_event) m -> steps (fetching Q op) m.
Proof.
  apply steps_weaken. intros w w'. apply quiet_fetching.
  intros ev Hev. split; [now apply Q_quota|now apply quota_not_written].
Qed.

Lemma steps_save_progress_fetching p :
  op = Some p -> steps (fetching Q op) (_save_progress p).
Proof.
  intros Hp w r w' E. unfold _save_progress, bind, get_repos in E.
  destruct (_repos w) as [|row rows] eqn:Er.
  - injection E as <- <-. apply fetching_refl.
  - unfold log in E. injection E as <- <-. cbn [_repos]. split; [|split].
    + apply is_prefix_refl.
    + apply added_one with (ev := Written p (row :: rows)); [reflexivity|].
      split; [apply Q_written|]. cbn. rewrite Er.
      repeat split; [exact Hp|discriminate|apply is_prefix_refl].
    + auto.
Qed.

Lemma steps_final_save_fetching (o : option string) :
  o = op ->
  steps (fetching Q op) (match o with
                         | Some p => _save_progress p
                         | None => ret tt
                         end).
Proof.
  intros Eo. destruct o as [p|]; [|apply steps_ret, fetching_refl].
  apply steps_save_progress_fetching. now symmetry.
Qed.

Lemma steps_users_checkpoint_fetching (o : option string) :
  o = op ->
  steps (fetching Q op)
    (match o with
     | Some p =>
         bind get_repos
           (fun rows =>
              if (len rows mod SAVE_INTERVAL =? 0)%Z then _save_progress p else ret tt)
     | None => ret tt
     end).
Proof.
  intros Eo. destruct o as [p|]; [|apply steps_ret, fetching_refl].
  apply steps_bind; [apply fetching_trans| |intros rows].
  { intros w r w' E. unfold get_repos in E. injection E as <- <-. apply fetching_refl. }
  destruct (len rows mod SAVE_INTERVAL =? 0)%Z; [|apply steps_ret, fetching_refl].
  apply steps_save_progress_fetching. now symmetry.
Qed.

Lemma steps_extend_repos rows :
  Forall full_record rows -> steps (fetching Q op) (extend_repos rows).
Proof.
  intros Hr w r w' E. unfold extend_repos, bind, get_repos, set_repos in E.
  injection E as <- <-. cbn [_repos]. split; [|split].
  - now exists rows.
  - now apply added_same.
  - intros Hf. apply Forall_app. split; assumption.
Qed.

Lemma steps_users_loop fuel : forall usernames,
  (forall username ev, In username usernames ->
     page_event (user_repos_query username min_stars include_forks extra_filter) 100 ev ->
     Q ev) ->
  steps (fetching Q op)
    (users_loop fuel usernames op min_stars include_forks extra_filter).
Proof.
  induction usernames as [|username rest IH]; intros HQ; cbn [users_loop].
  - apply steps_ret, fetching_refl.
  - apply steps_bind;
      [apply fetching_trans|apply steps_quota_fetching, steps_wait_for_rate_limit|].
    intros _ w r w' E. apply bind_inv in E as [(rows & w1 & E1 & E)|(e & E1 & _)].
    2:{ unfold _fetch_user_repos in E1. apply steps_user_repos_loop in E1.
        revert E1. apply quiet_fetching. intros ev Hev. split.
        - apply (HQ username); [now left|exact Hev].
        - destruct ev as [t v| |]; cbn in *; auto. }
    apply fetching_trans with w1.
    { unfold _fetch_user_repos in E1. apply steps_user_repos_loop in E1.
      revert E1. apply quiet_fetching. intros ev Hev. split.
      - apply (HQ username); [now left|exact Hev].
      - destruct ev as [t v| |]; cbn in *; auto. }
    assert (Hrows : Forall full_record rows).
    { unfold _fetch_user_repos in E1.
      eapply user_repos_loop_records; [exact E1|constructor]. }
    revert E. match goal with |- ?m w1 = _ -> _ => enough (S : steps (fetching Q op) m)
      by (apply S) end.
    apply steps_bind; [apply fetching_trans|now apply steps_extend_repos|intros _].
    apply steps_bind;
      [apply fetching_trans|apply steps_quota_fetching, steps_remaining_requests|].
    intros _.
    apply steps_bind;
      [apply fetching_trans|now apply steps_users_checkpoint_fetching|intros _].
    apply IH. intros u ev Hu. apply HQ. now right.
Qed.

Lemma steps_fetch_repos_for_users_rest fuel usernames :
  (forall username ev, In username usernames ->
     page_event (user_repos_query username min_stars include_forks extra_filter) 100 ev ->
     Q ev) ->
  steps (fetching Q op)
    (bind get_rate_limit_info (fun _ =>
     bind (users_loop fuel usernames op min_stars include_forks extra_filter) (fun _ =>
     bind (match op with
           | Some p => _save_progress p
           | None => ret tt
           end) (fun _ =>
     bind get_rate_limit_info (fun _ => get_repos))))).
Proof.
  intros HQ.
  apply steps_bind;
    [apply fetching_trans|apply steps_quota_fetching, steps_get_rate_limit_info|intros _].
  apply steps_bind; [apply fetching_trans|now apply steps_users_loop|intros _].
  apply steps_bind; [apply fetching_trans|now apply steps_final_save_fetching|intros _].
  apply steps_bind;
    [apply fetching_trans|apply steps_quota_fetching, steps_get_rate_limit_info|intros _].
  intros w r w' E. unfold get_repos in E. injection E as <- <-. apply fetching_refl.
Qed.

End AccountFrames.

Lemma quota_account_event `{Builtins} usernames min_stars include_forks extra_filter ev :
  quota_event ev -> account_event usernames min_stars include_forks extra_filter ev.
Proof. destruct ev as [t v|d|p rows]; [destruct t, v|..]; cbn; tauto. Qed.

Lemma page_account_event `{Builtins} usernames min_stars include_forks extra_filter
    username ev :
  In username usernames ->
  page_event (user_repos_query username min_stars include_forks extra_filter) 100 ev ->
  account_event usernames min_stars include_forks extra_filter ev.
Proof.
  intros Hu. destruct ev as [t v|d|p rows]; [destruct t|..]; cbn; try tauto.
  intros [cursor ->]. now exists username, cursor.
Qed.

Section AccountInvariants.
Context `{Builtins}.

Lemma fetch_repos_for_users_fetching fuel usernames output_path min_stars
    include_forks extra_filter w r w' :
  fetch_repos_for_users fuel usernames output_path min_stars include_forks
    extra_filter w = Some (r, w') ->
  fetching (account_event usernames min_stars include_forks extra_filter) output_path
    (with_repos [] w) w'
  /\ (forall rows, r = Ok rows -> rows = _repos w').
Proof.
  intros E. unfold fetch_repos_for_users in E.
  unfold bind at 1, set_repos in E. split.
  - exact (steps_fetch_repos_for_users_rest output_path min_stars include_forks
             extra_filter
             (account_event usernames min_stars include_forks extra_filter)
             (quota_account_event _ _ _ _) (fun _ _ => I) fuel usernames
             (fun u ev Hu => page_account_event _ _ _ _ u ev Hu) _ _ _ E).
  - intros rows ->.
    repeat (apply bind_ok_inv in E as (? & ? & _ & E)).
    unfold get_repos in E. now injection E as <- <-.
Qed.

(** X24.  [fetch_repos_for_users] starts from an empty buffer.  Besides
    sleeping, refreshing the quota and writing files, it only posts pages of
    100 repositories of the query of one of the accounts it was given.  Every
    file goes to the output path and holds a beginning, never empty, of the
    final buffer; every row of the buffer is a record with the 33 keys; and
    the list returned is the buffer. *)
Theorem fetch_repos_for_users_invariants fuel usernames output_path min_stars
    include_forks extra_filter w r w' :
  fetch_repos_for_users fuel usernames output_path min_stars include_forks
    extra_filter w = Some (r, w') ->
  exists new,
    trace w' = new ++ trace w
    /\ Forall (account_event usernames min_stars include_forks extra_filter) new
    /\ Forall (checkpoint_of output_path (_repos w')) new
    /\ Forall full_record (_repos w')
    /\ (forall rows, r = Ok rows -> rows = _repos w').
Proof.
  intros E.
  destruct (fetch_repos_for_users_fetching _ _ _ _ _ _ _ _ _ E)
    as [(_ & (new & En & Fn) & Hf) Hrows].
  cbn [with_repos _repos trace] in En, Hf.
  exists new. split; [exact En|].
  split; [eapply Forall_impl; [|exact Fn]; now intros ev [? ?]|].
  split; [eapply Forall_impl; [|exact Fn]; now intros ev [? ?]|].
  split; [apply Hf; constructor|exact Hrows].
Qed.

(** X25.  [fetch_by_location_two_step] finishes on every finite script of
    responses.  It first runs the discovery of the accounts of the location,
    which leaves the buffer alone and writes no file.  When the discovery
    raises or finds no account, that is the end: the outcome is that of the
    discovery (the exception, or the empty list), the buffer is not emptied
    and nothing is written.  Otherwise the outcome is that of
    [fetch_repos_for_users] on the accounts found, in the world the discovery
    left: the pages of repositories asked for are those of the accounts
    found and of no other, every file written holds a beginning of the
    final buffer, and the rows returned are that buffer, all of them records
    with the 33 keys. *)
Theorem fetch_by_location_two_step_run fuel today location include_orgs min_stars
    max_users include_forks extra_filter output_path w :
  (GITHUB_FOUNDING <= today)%Z ->
  (2 * List.length (script w) + 1 < fuel)%nat ->
  exists r w' found w1 new,
    fetch_by_location_two_step fuel today location include_orgs min_stars max_users
      include_forks extra_filter output_path w = Some (r, w')
    /\ fetch_users_by_location fuel today location include_orgs max_users w
       = Some (found, w1)
    /\ quiet (discovery_event location today include_orgs) w w1
    /\ trace w' = new ++ trace w1
    /\ Forall (account_event (accounts_of found) min_stars include_forks extra_filter)
         new
    /\ Forall (checkpoint_of output_path (_repos w')) new
    /\ (accounts_of found = [] -> r = found /\ w' = w1)
    /\ (accounts_of found <> [] ->
        fetch_repos_for_users fuel (accounts_of found) output_path min_stars
          include_forks extra_filter w1 = Some (r, w')
        /\ (forall rows, r = Ok rows -> rows = _repos w' /\ Forall full_record rows)).
Proof.
  intros Ht Hfuel.
  destruct (runs_fetch_by_location_two_step fuel today location include_orgs min_stars
              max_users include_forks extra_filter output_path w Hfuel)
    as (r & w' & E & _).
  exists r, w'. pose proof E as E0. unfold fetch_by_location_two_step in E0.
  apply bind_inv in E0 as [(usernames & w1 & E1 & E2)|(e & E1 & ->)].
  2:{ destruct (fetch_users_by_location_frame _ _ _ _ _ _ _ _ Ht E1) as [Q1 _].
      exists (Raise e), w', []. split; [exact E|]. split; [exact E1|].
      split; [exact Q1|]. split; [reflexivity|].
      split; [constructor|]. split; [constructor|].
      split; [now split|]. intros Hn. now contradiction Hn. }
  destruct (fetch_users_by_location_frame _ _ _ _ _ _ _ _ Ht E1) as [Q1 _].
  destruct usernames as [|username rest].
  - injection E2 as <- <-. exists (Ok []), w1, [].
    split; [exact E|]. split; [exact E1|]. split; [exact Q1|].
    split; [reflexivity|]. split; [constructor|]. split; [constructor|].
    split; [now split|]. intros Hn. now contradiction Hn.
  - destruct (fetch_repos_for_users_fetching _ _ _ _ _ _ _ _ _ E2)
      as [(_ & (new & En & Fn) & Hf) Hrows].
    cbn [with_repos _repos trace] in En, Hf.
    exists (Ok (username :: rest)), w1, new.
    split; [exact E|]. split; [exact E1|]. split; [exact Q1|].
    split; [exact En|].
    split; [eapply Forall_impl; [|exact Fn]; now intros ev [? ?]|].
    split; [eapply Forall_impl; [|exact Fn]; now intros ev [? ?]|].
    split; [discriminate|]. intros _. split; [exact E2|].
    intros rows Hr. rewrite (Hrows _ Hr). split; [reflexivity|].
    apply Hf. constructor.
Qed.

End AccountInvariants.

(** The theorem applies to one account with two pages of repositories. *)
Lemma fetch_repos_for_users_invariants_witness :
  exists new,
    trace (world_of ana_repos (fresh [])) = new ++ []
    /\ Forall (account_event (H := plain_builtins) [VStr "ana"] 1 false "") new
    /\ Forall (checkpoint_of (Some "out.parquet") (_repos (world_of ana_repos (fresh []))))
         new
    /\ Forall full_record (_repos (world_of ana_repos (fresh []))).
Proof.
  destruct (fetch_repos_for_users_invariants (H := plain_builtins) 3 [VStr "ana"]
              (Some "out.parquet") 1 false "" (warm 4999 (script_of two_pages))
              (outcome_of ana_repos (Raise TypeError)) (world_of ana_repos (fresh [])))
    as (new & En & Fa & Fc & Ff & _).
  - vm_compute. reflexivity.
  - exists new. repeat split; assumption.
Defined.

(** The theorem applies to the discovery of two organizations followed by
    the end of the script. *)
Lemma fetch_by_location_two_step_run_witness :
  exists r w' found w1 new,
    fetch_by_location_two_step (H := plain_builtins) 6 a_day_in_2026 "Peru" true 1 None
      false "" None (warm 4999 two_orgs_run) = Some (r, w')
    /\ fetch_users_by_location (H := plain_builtins) 6 a_day_in_2026 "Peru" true None
         (warm 4999 two_orgs_run) = Some (found, w1)
    /\ quiet (discovery_event (H := plain_builtins) "Peru" a_day_in_2026 true)
         (warm 4999 two_orgs_run) w1
    /\ trace w' = new ++ trace w1
    /\ Forall (account_event (H := plain_builtins) (accounts_of found) 1 false "") new
    /\ Forall (checkpoint_of None (_repos w')) new
    /\ (accounts_of found = [] -> r = found /\ w' = w1)
    /\ (accounts_of found <> [] ->
        fetch_repos_for_users (H := plain_builtins) 6 (accounts_of found) None 1
          false "" w1 = Some (r, w')
        /\ (forall rows, r = Ok rows -> rows = _repos w' /\ Forall full_record rows)).
Proof.
  apply (fetch_by_location_two_step_run (H := plain_builtins) 6 a_day_in_2026 "Peru" true
           1 None false "" None (warm 4999 two_orgs_run)).
  - vm_compute. discriminate.
  - vm_compute. lia.
Defined.

(** * The extraction of a node of the per-account query *)

Lemma assoc_dict_set k k' v d :
  assoc k (dict_set d k' v) = if k' =? k then Some v else assoc k d.
Proof.
  induction d as [|[k0 v0] d IH]; cbn [dict_set assoc].
  - reflexivity.
  - destruct (k0 =? k') eqn:E0; cbn [assoc].
    + apply String.eqb_eq in E0. subst k0. now destruct (k' =? k).
    + rewrite IH. destruct (k0 =? k) eqn:E1; [|reflexivity].
      apply String.eqb_eq in E1. subst k0. now rewrite String.eqb_sym, E0.
Qed.

Lemma assoc_None k d : assoc k d = None <-> ~ In k (map fst d).
Proof.
  induction d as [|[k0 v0] d IH]; cbn [assoc map fst In]; [tauto|].
  destruct (k0 =? k) eqn:E0.
  - apply String.eqb_eq in E0. split; [discriminate|]. intros Hn. exfalso. auto.
  - apply String.eqb_neq in E0. rewrite IH. tauto.
Qed.

Lemma assoc_unpack k : forall entries d,
  NoDup (map fst entries) ->
  assoc k (fold_left (fun acc kv => dict_set acc (fst kv) (snd kv)) entries d)
  = match assoc k entries with
    | Some v => Some v
    | None => assoc k d
    end.
Proof.
  induction entries as [|[k1 v1] rest IH]; intros d Hn; cbn [fold_left assoc fst snd].
  - reflexivity.
  - cbn [map fst] in Hn. inversion Hn as [|? ? Hk Hrest]; subst.
    rewrite (IH _ Hrest), assoc_dict_set.
    destruct (k1 =? k) eqn:E1; [|reflexivity].
    apply String.eqb_eq in E1. subst k1.
    apply assoc_None in Hk. now rewrite Hk.
Qed.

(** X26.  On a node for which [extract_repo_data] returns a record,
    [_extract_repo_from_user_query] returns one too, whatever the owner
    information.  Every entry of the owner information is in it, also when
    its key is one of the 25 repository keys; each repository key that the
    owner information does not set holds the value [extract_repo_data] gives
    it; and there is no other key. *)
Theorem extract_repo_from_user_query_agrees node owner_info record :
  truthy node = true ->
  NoDup (map fst owner_info) ->
  extract_repo_data node = Ok (VDict record) ->
  exists fields,
    _extract_repo_from_user_query node (VDict owner_info) = Ok (VDict fields)
    /\ (forall k v, assoc k owner_info = Some v -> assoc k fields = Some v)
    /\ (forall k, In k repo_keys -> assoc k owner_info = None ->
          assoc k fields = assoc k record)
    /\ (forall k, assoc k fields = None <->
          ~ In k repo_keys /\ assoc k owner_info = None).
Proof.
  intros T Hn E. unfold extract_repo_data in E. rewrite T in E. cbn [negb] in E.
  do 2 skip_rbind E.
  apply rbind_ok in E as (languages & El & E).
  apply rbind_ok in E as (topics & Et & E).
  apply rbind_ok in E as (readme_content & Er & E).
  apply rbind_ok in E as (license0 & E01 & E). cbv zeta in E.
  apply rbind_ok in E as (primary0 & E02 & E). cbv zeta in E.
  apply rbind_ok in E as (nwo & E03 & E).
  apply rbind_ok in E as (name & E04 & E).
  apply rbind_ok in E as (description & E05 & E).
  apply rbind_ok in E as (url & E06 & E).
  apply rbind_ok in E as (homepage_url & E07 & E).
  apply rbind_ok in E as (created_at & E08 & E).
  apply rbind_ok in E as (updated_at & E09 & E).
  apply rbind_ok in E as (pushed_at & E10 & E).
  apply rbind_ok in E as (stars & E11 & E).
  apply rbind_ok in E as (forks & E12 & E).
  apply rbind_ok in E as (watchers & E13 & E).
  apply rbind_ok in E as (open_issues & E14 & E).
  apply rbind_ok in E as (disk_usage_kb & E15 & E).
  apply rbind_ok in E as (primary_language & E16 & E).
  apply rbind_ok in E as (is_fork & E17 & E).
  apply rbind_ok in E as (is_archived & E18 & E).
  apply rbind_ok in E as (is_private & E19 & E).
  apply rbind_ok in E as (is_template & E20 & E).
  apply rbind_ok in E as (has_wiki & E21 & E).
  apply rbind_ok in E as (has_issues & E22 & E).
  apply rbind_ok in E as (license_key & E23 & E).
  apply rbind_ok in E as (license_name & E24 & E).
  repeat skip_rbind E.
  injection E as <-.
  unfold _extract_repo_from_user_query.
  rewrite El, Et, Er, E01, E02. cbn [rbind]. cbv zeta.
  rewrite E03, E04, E05, E06, E07, E08, E09, E10, E11, E12, E13, E14, E15, E16.
  cbn [rbind].
  rewrite E17, E18, E19, E20, E21, E22, E23, E24. cbn [rbind dict_unpack].
  eexists. split; [reflexivity|]. split; [|split].
  - intros k v Hk. rewrite (assoc_unpack _ _ _ Hn), Hk. reflexivity.
  - intros k Hin Hk. rewrite (assoc_unpack _ _ _ Hn), Hk.
    unfold repo_keys in Hin. cbn [In] in Hin.
    repeat (destruct Hin as [<-|Hin]; [reflexivity|]). contradiction.
  - intros k. rewrite (assoc_unpack _ _ _ Hn).
    destruct (assoc k owner_info) as [v|].
    + split; [discriminate|]. intros [_ Hk]. discriminate Hk.
    + rewrite assoc_None. cbn [map fst]. unfold repo_keys. tauto.
Qed.

(** The theorem applies to a repository of Lima and an owner login. *)
Lemma extract_repo_from_user_query_agrees_witness :
  exists fields,
    _extract_repo_from_user_query (repo_in "Lima, Peru")
      (VDict [("owner_login", VStr "ana"); ("stars", VInt 0)]) = Ok (VDict fields)
    /\ assoc "stars" fields = Some (VInt 0)
    /\ assoc "name" fields = Some (VStr "tool").
Proof.
  destruct (extract_repo_from_user_query_agrees (repo_in "Lima, Peru")
              [("owner_login", VStr "ana"); ("stars", VInt 0)]
              (fields_of (extracted (repo_in "Lima, Peru"))))
    as (fields & E & Ho & Hr & _).
  - reflexivity.
  - repeat constructor; cbn; intuition discriminate.
  - vm_compute. reflexivity.
  - exists fields. split; [exact E|]. split.
    + apply Ho. reflexivity.
    + rewrite (Hr "name"); [reflexivity|cbn; tauto|reflexivity].
Defined.
